(* ===== verification/_CoqProject ===== *)
-Q . S2P
Fai.v
PyDict.v
PyValue.v
Normalizer.v
PathOps.v
Base64.v
Base64Spec.v
Worker.v
Export.v
JsonRead.v
TxtRead.v
Cli.v
Scheduler.v
Pipeline.v
Program.v
