(* ===== verification/Fai.v ===== *)
(** * A verification development for [src/fai.py]

    [src/fai.py] is a batch ID-document extraction tool.  [main] lists the
    image files of a directory, base64-encodes each one ([encode_image]),
    submits one [process_image] call per image to a thread pool of
    [max_workers] threads, collects the results in completion order into
    the dict [output_data], and writes that dict as JSON, TXT or CSV.
    [process_image] asks a remote vision-language model for a JSON object,
    parses it, rewrites placeholder values to ["na"] ([fill_missing_fields]),
    strips quotes from the height, optionally crops the face, and turns
    every exception into the record [{"error": str(e)}].

    ** Library layout (dependency order, see [_CoqProject])

    - [Fai] (this file): the prelude.  The result monad [result E A] with
      stdpp's [≫=] notation (Python code that may raise), [mapM] for
      [list(executor.map(...))] with its lemmas (first failing element,
      all elements succeed), the [fai] hint databases, the tactics
      [res_simpl] and [div_mod_lia], and the lemmas on strings that all
      components share.
    - [PyDict]: Python's insertion-ordered [dict] with string keys, as an
      association list without duplicate keys: [dict_get], [dict_set]
      (overwrite in place or append), [dict_keys].  Abstraction [to_map]
      into stdpp's [gmap], the setoid [dict_equiv] (same contents, any
      order) with [Proper] instances, and the refinement lemmas.
    - [PyValue]: the values [json.loads] produces ([pyval]), exceptions
      ([exn], with CPython's messages), and the operations [fai.py] applies
      to them: [==] ([py_eq]), truthiness, [len], [in], [d[k]],
      [d[k] = v], [int()], [str.replace], [str.strip], [str()]/[repr()];
      [int(str(z)) = z] for every integer.  Strings are Rocq [string]s,
      sequences of code points below 256; JSON numbers are Python [int]s.
    - [Normalizer]: [fill_missing_fields] (lines 17-21) with the live
      iteration of the Python [for] loop over a container it mutates
      ([fill_loop], fuel [len(data) + 1], proved enough by the lemma
      [fill_loop_enough]), and the height clean-up of lines 72-73.
    - [PathOps]: [os.path.join], [os.path.splitext], [str.lower], the
      image-file filter of lines 97-100, the face-crop path of line 83.
    - [Base64]: [base64.b64encode] (three bytes at a time, with its
      alphabet string) and [encode_image] (lines 11-15); the file read is a
      capability that may raise.
    - [Base64Spec]: RFC 4648 written from its definition: Table 1 by
      ranges ([rfc_char]), the bit-stream encoding ([b64_ref]) and the
      decoder of the same table ([b64decode]).
    - [Worker]: [process_image] (lines 23-88) against a [Runtime] record of
      the external capabilities (model call, [json.loads], [Image.open],
      [crop], [save]); the crops it saves are returned as a list of writes.
    - [Export]: the writers of lines 124-157, as functions from
      [output_data] to the text of the file: [Json.export_json]
      ([json.dump] with [indent=4]), [Txt.export_txt] (the text written
      before an exception, and the exception), [Csv.export_csv]
      ([csv.DictWriter], [QUOTE_MINIMAL], ["\r\n"]) with the reference
      reader [Csv.csv_read]; the dispatch [export] on the lower-cased
      format and the [argparse] check of [--output_format].
    - [JsonRead]: a reference JSON reader ([json_read], recursive descent
      with fuel, the length of the text being enough).
    - [TxtRead]: a reference reader of the TXT layout ([txt_read]).
    - [Cli]: [parser.parse_args()] of lines 160-170 as CPython 3.12's
      argparse runs it: classification of every argument (exact, [=value]
      and abbreviated options, negative numbers), the left-to-right
      consumption with [type=int] and [choices], [required], [-h], and the
      extras.
    - [Scheduler]: the thread pool of lines 111-118 as a step relation
      [pool_step] (start a queued task on a free thread, finish a running
      task, collect a completed future into [output_data]), generic in the
      task through the class [PoolWork]; the invariant [pool_inv] records
      where every task is, the bound on running tasks, and where every
      entry and every saved file comes from; [sched_run] is an executable
      scheduler whose runs are runs of [pool_step].
    - [Pipeline]: [main] (lines 97-121) composed from the parts:
      [main_prepare] (filter, encoding, executor creation),
      [main_reaches] (the states of the pool) and [main_runs] (every
      [output_data] and list of saved crops that some interleaving
      produces).
    - [Program]: the script of lines 90-171: [parse_args], then [main]
      against a [System] record of the calls that may raise
      ([LLM(model=...)], [os.makedirs], [os.listdir], the file reads,
      [open(path, "w")]); [script_runs argv o] relates the arguments to
      every possible end (exit status, escaped exception, written file).

    ** What the theorems show (claim ids in brackets)

    - Refinement, end to end: when every call the script makes succeeds,
      every run writes the chosen format of an [output_data] that maps
      each image file to its [process_image] result (C1); [main] alone
      (C4); the drained pool against [spec_batch], the per-key batch
      result, for every interleaving (C3); [process_image]'s contract
      (C2); the placeholder pass on objects (C5).
    - Invariants of the runs of [main]: a crop is saved only for an image
      whose extraction succeeded, at its own path (C6); at most
      [max_workers] images are processed at once (C7); every parsed
      namespace has an input directory and a valid format (C8).
    - Round trips: command-line namespaces (C9); the JSON (C10), TXT (C11)
      and CSV (C12) files read back as [output_data]; the data URI of
      [encode_image] is the RFC 4648 encoding of the file (C13, an
      equivalence) and decodes to its bytes (C14).
    - Safety of the export: with object answers the TXT export never
      raises (C15); every accepted format has a writer (C25).
    - Behaviour on every branch and error paths: the height clean-up
      (C16, C17) and the non-idempotence of [normalize] (C18); answers
      that are not objects (C19); the model error, crop, crop-failure and
      string-box paths of the worker (C20-C23); the TXT crash on a
      non-dict record (C24); the CSV drops [altered] (C26); negative
      worker counts and abbreviations in [argparse] (C27, C28); face-crop
      overwrites and the order of [output_data] (C29, C30); the executor
      error after the encode phase (C31) and the encode phase's first
      failure (C32); a negative worker count never writes a file (C33);
      an output path that cannot be opened loses the batch (C34).

    Witnesses (the lemmas named [*_witness]) apply each theorem with
    hypotheses to concrete inputs, using [demo_rt], a runtime whose model
    answers one image and fails on the others.

    ** Bounds and fuel

    [fill_loop] gets [len(data) + 1] steps, one per item and the final
    [next()]; [fill_loop_enough] shows any larger fuel gives the same
    result.  [json_read] gets the length of its text, enough since every
    value takes one character at least ([size_le_length]).  The pool
    needs no fuel: [pool_step] is a relation, and [pool_drains] shows
    (by a decreasing measure) that every state reaches a drained one.

    ** Not modelled

    The network call, [json.loads] and PIL are external: they are fields of
    the [Runtime] record, and every theorem holds for all runtimes.  The
    calls to the operating system are the fields of [System], each of
    which may raise.  The progress messages and [time.time] only print.
    A hung model call (there is no timeout) cannot be represented: the
    worker is a total function.  In [argparse], the separator ["--"] and
    the text of help and usage messages are outside the model.  JSON
    floats, dict keys that are not strings in [d[k] = v], and exceptions
    that are not [Exception] subclasses ([KeyboardInterrupt]) are not
    modelled. *)

From stdpp Require Export base list strings gmap.
From Stdlib Require Export ZArith Lia Ascii.

Declare Scope fai_scope.
Delimit Scope fai_scope with fai.

Create HintDb fai discriminated.
Create Rewrite HintDb fai_rw.

(** ** Computations that may raise *)

(** A Python statement either produces a value or raises an exception.
    [result E A] is that outcome; [E] is instantiated with the Python
    exceptions of [PyValue]. *)
Inductive result (E A : Type) : Type :=
  | Ok (a : A)
  | Err (e : E).
Arguments Ok {E A} a.
Arguments Err {E A} e.

#[export] Instance result_ret E : MRet (result E) := fun _ a => Ok a.
#[export] Instance result_bind E : MBind (result E) :=
  fun _ _ f m => match m with Ok a => f a | Err e => Err e end.
#[export] Instance result_fmap E : FMap (result E) :=
  fun _ _ f m => match m with Ok a => Ok (f a) | Err e => Err e end.

(** [try: m except e: h e] *)
Definition catch {E A} (m : result E A) (h : E -> A) : A :=
  match m with Ok a => a | Err e => h e end.

(** [list(map(f, xs))]: the first exception in list order propagates. *)
Fixpoint mapM {E A B} (f : A -> result E B) (xs : list A) : result E (list B) :=
  match xs with
  | [] => Ok []
  | x :: xs' => y ← f x; ys ← mapM f xs'; Ok (y :: ys)
  end.

Notation "'raise' e" := (Err e) (at level 10, only parsing) : fai_scope.

Definition is_ok {E A} (m : result E A) : bool :=
  match m with Ok _ => true | Err _ => false end.

Section BindLemmas.
Context {E A B : Type}.

Lemma bind_Ok (a : A) (f : A -> result E B) : (Ok a ≫= f) = f a.
Proof. reflexivity. Qed.

Lemma bind_Err (e : E) (f : A -> result E B) : (Err e ≫= f) = Err e.
Proof. reflexivity. Qed.

Lemma bind_eq_Ok (m : result E A) (f : A -> result E B) b :
  (m ≫= f) = Ok b <-> exists a, m = Ok a /\ f a = Ok b.
Proof.
  destruct m as [a|e]; simpl; split.
  - eauto.
  - intros (a' & [= ->] & H). exact H.
  - discriminate.
  - intros (a' & ? & _). discriminate.
Qed.

Lemma bind_eq_Err (m : result E A) (f : A -> result E B) e :
  (m ≫= f) = Err e <-> m = Err e \/ exists a, m = Ok a /\ f a = Err e.
Proof.
  destruct m as [a|e']; simpl; split.
  - eauto.
  - intros [? | (a' & [= ->] & H)]; [discriminate | exact H].
  - intros [= ->]. auto.
  - intros [[= ->] | (a' & ? & _)]; [reflexivity | discriminate].
Qed.
End BindLemmas.

Section ResultLemmas.
Context {E A B : Type}.

Lemma mapM_length (f : A -> result E B) xs ys :
  mapM f xs = Ok ys -> length ys = length xs.
Proof.
  revert ys; induction xs as [|x xs IH]; intros ys H; simpl in H.
  - by injection H as <-.
  - apply bind_eq_Ok in H as (y & _ & H).
    apply bind_eq_Ok in H as (ys' & Hys & [= <-]). simpl. f_equal. auto.
Qed.

Lemma mapM_Ok_Forall2 (f : A -> result E B) xs ys :
  mapM f xs = Ok ys <-> Forall2 (fun x y => f x = Ok y) xs ys.
Proof.
  revert ys; induction xs as [|x xs IH]; intros ys; simpl.
  - split; [intros [= <-]; constructor | intros H; inversion H; done].
  - split.
    + intros (y & Hy & H)%bind_eq_Ok. apply bind_eq_Ok in H as (ys' & Hys & [= <-]).
      constructor; [done | by apply IH].
    + intros H; inversion H as [|? y ? ys' Hy Hys]; subst.
      rewrite Hy. simpl. apply IH in Hys. by rewrite Hys.
Qed.
(** One failing element makes the whole [mapM] fail. *)
Lemma mapM_elem_Err (f : A -> result E B) xs x e :
  x ∈ xs -> f x = Err e -> exists e', mapM f xs = Err e'.
Proof.
  intros Hx He. induction xs as [|y xs IH]; [by apply not_elem_of_nil in Hx|].
  simpl. destruct (f y) as [b|e'] eqn:Ey; simpl; [|eauto].
  apply elem_of_cons in Hx as [->|Hx]; [congruence|].
  destruct (IH Hx) as [e' ->]. simpl. eauto.
Qed.
(** Every element succeeds: [mapM] succeeds. *)
Lemma mapM_all_Ok (f : A -> result E B) xs :
  (forall x, x ∈ xs -> exists y, f x = Ok y) -> exists ys, mapM f xs = Ok ys.
Proof.
  induction xs as [|x xs IH]; intros H; [by exists []|].
  destruct (H x) as [y Hy]; [by left|]. destruct IH as [ys Hys]; [intros z Hz; apply H; by right|].
  exists (y :: ys). simpl. by rewrite Hy, Hys.
Qed.

(** The first failing element, in list order, gives the exception. *)
Lemma mapM_first_Err (f : A -> result E B) pre x post e :
  (forall y, y ∈ pre -> exists b, f y = Ok b) -> f x = Err e -> mapM f (pre ++ x :: post) = Err e.
Proof.
  induction pre as [|y pre IH]; intros Hpre Hx; simpl; [by rewrite Hx|].
  destruct (Hpre y) as [b Hb]; [by left|]. rewrite Hb. simpl.
  rewrite IH; [done | intros z Hz; apply Hpre; by right | done].
Qed.
(** Each result of a successful [mapM] comes from an element. *)
Lemma mapM_elem_Ok (f : A -> result E B) xs ys y :
  mapM f xs = Ok ys -> y ∈ ys -> exists x, x ∈ xs /\ f x = Ok y.
Proof.
  intros H%mapM_Ok_Forall2 Hy. induction H as [|x y' xs ys' Hx _ IH]; [by apply not_elem_of_nil in Hy|].
  apply elem_of_cons in Hy as [->|Hy]; [exists x; split; [left|done]|].
  destruct (IH Hy) as (x' & Hx' & Hf). exists x'. split; [by right|done].
Qed.

End ResultLemmas.

#[export] Hint Rewrite @bind_Ok @bind_Err : fai_rw.

(** [res_simpl] splits every hypothesis [m ≫= f = Ok b] into its two
    successful steps, the way a reader follows a Python statement that
    did not raise. *)
Ltac res_simpl :=
  repeat match goal with
  | H : (_ ≫= _) = Ok _ |- _ =>
      apply bind_eq_Ok in H as (? & ? & H)
  | H : Ok _ = Ok _ |- _ => injection H as H
  | H : Ok _ = Err _ |- _ => discriminate H
  | H : Err _ = Ok _ |- _ => discriminate H
  end.

(** The double-quote character and the one-character string of it. *)
Definition dquote : ascii := "034"%char.
Definition dquote_str : string := String dquote EmptyString.

(** Arithmetic with division and remainder by constants. *)
Ltac div_mod_lia := Z.div_mod_to_equations; lia.

(** ** Shared lemmas on strings *)

(** stdpp declares [String.append] [simpl never]; these two equations are
    its computation rules, used by [autorewrite with fai_rw]. *)
Lemma string_app_nil_l (t : string) : "" +:+ t = t.
Proof. reflexivity. Qed.

Lemma string_app_cons c (s t : string) : String c s +:+ t = String c (s +:+ t).
Proof. reflexivity. Qed.

#[export] Hint Rewrite string_app_nil_l string_app_cons : fai_rw.

Lemma string_app_length (s t : string) :
  String.length (s +:+ t) = String.length s + String.length t.
Proof. induction s; autorewrite with fai_rw; simpl; auto. Qed.

Lemma string_app_assoc (s t u : string) : s +:+ (t +:+ u) = (s +:+ t) +:+ u.
Proof. induction s; autorewrite with fai_rw; congruence. Qed.

Lemma string_app_nil_r (s : string) : s +:+ "" = s.
Proof. induction s; autorewrite with fai_rw; congruence. Qed.

#[export] Hint Rewrite string_app_length string_app_nil_r : fai_rw.

Lemma list_ascii_of_string_app (s t : string) :
  String.list_ascii_of_string (s +:+ t) = String.list_ascii_of_string s ++ String.list_ascii_of_string t.
Proof. induction s as [|c s IH]; [done|]. rewrite string_app_cons. simpl. by rewrite IH. Qed.

Lemma forallb_rev {A} (f : A -> bool) (l : list A) : forallb f (rev l) = forallb f l.
Proof.
  induction l as [|x l IH]; [done|]. simpl. rewrite forallb_app, IH. simpl.
  by rewrite andb_true_r, andb_comm.
Qed.

Lemma forallb_impl {A} (f g : A -> bool) (l : list A) :
  (forall x, f x = true -> g x = true) -> forallb f l = true -> forallb g l = true.
Proof. intros Hfg. rewrite !forallb_forall. eauto. Qed.

Lemma string_eq_chars (s t : string) :
  String.list_ascii_of_string s = String.list_ascii_of_string t -> s = t.
Proof.
  intros H. rewrite <- (String.string_of_list_ascii_of_string s), <- (String.string_of_list_ascii_of_string t).
  by rewrite H.
Qed.
