(* ===== verification/PyDict.v ===== *)
(** * Python dicts with string keys

    A Python [dict] remembers insertion order: [d[k] = v] overwrites the
    value in place when [k] is present and appends [(k, v)] otherwise.
    [fai.py] relies on this for [output_data] (line 118), for the parsed
    model response (line 20) and for the order of the TXT and CSV exports.
    We model a dict as an association list without duplicate keys, relate
    it to stdpp's [gmap] by [to_map], and call two dicts equivalent
    ([dict_equiv]) when they hold the same entries in any order. *)

From S2P Require Import Fai.

Section Dict.
Context {V : Type}.

Definition dict := list (string * V).

(** [d.get(k)] / [k in d] *)
Fixpoint dict_get (k : string) (d : dict) : option V :=
  match d with
  | [] => None
  | (k', v) :: d' => if decide (k = k') then Some v else dict_get k d'
  end.

(** [d[k] = v] *)
Fixpoint dict_set (k : string) (v : V) (d : dict) : dict :=
  match d with
  | [] => [(k, v)]
  | (k', v') :: d' =>
      if decide (k = k') then (k, v) :: d' else (k', v') :: dict_set k v d'
  end.

(** [list(d.keys())] *)
Definition dict_keys (d : dict) : list string := map fst d.

Definition dict_mem (k : string) (d : dict) : bool :=
  match dict_get k d with Some _ => true | None => false end.

(** Every dict built by Python has distinct keys. *)
Definition dict_wf (d : dict) : Prop := NoDup (dict_keys d).

(** A dict filled by a sequence of [d[k] = v] statements, starting empty. *)
Definition dict_of_sets (kvs : list (string * V)) : dict :=
  fold_left (fun d '(k, v) => dict_set k v d) kvs [].

(** Abstraction: the finite map the dict denotes. *)
Definition to_map (d : dict) : gmap string V := list_to_map d.

Definition dict_equiv (d1 d2 : dict) : Prop := to_map d1 = to_map d2.

(** ** Lookup and update *)

Lemma dict_get_set_eq k v d : dict_get k (dict_set k v d) = Some v.
Proof.
  induction d as [|[k' v'] d IH]; simpl.
  - by rewrite decide_True.
  - case_decide; simpl; [by rewrite decide_True|].
    rewrite decide_False by done. exact IH.
Qed.

Lemma dict_get_set_ne k k' v d :
  k <> k' -> dict_get k' (dict_set k v d) = dict_get k' d.
Proof.
  intros Hne. induction d as [|[k'' v''] d IH]; simpl.
  - by rewrite decide_False.
  - case_decide as Hk; simpl.
    + subst k''. rewrite !decide_False by congruence. done.
    + case_decide; [done | exact IH].
Qed.

Lemma dict_get_Some_elem k v d : dict_get k d = Some v -> k ∈ dict_keys d.
Proof.
  induction d as [|[k' v'] d IH]; simpl; [discriminate|].
  case_decide as Hk; [subst; intros _; left|intros Hv; right; auto].
Qed.

Lemma dict_get_None k d : dict_get k d = None <-> k ∉ dict_keys d.
Proof.
  induction d as [|[k' v'] d IH]; simpl.
  - split; [intros _; apply not_elem_of_nil | done].
  - rewrite not_elem_of_cons, <- IH. case_decide; naive_solver.
Qed.

Lemma dict_keys_set_in k v d :
  k ∈ dict_keys d -> dict_keys (dict_set k v d) = dict_keys d.
Proof.
  induction d as [|[k' v'] d IH]; simpl; intros Hk.
  - by apply not_elem_of_nil in Hk.
  - case_decide; simpl; [congruence|].
    apply elem_of_cons in Hk as [?|Hk]; [done|]. f_equal. auto.
Qed.

Lemma dict_keys_set_notin k v d :
  k ∉ dict_keys d -> dict_keys (dict_set k v d) = dict_keys d ++ [k].
Proof.
  induction d as [|[k' v'] d IH]; simpl; intros Hk; [done|].
  apply not_elem_of_cons in Hk as [? Hk].
  rewrite decide_False by done. simpl. f_equal. auto.
Qed.

Lemma dict_set_length_in k v d :
  k ∈ dict_keys d -> length (dict_set k v d) = length d.
Proof.
  intros Hk. rewrite <- (length_map fst), <- (length_map fst d).
  by apply (f_equal length), dict_keys_set_in.
Qed.

Lemma dict_set_wf k v d : dict_wf d -> dict_wf (dict_set k v d).
Proof.
  unfold dict_wf. intros Hwf.
  destruct (decide (k ∈ dict_keys d)) as [Hin|Hin].
  - by rewrite dict_keys_set_in.
  - rewrite dict_keys_set_notin by done.
    apply NoDup_app; split_and!; [done| |apply NoDup_singleton].
    intros x Hx ->%list_elem_of_singleton. done.
Qed.

Lemma dict_of_sets_wf kvs : dict_wf (dict_of_sets kvs).
Proof.
  unfold dict_of_sets.
  enough (forall d, dict_wf d -> dict_wf (fold_left (fun d '(k, v) => dict_set k v d) kvs d))
    by (apply H; constructor).
  induction kvs as [|[k v] kvs IH]; simpl; auto using dict_set_wf.
Qed.

(** With distinct keys, [d[k] = v] on the key stored at position [i]
    rewrites that position. *)
Lemma dict_set_at d i k w v :
  dict_wf d -> d !! i = Some (k, w) -> dict_set k v d = <[i := (k, v)]> d.
Proof.
  unfold dict_wf. revert i; induction d as [|[k' v'] d IH]; intros i Hwf Hi; [done|].
  simpl in Hwf. apply NoDup_cons in Hwf as [Hk' Hwf].
  destruct i as [|i]; simpl in Hi.
  - injection Hi as -> ->. simpl. by rewrite decide_True.
  - assert (k ∈ dict_keys d).
    { apply list_elem_of_lookup. exists i. unfold dict_keys. by rewrite list_lookup_fmap, Hi. }
    simpl. rewrite decide_False by (intros ->; contradiction). f_equal. auto.
Qed.

Lemma dict_get_at d i k w :
  dict_wf d -> d !! i = Some (k, w) -> dict_get k d = Some w.
Proof.
  unfold dict_wf. revert i; induction d as [|[k' v'] d IH]; intros i Hwf Hi; [done|].
  simpl in Hwf. apply NoDup_cons in Hwf as [Hk' Hwf].
  destruct i as [|i]; simpl in Hi.
  - injection Hi as -> ->. simpl. by rewrite decide_True.
  - assert (k ∈ dict_keys d).
    { apply list_elem_of_lookup. exists i. unfold dict_keys. by rewrite list_lookup_fmap, Hi. }
    simpl. rewrite decide_False by (intros ->; contradiction). eauto.
Qed.

(** ** Refinement of [gmap] *)

Lemma to_map_lookup d k : to_map d !! k = dict_get k d.
Proof.
  induction d as [|[k' v'] d IH]; simpl; [done|].
  unfold to_map in *. simpl. rewrite lookup_insert.
  case_decide; case_decide; congruence.
Qed.

Lemma to_map_set d k v : to_map (dict_set k v d) = <[k:=v]> (to_map d).
Proof.
  apply map_eq; intros k'. rewrite lookup_insert, !to_map_lookup.
  case_decide; subst; [apply dict_get_set_eq | by apply dict_get_set_ne].
Qed.

Lemma dict_of_sets_to_map_app kvs d :
  to_map (fold_left (fun d '(k, v) => dict_set k v d) kvs d)
  = foldl (fun m '(k, v) => <[k:=v]> m) (to_map d) kvs.
Proof.
  revert d; induction kvs as [|[k v] kvs IH]; intros d; simpl; [done|].
  by rewrite IH, to_map_set.
Qed.

#[export] Instance dict_equiv_equiv : Equivalence dict_equiv.
Proof. unfold dict_equiv. split; [done | by intros ?? | by intros ??? -> ->]. Qed.

#[export] Instance dict_set_proper k v : Proper (dict_equiv ==> dict_equiv) (dict_set k v).
Proof. intros d1 d2 H. unfold dict_equiv in *. by rewrite !to_map_set, H. Qed.

#[export] Instance dict_get_proper k : Proper (dict_equiv ==> eq) (dict_get k).
Proof. intros d1 d2 H. by rewrite <- !to_map_lookup, H. Qed.

(** Two [d[k] = v] statements on different keys commute up to the order
    of the dict. *)
Lemma dict_set_comm k1 v1 k2 v2 d :
  k1 <> k2 ->
  dict_equiv (dict_set k1 v1 (dict_set k2 v2 d)) (dict_set k2 v2 (dict_set k1 v1 d)).
Proof. intros. unfold dict_equiv. rewrite !to_map_set. by apply insert_insert_ne. Qed.

(** In a dict with distinct keys, [d.get(k)] finds every entry. *)
Lemma dict_get_elem k v d : dict_wf d -> (k, v) ∈ d -> dict_get k d = Some v.
Proof. intros Hwf (i & Hi)%list_elem_of_lookup. by eapply dict_get_at. Qed.

End Dict.

Arguments dict : clear implicits.

#[export] Hint Resolve dict_set_wf dict_of_sets_wf : fai.
#[export] Hint Rewrite @dict_get_set_eq @to_map_set @to_map_lookup : fai_rw.
