(* ===== verification/PyValue.v ===== *)
(** * Python values, exceptions and the operations fai.py applies to them

    [json.loads] returns [None], booleans, integers, strings, lists and
    dicts with string keys; [pyval] has one constructor for each.  JSON
    numbers with a fraction or exponent (Python [float]) are outside the
    model.  Strings are Rocq [string]s: sequences of code points below 256,
    on which Python's character classes (whitespace, printable) are written
    out below.

    Each Python operation returns [result exn _]: the value, or the
    exception CPython raises, with the message [str(e)] that
    [process_image] copies into [{"error": str(e)}] (fai.py line 88). *)

From S2P Require Import Fai PyDict.
From stdpp Require Import pretty.

Inductive pyval : Type :=
  | PNone
  | PBool (b : bool)
  | PInt (z : Z)
  | PStr (s : string)
  | PList (l : list pyval)
  | PDict (d : list (string * pyval)).

(** Induction with a hypothesis for every element of a list or dict. *)
Section pyval_ind'.
Variable P : pyval -> Prop.
Hypothesis HNone : P PNone.
Hypothesis HBool : forall b, P (PBool b).
Hypothesis HInt : forall z, P (PInt z).
Hypothesis HStr : forall s, P (PStr s).
Hypothesis HList : forall l, Forall P l -> P (PList l).
Hypothesis HDict : forall d, Forall (fun kv => P kv.2) d -> P (PDict d).

Fixpoint pyval_ind' (v : pyval) : P v :=
  match v with
  | PNone => HNone
  | PBool b => HBool b
  | PInt z => HInt z
  | PStr s => HStr s
  | PList l =>
      HList l ((fix go (l : list pyval) : Forall P l :=
                  match l with
                  | [] => Forall_nil_2 _
                  | x :: l' => Forall_cons_2 P x l' (pyval_ind' x) (go l')
                  end) l)
  | PDict d =>
      HDict d ((fix go (d : list (string * pyval)) : Forall (fun kv => P kv.2) d :=
                  match d with
                  | [] => Forall_nil_2 _
                  | (k, x) :: d' =>
                      Forall_cons_2 (fun kv => P kv.2) (k, x) d' (pyval_ind' x) (go d')
                  end) d)
  end.
End pyval_ind'.

(** ** Exceptions *)

Inductive exn_kind :=
| TypeError | ValueError | AttributeError | KeyError | IndexError
| RuntimeError | OSError | JSONDecodeError | APIError.

(** An exception object; [exn_msg] is [str(e)]. *)
Record exn := Exn { exn_type : exn_kind; exn_msg : string }.

Abbreviation pyres := (result exn).

(** [isinstance(v, dict)] *)
Definition is_dict (v : pyval) : bool := match v with PDict _ => true | _ => false end.

(** [type(v).__name__] *)
Definition type_name (v : pyval) : string :=
match v with
| PNone => "NoneType" | PBool _ => "bool" | PInt _ => "int"
| PStr _ => "str" | PList _ => "list" | PDict _ => "dict"
end.

(** ** Characters *)

Definition code (c : ascii) : N := Ascii.N_of_ascii c.

(** [c.isspace()] for code points below 256. *)
Definition is_py_space (c : ascii) : bool :=
let n := code c in
((9 <=? n)%N && (n <=? 13)%N) || ((28 <=? n)%N && (n <=? 32)%N)
|| (n =? 133)%N || (n =? 160)%N.

(** [c.isprintable()] for code points below 256: the C0 and C1 controls,
  the no-break space and the soft hyphen are not printable. *)
Definition is_py_printable (c : ascii) : bool :=
let n := code c in
negb ((n <? 32)%N || ((127 <=? n)%N && (n <=? 160)%N) || (n =? 173)%N).

Definition hex_digit (n : N) : ascii :=
Ascii.ascii_of_N (if (n <? 10)%N then 48 + n else 87 + n)%N.

(** ["\x%02x"] *)
Definition hex_escape (c : ascii) : string :=
let n := code c in
String "\" (String "x" (String (hex_digit (n / 16)) (String (hex_digit (n mod 16)) ""))).

(** ** [repr] and [str] *)

Fixpoint string_contains_char (c : ascii) (s : string) : bool :=
match s with
| EmptyString => false
| String c' s' => if decide (c = c') then true else string_contains_char c s'
end.

(** The escaping of [repr(s)] with quote character [q]. *)
Fixpoint repr_chars (q : ascii) (s : string) : string :=
match s with
| EmptyString => ""
| String c s' =>
    let e :=
      if decide (c = "\"%char) then String "\" (String "\" "")
      else if decide (c = q) then String "\" (String q "")
      else if decide (c = "009"%char) then String "\" (String "t" "")
      else if decide (c = "010"%char) then String "\" (String "n" "")
      else if decide (c = "013"%char) then String "\" (String "r" "")
      else if is_py_printable c then String c ""
      else hex_escape c in
    e +:+ repr_chars q s'
end.

(** [repr(s)]: single quotes unless the string has a single quote and no
  double quote. *)
Definition repr_str (s : string) : string :=
let q := if string_contains_char "'" s && negb (string_contains_char dquote s)
         then dquote else "'"%char in
String q (repr_chars q s +:+ String q "").

Fixpoint py_repr (v : pyval) : string :=
match v with
| PNone => "None"
| PBool b => if b then "True" else "False"
| PInt z => pretty z
| PStr s => repr_str s
| PList l =>
    match l with
    | [] => "[]"
    | x :: l' =>
        "[" +:+ py_repr x +:+
        (fix rest l' := match l' with
                        | [] => "]"
                        | y :: l'' => ", " +:+ py_repr y +:+ rest l''
                        end) l'
    end
| PDict d =>
    match d with
    | [] => "{}"
    | (k, x) :: d' =>
        "{" +:+ repr_str k +:+ ": " +:+ py_repr x +:+
        (fix rest d' := match d' with
                        | [] => "}"
                        | (k', y) :: d'' => ", " +:+ repr_str k' +:+ ": " +:+ py_repr y +:+ rest d''
                        end) d'
    end
end.

(** [str(v)] *)
Definition py_str (v : pyval) : string :=
match v with PStr s => s | _ => py_repr v end.

(** ** Equality, truth, length *)

(** [a == b].  [True == 1] holds because [bool] is a subclass of [int];
  dicts are equal when they have the same keys with equal values, in any
  order. *)
Fixpoint py_eq (a b : pyval) : bool :=
match a, b with
| PNone, PNone => true
| PBool x, PBool y => Bool.eqb x y
| PBool x, PInt z | PInt z, PBool x => Z.eqb z (Z.b2z x)
| PInt x, PInt y => Z.eqb x y
| PStr s, PStr t => if decide (s = t) then true else false
| PList l1, PList l2 =>
    (fix go l1 l2 := match l1, l2 with
                     | [], [] => true
                     | x :: r1, y :: r2 => py_eq x y && go r1 r2
                     | _, _ => false
                     end) l1 l2
| PDict d1, PDict d2 =>
    Nat.eqb (length d1) (length d2) &&
    (fix go d1 := match d1 with
                  | [] => true
                  | (k, x) :: r =>
                      match dict_get k d2 with
                      | Some y => py_eq x y
                      | None => false
                      end && go r
                  end) d1
| _, _ => false
end.

(** [bool(v)] *)
Definition py_truthy (v : pyval) : bool :=
match v with
| PNone => false
| PBool b => b
| PInt z => negb (Z.eqb z 0)
| PStr s => negb (String.eqb s "")
| PList l => negb (Nat.eqb (length l) 0)
| PDict d => negb (Nat.eqb (length d) 0)
end.

Definition type_error (msg : string) : exn := Exn TypeError msg.

(** [len(v)] *)
Definition py_len (v : pyval) : pyres nat :=
match v with
| PStr s => Ok (String.length s)
| PList l => Ok (length l)
| PDict d => Ok (length d)
| _ => Err (type_error ("object of type '" +:+ type_name v +:+ "' has no len()"))
end.

(** ** Iteration *)

Fixpoint string_chars (s : string) : list pyval :=
match s with
| EmptyString => []
| String c s' => PStr (String c "") :: string_chars s'
end.

(** [list(v)]: the items a [for] loop over [v] yields, when [v] is not
  mutated during the loop. *)
Definition py_iter (v : pyval) : pyres (list pyval) :=
match v with
| PStr s => Ok (string_chars s)
| PList l => Ok l
| PDict d => Ok (map (fun kv => PStr kv.1) d)
| _ => Err (type_error ("'" +:+ type_name v +:+ "' object is not iterable"))
end.

(** ** Membership *)

Fixpoint string_is_prefix (p s : string) : bool :=
match p, s with
| EmptyString, _ => true
| String c p', String c' s' => if decide (c = c') then string_is_prefix p' s' else false
| String _ _, EmptyString => false
end.

(** [t in s] for strings: [t] is a substring of [s]. *)
Fixpoint string_contains (t s : string) : bool :=
string_is_prefix t s ||
match s with EmptyString => false | String _ s' => string_contains t s' end.

Definition is_hashable (v : pyval) : bool :=
match v with PList _ | PDict _ => false | _ => true end.

Definition unhashable (v : pyval) : exn :=
type_error ("unhashable type: '" +:+ type_name v +:+ "'").

(** [x in v] *)
Definition py_contains (v x : pyval) : pyres bool :=
match v with
| PDict d =>
    if is_hashable x then
      Ok (match x with PStr k => dict_mem k d | _ => false end)
    else Err (unhashable x)
| PList l => Ok (existsb (py_eq x) l)
| PStr s =>
    match x with
    | PStr t => Ok (string_contains t s)
    | _ => Err (type_error ("'in <string>' requires string as left operand, not "
                            +:+ type_name x))
    end
| _ => Err (type_error ("argument of type '" +:+ type_name v +:+ "' is not iterable"))
end.

(** ** Subscription *)

(** An integer index: [bool] is an [int]. *)
Definition int_of_index (key : pyval) : option Z :=
match key with PInt z => Some z | PBool b => Some (Z.b2z b) | _ => None end.

(** A negative index counts from the end; [None] when out of range. *)
Definition norm_index (n : nat) (i : Z) : option nat :=
let j := if (i <? 0)%Z then (i + Z.of_nat n)%Z else i in
if (0 <=? j)%Z && (j <? Z.of_nat n)%Z then Some (Z.to_nat j) else None.

(** [v[key]] *)
Definition py_getitem (v key : pyval) : pyres pyval :=
match v with
| PDict d =>
    if is_hashable key then
      match key with
      | PStr k => match dict_get k d with
                  | Some x => Ok x
                  | None => Err (Exn KeyError (py_repr key))
                  end
      | _ => Err (Exn KeyError (py_repr key))
      end
    else Err (unhashable key)
| PList l =>
    match int_of_index key with
    | Some i => match norm_index (length l) i ≫= (fun j => l !! j) with
                | Some x => Ok x
                | None => Err (Exn IndexError "list index out of range")
                end
    | None => Err (type_error ("list indices must be integers or slices, not "
                               +:+ type_name key))
    end
| PStr s =>
    match int_of_index key with
    | Some i => match norm_index (String.length s) i ≫= (fun j => String.get j s) with
                | Some c => Ok (PStr (String c ""))
                | None => Err (Exn IndexError "string index out of range")
                end
    | None => Err (type_error ("string indices must be integers, not '"
                               +:+ type_name key +:+ "'"))
    end
| _ => Err (type_error ("'" +:+ type_name v +:+ "' object is not subscriptable"))
end.

(** [l[key] = x] on a list. *)
Definition list_setitem (l : list pyval) (key x : pyval) : pyres (list pyval) :=
match int_of_index key with
| Some i => match norm_index (length l) i with
            | Some j => Ok (<[j:=x]> l)
            | None => Err (Exn IndexError "list assignment index out of range")
            end
| None => Err (type_error ("list indices must be integers or slices, not " +:+ type_name key))
end.

(** [v[key] = x].  JSON objects have string keys and fai.py stores only
  string keys ([key] comes from iterating the dict itself, or is the
  literal ["height"]); a dict with a key of another type is outside the
  model, and storing one is reported as a [TypeError]. *)
Definition py_setitem (v key x : pyval) : pyres pyval :=
match v with
| PDict d =>
    match key with
    | PStr k => Ok (PDict (dict_set k x d))
    | _ => Err (if is_hashable key then type_error "dict keys other than str are not modelled"
                else unhashable key)
    end
| PList l => PList <$> list_setitem l key x
| _ => Err (type_error ("'" +:+ type_name v +:+ "' object does not support item assignment"))
end.

(** [v.get(k)] *)
Definition py_dict_get (v : pyval) (k : string) : pyres pyval :=
match v with
| PDict d => Ok (match dict_get k d with Some x => x | None => PNone end)
| _ => Err (Exn AttributeError ("'" +:+ type_name v +:+ "' object has no attribute 'get'"))
end.

(** ** String methods *)

Fixpoint lstrip_chars (s : string) : string :=
match s with
| EmptyString => ""
| String c s' => if is_py_space c then lstrip_chars s' else s
end.

Fixpoint string_rev (s : string) : string :=
match s with
| EmptyString => ""
| String c s' => string_rev s' +:+ String c ""
end.

(** [s.strip()] *)
Definition str_strip (s : string) : string :=
string_rev (lstrip_chars (string_rev (lstrip_chars s))).

(** [s.replace(old, new)] for a non-empty [old]: scan left to right; after a
  match, [skip] characters of the match remain to be dropped. *)
Fixpoint replace_scan (old new : string) (skip : nat) (s : string) : string :=
match s with
| EmptyString => ""
| String c s' =>
    match skip with
    | S k => replace_scan old new k s'
    | O => if string_is_prefix old s
           then new +:+ replace_scan old new (String.length old - 1) s'
           else String c (replace_scan old new 0 s')
    end
end.

(** An empty [old] matches before every character and at the end. *)
Fixpoint interleave (new s : string) : string :=
match s with
| EmptyString => ""
| String c s' => String c (new +:+ interleave new s')
end.

Definition str_replace (old new s : string) : string :=
match old with
| EmptyString => new +:+ interleave new s
| _ => replace_scan old new 0 s
end.

Definition no_attribute (v : pyval) (attr : string) : exn :=
Exn AttributeError ("'" +:+ type_name v +:+ "' object has no attribute '" +:+ attr +:+ "'").

Definition py_replace (v : pyval) (old new : string) : pyres pyval :=
match v with PStr s => Ok (PStr (str_replace old new s)) | _ => Err (no_attribute v "replace") end.

Definition py_strip (v : pyval) : pyres pyval :=
match v with PStr s => Ok (PStr (str_strip s)) | _ => Err (no_attribute v "strip") end.

(** ** [int()] *)

Definition is_digit (c : ascii) : bool := ((48 <=? code c)%N && (code c <=? 57)%N).

Definition digit_value (c : ascii) : Z := Z.of_N (code c - 48).

(** Digits with single underscores between them. *)
Fixpoint int_body (s : string) (acc : Z) (after_digit : bool) : option Z :=
match s with
| EmptyString => if after_digit then Some acc else None
| String c s' =>
    if is_digit c then int_body s' (10 * acc + digit_value c)%Z true
    else if bool_decide (c = "_"%char) && after_digit then int_body s' acc false
    else None
end.

Definition parse_int (s : string) : option Z :=
match str_strip s with
| String "-" s' => Z.opp <$> int_body s' 0 false
| String "+" s' => int_body s' 0 false
| s' => int_body s' 0 false
end.

(** [int(v)] *)
Definition py_int (v : pyval) : pyres Z :=
match v with
| PInt z => Ok z
| PBool b => Ok (Z.b2z b)
| PStr s => match parse_int s with
            | Some z => Ok z
            | None => Err (Exn ValueError ("invalid literal for int() with base 10: " +:+ repr_str s))
            end
| _ => Err (type_error ("int() argument must be a string, a bytes-like object or a real number, not '"
                        +:+ type_name v +:+ "'"))
end.

(** ** Lemmas *)

(** Comparing with a constant of the sentinel list decides equality. *)
Lemma py_eq_PNone v : py_eq v PNone = true <-> v = PNone.
Proof. destruct v; simpl; split; congruence. Qed.

Lemma py_eq_PStr v s : py_eq v (PStr s) = true <-> v = PStr s.
Proof. destruct v; simpl; try (split; congruence). case_decide; split; congruence. Qed.

Lemma py_eq_empty_list v : py_eq v (PList []) = true <-> v = PList [].
Proof. destruct v as [| | | |[|??]|]; simpl; split; congruence. Qed.

Lemma py_eq_empty_dict v : py_eq v (PDict []) = true <-> v = PDict [].
Proof. destruct v as [| | | | |[|[??]?]]; simpl; split; congruence. Qed.

Lemma length_string_chars s : length (string_chars s) = String.length s.
Proof. induction s; simpl; auto. Qed.

Lemma list_setitem_length l key x l' :
list_setitem l key x = Ok l' -> length l' = length l.
Proof.
unfold list_setitem. destruct (int_of_index key); [|discriminate].
destruct (norm_index _ _); intros [= <-]. apply length_insert.
Qed.

(** Character removal: [s.replace(c, "")] for a one-character [c]. *)
Fixpoint remove_char (c : ascii) (s : string) : string :=
match s with
| EmptyString => ""
| String c' s' => if decide (c' = c) then remove_char c s' else String c' (remove_char c s')
end.

Lemma str_replace_char_empty c s : str_replace (String c "") "" s = remove_char c s.
Proof.
unfold str_replace. induction s as [|c' s IH]; simpl; [done|].
rewrite IH. case_decide; subst; simpl.
- by rewrite decide_True.
- by rewrite decide_False.
Qed.

Lemma remove_char_no c s : string_contains_char c (remove_char c s) = false.
Proof.
induction s as [|c' s IH]; simpl; [done|].
case_decide; simpl; [done|]. rewrite decide_False by congruence. exact IH.
Qed.

(** Stripping whitespace keeps a character out if it was out. *)
Lemma lstrip_chars_no c s :
string_contains_char c s = false -> string_contains_char c (lstrip_chars s) = false.
Proof.
induction s as [|c' s IH]; simpl; intros H; [done|].
case_decide; [done|]. destruct (is_py_space c'); [auto|]. simpl. by rewrite decide_False.
Qed.

Lemma string_contains_char_app c s t :
string_contains_char c (s +:+ t) = string_contains_char c s || string_contains_char c t.
Proof. induction s as [|c' s IH]; simpl; [done|]. case_decide; auto. Qed.

Lemma string_rev_no c s : string_contains_char c (string_rev s) = string_contains_char c s.
Proof.
induction s as [|c' s IH]; simpl; [done|].
rewrite string_contains_char_app, IH. simpl. case_decide; by rewrite ?orb_true_r, ?orb_false_r.
Qed.

Lemma str_strip_no c s :
string_contains_char c s = false -> string_contains_char c (str_strip s) = false.
Proof. intros H. unfold str_strip. rewrite string_rev_no. apply lstrip_chars_no. by rewrite string_rev_no, lstrip_chars_no. Qed.

#[export] Hint Resolve remove_char_no str_strip_no : fai.

Lemma string_rev_chars s : String.list_ascii_of_string (string_rev s) = rev (String.list_ascii_of_string s).
Proof. induction s as [|c s IH]; [done|]. simpl. by rewrite list_ascii_of_string_app, IH. Qed.

Lemma string_rev_involutive s : string_rev (string_rev s) = s.
Proof. apply string_eq_chars. by rewrite !string_rev_chars, rev_involutive. Qed.

(** A string without whitespace is its own [strip()]. *)
Lemma str_strip_id s :
  forallb (fun c => negb (is_py_space c)) (String.list_ascii_of_string s) = true -> str_strip s = s.
Proof.
  intros H. assert (Hl : forall t, forallb (fun c => negb (is_py_space c)) (String.list_ascii_of_string t) = true ->
                         lstrip_chars t = t).
  { intros [|c t]; simpl; [done|]. intros [Hc _]%andb_true_iff. by destruct (is_py_space c). }
  unfold str_strip. rewrite (Hl s H), Hl, string_rev_involutive; [done|].
  by rewrite string_rev_chars, forallb_rev.
Qed.

(** The operations on a dict with a string key, as rewrite rules. *)
Lemma py_contains_dict_str d k : py_contains (PDict d) (PStr k) = Ok (dict_mem k d).
Proof. reflexivity. Qed.

Lemma py_getitem_dict_str d k v :
dict_get k d = Some v -> py_getitem (PDict d) (PStr k) = Ok v.
Proof. intros H. simpl. by rewrite H. Qed.

Lemma py_setitem_dict_str d k x : py_setitem (PDict d) (PStr k) x = Ok (PDict (dict_set k x d)).
Proof. reflexivity. Qed.

Lemma py_contains_list l x : py_contains (PList l) x = Ok (existsb (py_eq x) l).
Proof. reflexivity. Qed.

#[export] Hint Rewrite py_contains_dict_str py_setitem_dict_str py_contains_list : fai_rw.

(** ** [int()] reads back what [str()] prints *)

Lemma pretty_N_char_digit n : is_digit (pretty_N_char n) = true.
Proof. unfold pretty_N_char. repeat case_match; reflexivity. Qed.

Lemma digit_value_pretty_N_char n : (n < 10)%N -> digit_value (pretty_N_char n) = Z.of_N n.
Proof.
  rewrite <- (N2Nat.id n). generalize (N.to_nat n). clear n. intros k Hk.
  do 10 (destruct k as [|k]; [reflexivity|]). lia.
Qed.

Lemma pretty_N_go_digits x s :
  forallb is_digit (String.list_ascii_of_string s) = true ->
  forallb is_digit (String.list_ascii_of_string (pretty_N_go x s)) = true.
Proof.
  revert s. induction (N.lt_wf_0 x) as [x _ IH]; intros s Hs.
  destruct (decide (x = 0)%N) as [->|Hx]; [by rewrite pretty_N_go_0|].
  rewrite pretty_N_go_step by lia. apply IH; [apply N.div_lt; lia|].
  simpl. by rewrite pretty_N_char_digit, Hs.
Qed.

Lemma int_body_pretty x s acc b :
  exists k : nat, int_body (pretty_N_go x s) acc b =
            int_body s (acc * 10 ^ Z.of_nat k + Z.of_N x)%Z (b || bool_decide (0 < x)%N).
Proof.
  revert s acc b. induction (N.lt_wf_0 x) as [x _ IH]; intros s acc b.
  destruct (decide (x = 0)%N) as [->|Hx].
  { exists 0. rewrite pretty_N_go_0, orb_false_r. f_equal. lia. }
  rewrite pretty_N_go_step by lia.
  destruct (IH (x `div` 10)%N ltac:(apply N.div_lt; lia) (String (pretty_N_char (x `mod` 10)) s) acc b)
    as [k ->].
  exists (S k). cbn [int_body]. rewrite pretty_N_char_digit.
  rewrite digit_value_pretty_N_char by (apply N.mod_lt; lia).
  rewrite (bool_decide_true (0 < x)%N) by lia. rewrite orb_true_r. f_equal.
  rewrite Nat2Z.inj_succ, Z.pow_succ_r by lia.
  rewrite N2Z.inj_div, N2Z.inj_mod. pose proof (Z.div_mod (Z.of_N x) 10). lia.
Qed.

(** [int(s)] for a string of digits reads them all. *)
Lemma parse_int_digits s :
  forallb is_digit (String.list_ascii_of_string s) = true -> parse_int s = int_body s 0 false.
Proof.
  intros H. unfold parse_int. rewrite str_strip_id.
  - destruct s as [|c r]; [done|]. simpl in H. apply andb_true_iff in H as [Hc _].
    destruct c as [[] [] [] [] [] [] [] []]; try discriminate; reflexivity.
  - eapply forallb_impl; [|exact H]. intros c Hc. unfold is_digit, is_py_space in *.
    destruct c as [[] [] [] [] [] [] [] []]; done.
Qed.

Lemma parse_int_pretty_pos p : parse_int (pretty (Npos p)) = Some (Zpos p).
Proof.
  change (pretty (Npos p)) with (pretty_N_go (Npos p) "").
  rewrite parse_int_digits by (by apply pretty_N_go_digits).
  destruct (int_body_pretty (Npos p) "" 0 false) as [k ->]. reflexivity.
Qed.

Lemma parse_int_pretty z : parse_int (pretty z) = Some z.
Proof.
  destruct z as [|p|p]; [reflexivity | apply parse_int_pretty_pos|].
  change (pretty (Zneg p)) with ("-" +:+ pretty_N_go (Npos p) "").
  pose proof (parse_int_pretty_pos p) as H.
  change (pretty (Npos p)) with (pretty_N_go (Npos p) "") in H.
  rewrite parse_int_digits in H by (by apply pretty_N_go_digits).
  unfold parse_int. rewrite str_strip_id.
  - rewrite string_app_cons, string_app_nil_l. simpl. by rewrite H.
  - rewrite list_ascii_of_string_app. rewrite forallb_app. apply andb_true_iff. split; [done|].
    eapply forallb_impl; [|apply pretty_N_go_digits; done]. intros c Hc. unfold is_digit, is_py_space in *.
    destruct c as [[] [] [] [] [] [] [] []]; done.
Qed.

(** The decimal writing of a positive number: a digit, then digits. *)
Lemma pretty_pos_digits p :
  exists c r, pretty (Npos p) = String c r /\ is_digit c = true /\
    forallb is_digit (String.list_ascii_of_string r) = true.
Proof.
  assert (Hd : forallb is_digit (String.list_ascii_of_string (pretty (Npos p))) = true)
    by (by apply pretty_N_go_digits).
  destruct (pretty (Npos p)) as [|c r] eqn:E.
  { pose proof (parse_int_pretty_pos p) as H. rewrite E in H. discriminate. }
  simpl in Hd. apply andb_true_iff in Hd as [Hc Hr]. by exists c, r.
Qed.

Lemma digit_eqb_false c d : is_digit c = true -> is_digit d = false -> Ascii.eqb c d = false.
Proof. intros Hc Hd. destruct (Ascii.eqb_spec c d); [subst; congruence|done]. Qed.
