(* ===== verification/Normalizer.v ===== *)
(** * The field normalizer: [fill_missing_fields] and the height clean-up

    fai.py lines 17-21 and 70-73:
<<
    def fill_missing_fields(data):
        for key in data:
            if key not in data or data[key] in [None, "", [], {}, ...]:
                data[key] = "na"
        return data
    ...
    parsed = fill_missing_fields(parsed)
    if "height" in parsed:
        parsed["height"] = parsed["height"].replace(QUOTE, "").strip()
>>
    ([QUOTE] stands for the one-character string of a double quote.)
    The [for] loop is modelled as CPython runs it: [iter(data)] first, then
    repeated [next()] calls on the live container ([iter_next]), so that a
    list mutated by the body is read after the mutation and a dict that
    changes size raises [RuntimeError].  The loop has fuel [len(data) + 1]
    (one [next()] per item and the final one that stops it); the lemma
    [fill_loop_enough] shows that more fuel changes nothing. *)

From S2P Require Import Fai PyDict PyValue.

(** The placeholder list of line 19. *)
Definition sentinels : list pyval :=
  [PNone; PStr ""; PList []; PDict []; PStr "none (not provided on the DL)";
   PStr "Not available"; PStr "N/A"; PStr "NULL"].

Definition is_sentinel (v : pyval) : bool := existsb (py_eq v) sentinels.

Definition na : pyval := PStr "na".

(** The loop body, on the current [data] (lines 19-20). *)
Definition fill_body (data key : pyval) : pyres pyval :=
  present ← py_contains data key;
  if negb present then py_setitem data key na
  else (v ← py_getitem data key;
        missing ← py_contains (PList sentinels) v;
        if (missing : bool) then py_setitem data key na else Ok data).

(** [next()] on an iterator created over a container of size [n0], at
    position [i], reading the container as it is now. *)
Definition iter_next (data : pyval) (n0 i : nat) : pyres (option pyval) :=
  match data with
  | PDict d =>
      if Nat.eqb (length d) n0 then Ok ((fun kv => PStr kv.1) <$> d !! i)
      else Err (Exn RuntimeError "dictionary changed size during iteration")
  | PList l => Ok (l !! i)
  | PStr s => Ok (string_chars s !! i)
  | _ => Ok None
  end.

Fixpoint fill_loop (fuel n0 i : nat) (data : pyval) : pyres pyval :=
  match fuel with
  | O => Ok data
  | S fuel' =>
      nx ← iter_next data n0 i;
      match nx with
      | None => Ok data
      | Some key => data' ← fill_body data key; fill_loop fuel' n0 (S i) data'
      end
  end.

(** Number of items a [for] loop over the value yields. *)
Definition iter_size (v : pyval) : nat :=
  match v with
  | PDict d => length d
  | PList l => length l
  | PStr s => String.length s
  | _ => 0
  end.

(** [fill_missing_fields(data)]: [iter(data)] raises on non-iterables. *)
Definition fill_missing_fields (data : pyval) : pyres pyval :=
  _ ← py_iter data;
  fill_loop (S (iter_size data)) (iter_size data) 0 data.

(** Lines 72-73. *)
Definition fix_height (parsed : pyval) : pyres pyval :=
  has_height ← py_contains parsed (PStr "height");
  if (has_height : bool) then
    (h ← py_getitem parsed (PStr "height");
     h1 ← py_replace h dquote_str "";
     h2 ← py_strip h1;
     py_setitem parsed (PStr "height") h2)
  else Ok parsed.

(** Lines 71-73: what [process_image] does to the parsed response before
    the face crop. *)
Definition normalize (parsed : pyval) : pyres pyval :=
  filled ← fill_missing_fields parsed;
  fix_height filled.

(** The reference behaviour on a JSON object: every value that is a
    placeholder becomes ["na"], in place. *)
Definition fill_entry (kv : string * pyval) : string * pyval :=
  (kv.1, if is_sentinel kv.2 then na else kv.2).

(** ** The sentinel test *)

Lemma is_sentinel_spec v : is_sentinel v = true <-> v ∈ sentinels.
Proof.
  unfold is_sentinel, sentinels. rewrite existsb_exists.
  setoid_rewrite list_elem_of_In. split.
  - intros (w & Hw & Heq). simpl in Hw.
    destruct_or! Hw; subst w;
      first [apply py_eq_PNone in Heq | apply py_eq_PStr in Heq
            | apply py_eq_empty_list in Heq | apply py_eq_empty_dict in Heq];
      subst; simpl; tauto.
  - intros Hv. exists v. split; [done|].
    simpl in Hv. destruct_or! Hv; subst; reflexivity.
Qed.

Lemma is_sentinel_na : is_sentinel na = false.
Proof. reflexivity. Qed.

Lemma fill_entry_idem kv : fill_entry (fill_entry kv) = fill_entry kv.
Proof.
  destruct kv as [k v]. unfold fill_entry; simpl.
  destruct (is_sentinel v) eqn:E; simpl; [|by rewrite E]. done.
Qed.

Lemma dict_keys_fill d : dict_keys (map fill_entry d) = dict_keys d.
Proof. unfold dict_keys. rewrite map_map. by apply map_ext. Qed.

#[export] Hint Rewrite fill_entry_idem dict_keys_fill : fai_rw.

(** ** The loop over a JSON object *)

Section FillDict.
Context (d : list (string * pyval)).
Hypothesis Hwf : dict_wf d.

(** The dict after [i] iterations: the first [i] entries are done. *)
Definition fill_prefix (i : nat) : list (string * pyval) :=
  map fill_entry (take i d) ++ drop i d.

Lemma fill_prefix_keys i : dict_keys (fill_prefix i) = dict_keys d.
Proof.
  unfold fill_prefix, dict_keys. rewrite map_app, map_map.
  rewrite (map_ext (fun kv => (fill_entry kv).1) fst) by done.
  by rewrite <- map_app, take_drop.
Qed.

Lemma fill_prefix_wf i : dict_wf (fill_prefix i).
Proof. unfold dict_wf. by rewrite fill_prefix_keys. Qed.

Lemma fill_prefix_length i : length (fill_prefix i) = length d.
Proof. rewrite <- (length_map fst), <- (length_map fst d). apply (f_equal length), fill_prefix_keys. Qed.

Lemma fill_prefix_lookup i kv : d !! i = Some kv -> fill_prefix i !! i = Some kv.
Proof.
  intros Hi. unfold fill_prefix.
  assert (i < length d) by (apply lookup_lt_Some in Hi; done).
  rewrite lookup_app_r; rewrite length_map, length_take; [|lia].
  rewrite lookup_drop. rewrite <- Hi. f_equal. lia.
Qed.

Lemma fill_prefix_step i kv :
  d !! i = Some kv -> <[i := fill_entry kv]> (fill_prefix i) = fill_prefix (S i).
Proof.
  intros Hi. unfold fill_prefix.
  assert (i < length d) by (apply lookup_lt_Some in Hi; done).
  rewrite (take_S_r _ _ _ Hi), map_app.
  rewrite (drop_S _ _ _ Hi).
  rewrite insert_app_r_alt by (rewrite length_map, length_take; lia).
  rewrite length_map, length_take, Nat.min_l, Nat.sub_diag by lia.
  simpl. by rewrite <- app_assoc.
Qed.

Lemma fill_body_prefix i k w :
  d !! i = Some (k, w) ->
  fill_body (PDict (fill_prefix i)) (PStr k) = Ok (PDict (fill_prefix (S i))).
Proof.
  intros Hi. pose proof (fill_prefix_lookup i _ Hi) as Hp.
  pose proof (dict_get_at _ _ _ _ (fill_prefix_wf i) Hp) as Hg.
  rewrite <- (fill_prefix_step i _ Hi). unfold fill_body.
  rewrite py_contains_dict_str. unfold dict_mem. rewrite Hg, bind_Ok. cbn [negb].
  rewrite (py_getitem_dict_str _ _ _ Hg), bind_Ok, py_contains_list, bind_Ok.
  fold (is_sentinel w). unfold fill_entry; cbn [fst snd].
  destruct (is_sentinel w).
  - by rewrite py_setitem_dict_str, (dict_set_at _ _ _ _ _ (fill_prefix_wf i) Hp).
  - by rewrite list_insert_id.
Qed.

Lemma fill_loop_prefix fuel i :
  i <= length d -> length d - i < fuel ->
  fill_loop fuel (length d) i (PDict (fill_prefix i)) = Ok (PDict (map fill_entry d)).
Proof.
  revert i; induction fuel as [|fuel IH]; intros i Hle Hfuel; [lia|].
  simpl. rewrite fill_prefix_length, Nat.eqb_refl. simpl.
  destruct (decide (i = length d)) as [->|Hne].
  - rewrite lookup_ge_None_2 by (rewrite fill_prefix_length; lia). simpl.
    unfold fill_prefix. by rewrite take_ge, drop_ge, app_nil_r by lia.
  - destruct (d !! i) as [[k w]|] eqn:Hi;
      [|apply lookup_ge_None_1 in Hi; lia].
    rewrite (fill_prefix_lookup _ _ Hi). simpl.
    rewrite (fill_body_prefix _ _ _ Hi). simpl. apply IH; lia.
Qed.
End FillDict.

(** ** Fuel: the loop stops after [len(data) + 1] calls of [next()] *)

(** What the loop keeps of its container: lists keep their length and
    strings are never modified; a dict may grow, which [iter_next]
    reports as a [RuntimeError]. *)
Definition loop_inv (n0 : nat) (data : pyval) : Prop :=
  match data with
  | PList l => length l = n0
  | PStr s => String.length s = n0
  | _ => True
  end.

Lemma py_setitem_shape v key x v' :
  py_setitem v key x = Ok v' ->
  (exists d d', v = PDict d /\ v' = PDict d') \/
  (exists l l', v = PList l /\ v' = PList l' /\ length l' = length l).
Proof.
  destruct v; simpl; try discriminate.
  - intros H. right. destruct (list_setitem l key x) as [l'|] eqn:E; simpl in H; [|discriminate].
    injection H as <-. exists l, l'. split_and!; [done|done|]. by apply list_setitem_length in E.
  - destruct key; intros H; try discriminate. injection H as <-. left. eauto.
Qed.

Lemma fill_body_cases data key data' :
  fill_body data key = Ok data' -> data' = data \/ py_setitem data key na = Ok data'.
Proof.
  unfold fill_body. intros H. res_simpl.
  destruct (negb _); [by right|]. res_simpl.
  destruct (x1 : bool); [by right | left; congruence].
Qed.

Lemma fill_body_inv n0 data key data' :
  fill_body data key = Ok data' -> loop_inv n0 data -> loop_inv n0 data'.
Proof.
  intros [->|Hs]%fill_body_cases; [done|].
  destruct (py_setitem_shape _ _ _ _ Hs) as [(? & ? & -> & ->)|(? & ? & -> & -> & Hl)]; simpl; [done|].
  by rewrite Hl.
Qed.

Lemma iter_next_bound n0 i data key :
  loop_inv n0 data -> iter_next data n0 i = Ok (Some key) -> i < n0.
Proof.
  destruct data; simpl; intros Hinv H; try discriminate.
  - injection H as H. apply lookup_lt_Some in H. rewrite length_string_chars in H. lia.
  - injection H as H. apply lookup_lt_Some in H. lia.
  - destruct (Nat.eqb_spec (length d) n0); [|discriminate].
    injection H as H. apply fmap_Some in H as ([??] & H & _). apply lookup_lt_Some in H. lia.
Qed.

Lemma fill_loop_fuel_mono n0 fuel1 fuel2 i data :
  loop_inv n0 data -> n0 - i < fuel1 -> fuel1 <= fuel2 ->
  fill_loop fuel1 n0 i data = fill_loop fuel2 n0 i data.
Proof.
  revert fuel2 i data; induction fuel1 as [|f1 IH]; intros fuel2 i data Hinv H1 H2; [lia|].
  destruct fuel2 as [|f2]; [lia|]. simpl.
  destruct (iter_next data n0 i) as [[key|]|] eqn:En; simpl; [|done|done].
  pose proof (iter_next_bound _ _ _ _ Hinv En).
  destruct (fill_body data key) as [data'|] eqn:Eb; simpl; [|done].
  apply IH; [by eapply fill_body_inv | lia | lia].
Qed.

Lemma loop_inv_init data : loop_inv (iter_size data) data.
Proof. by destruct data. Qed.

(** ** Theorems *)

Lemma fill_dict (d : list (string * pyval)) :
  dict_wf d -> fill_missing_fields (PDict d) = Ok (PDict (map fill_entry d)).
Proof.
  intros Hwf. unfold fill_missing_fields. cbn [py_iter iter_size]. rewrite bind_Ok.
  pose proof (fill_loop_prefix d Hwf (S (length d)) 0) as H.
  unfold fill_prefix in H. rewrite take_0, drop_0 in H. apply H; lia.
Qed.

(** C5: on a JSON object, [fill_missing_fields] replaces exactly the
    placeholder values by ["na"], in place, and never raises. *)
Theorem fill_missing_fields_dict (d : list (string * pyval)) :
  dict_wf d -> fill_missing_fields (PDict d) = Ok (PDict (map fill_entry d)).
Proof. apply fill_dict. Qed.

(** The loop of [fill_missing_fields] ends within [len(data) + 1] calls
    of [next()], on every value: any larger fuel gives the same outcome. *)
Lemma fill_loop_enough (data : pyval) (fuel : nat) :
  iter_size data < fuel ->
  fill_loop fuel (iter_size data) 0 data = fill_loop (S (iter_size data)) (iter_size data) 0 data.
Proof. intros H. symmetry. apply fill_loop_fuel_mono; [apply loop_inv_init | lia | lia]. Qed.

(** ** The height clean-up *)

Lemma dict_get_map_fill k d :
  dict_get k (map fill_entry d) = (fun v => if is_sentinel v then na else v) <$> dict_get k d.
Proof. induction d as [|[k' v] d IH]; simpl; [done|]. by case_decide. Qed.

Lemma fix_height_absent d :
  dict_get "height" d = None -> fix_height (PDict d) = Ok (PDict d).
Proof. intros H. unfold fix_height. rewrite py_contains_dict_str. unfold dict_mem. by rewrite H. Qed.

Lemma fix_height_str d s :
  dict_get "height" d = Some (PStr s) ->
  fix_height (PDict d) = Ok (PDict (dict_set "height" (PStr (str_strip (remove_char dquote s))) d)).
Proof.
  intros H. unfold fix_height. rewrite py_contains_dict_str. unfold dict_mem. rewrite H, bind_Ok.
  rewrite (py_getitem_dict_str _ _ _ H), bind_Ok. cbn [py_replace].
  unfold dquote_str. by rewrite str_replace_char_empty.
Qed.

Lemma fix_height_other d v :
  dict_get "height" d = Some v -> (forall s, v <> PStr s) ->
  fix_height (PDict d) = Err (no_attribute v "replace").
Proof.
  intros H Hv. unfold fix_height. rewrite py_contains_dict_str. unfold dict_mem. rewrite H, bind_Ok.
  rewrite (py_getitem_dict_str _ _ _ H), bind_Ok.
  destruct v; try reflexivity. exfalso. by eapply Hv.
Qed.

(** C16: after [normalize], a height field that is a string holds no
    double quote. *)
Theorem normalize_height_no_quote (d d' : list (string * pyval)) (h : string) :
  dict_wf d -> normalize (PDict d) = Ok (PDict d') -> dict_get "height" d' = Some (PStr h) ->
  string_contains_char dquote h = false.
Proof.
  intros Hwf. unfold normalize. rewrite fill_dict, bind_Ok by done.
  destruct (dict_get "height" (map fill_entry d)) as [v|] eqn:Hh.
  - destruct v as [| | |s| |];
      try (rewrite (fix_height_other _ _ Hh) by discriminate; discriminate).
    rewrite (fix_height_str _ _ Hh). intros [= <-]. rewrite dict_get_set_eq. intros [= <-].
    auto with fai.
  - rewrite (fix_height_absent _ Hh). intros [= <-]. congruence.
Qed.

(** C17: a height that is neither a string nor a placeholder (a JSON
    number, a boolean, a non-empty list) makes [normalize] raise
    [AttributeError], which turns the whole record into an error. *)
Theorem normalize_height_type_error (d : list (string * pyval)) (v : pyval) :
  dict_wf d -> dict_get "height" d = Some v -> (forall s, v <> PStr s) -> is_sentinel v = false ->
  normalize (PDict d) = Err (no_attribute v "replace").
Proof.
  intros Hwf Hh Hs Hsen. unfold normalize. rewrite fill_dict, bind_Ok by done.
  apply fix_height_other; [|done]. rewrite dict_get_map_fill, Hh. simpl. by rewrite Hsen.
Qed.

(** A string made of double quotes only is no placeholder. *)
Lemma is_sentinel_quotes s :
  s <> "" -> Forall (fun c => c = dquote) (String.list_ascii_of_string s) -> is_sentinel (PStr s) = false.
Proof. destruct s as [|c s]; [done|]. intros _ Hq. inversion Hq; subst. reflexivity. Qed.

Lemma remove_char_all c s :
  Forall (fun c' => c' = c) (String.list_ascii_of_string s) -> remove_char c s = "".
Proof.
  induction s as [|c' s IH]; intros Hq; [done|]. inversion Hq; subst. simpl. by rewrite decide_True, IH.
Qed.

(** C18: [normalize] is not idempotent, against the spec (section 4.3):
    on every JSON object whose height is a non-empty string of double
    quotes, the first pass leaves the empty string (the quotes are
    removed after the placeholder pass), which a second pass rewrites to
    ["na"]. *)
Theorem normalize_not_idempotent (d : list (string * pyval)) (s : string) :
  dict_wf d -> dict_get "height" d = Some (PStr s) ->
  s <> "" -> Forall (fun c => c = dquote) (String.list_ascii_of_string s) ->
  exists d1 d2, normalize (PDict d) = Ok (PDict d1) /\ normalize (PDict d1) = Ok (PDict d2) /\
    dict_get "height" d1 = Some (PStr "") /\ dict_get "height" d2 = Some na.
Proof.
  intros Hwf Hh Hne Hq.
  assert (H1 : dict_get "height" (map fill_entry d) = Some (PStr s))
    by (rewrite dict_get_map_fill, Hh; simpl; by rewrite is_sentinel_quotes).
  set (d1 := dict_set "height" (PStr "") (map fill_entry d)).
  assert (Hwf1 : dict_wf d1) by (apply dict_set_wf; unfold dict_wf; by rewrite dict_keys_fill).
  assert (H2 : dict_get "height" (map fill_entry d1) = Some na)
    by (rewrite dict_get_map_fill; unfold d1; by rewrite dict_get_set_eq).
  exists d1, (dict_set "height" na (map fill_entry d1)). unfold normalize.
  rewrite fill_dict, bind_Ok, (fix_height_str _ _ H1), remove_char_all by done.
  rewrite fill_dict, bind_Ok, (fix_height_str _ _ H2) by done.
  split_and!; [reflexivity | reflexivity | apply dict_get_set_eq | apply dict_get_set_eq].
Qed.

(** ** Answers that are not JSON objects *)

Lemma fill_loop_dict fuel n0 i d r : fill_loop fuel n0 i (PDict d) = Ok r -> is_dict r = true.
Proof.
  revert i d. induction fuel as [|fuel IH]; intros i d H; simpl in H; [by injection H as <-|].
  res_simpl. destruct x as [key|]; [|by injection H as <-]. res_simpl.
  match goal with Hb : fill_body _ _ = Ok ?v |- _ => destruct (fill_body_cases _ _ _ Hb) as [->|Hs] end.
  - by eapply IH.
  - destruct (py_setitem_shape _ _ _ _ Hs) as [(? & ? & [= <-] & ->)|(? & ? & ? & _)]; [by eapply IH|discriminate].
Qed.

(** The normalizer keeps a JSON object an object, or raises. *)
Lemma normalize_dict d r : normalize (PDict d) = Ok r -> is_dict r = true.
Proof.
  unfold normalize, fill_missing_fields. cbn [py_iter]. rewrite bind_Ok. intros H. res_simpl.
  pose proof (fill_loop_dict _ _ _ _ _ H0) as Hd. destruct x as [| | | | |d1]; try discriminate.
  unfold fix_height in H. res_simpl. destruct (x : bool); [|by injection H as <-]. res_simpl.
  destruct (py_setitem_shape _ _ _ _ H) as [(? & ? & _ & ->)|(? & ? & [=] & _)]; done.
Qed.

(** C19: answers that are not JSON objects make [fill_missing_fields]
    raise [TypeError]: [iter()] of [None], a boolean or a number; [data[key]]
    with a character as the key of a non-empty string; and [data[key]]
    with a string as the index of a list whose first item is a string. *)
Theorem fill_missing_fields_non_object (v : pyval) :
  (is_dict v = false -> match v with PList _ | PStr _ => False | _ => True end ->
   fill_missing_fields v = Err (type_error ("'" +:+ type_name v +:+ "' object is not iterable"))) /\
  (forall c s, v = PStr (String c s) ->
   fill_missing_fields v = Err (type_error "string indices must be integers, not 'str'")) /\
  (forall s l, v = PList (PStr s :: l) ->
   fill_missing_fields v = Err (type_error "list indices must be integers or slices, not str")).
Proof.
  split_and!.
  - destruct v; done.
  - intros c s ->. unfold fill_missing_fields. cbn. rewrite decide_True by done. reflexivity.
  - intros s l ->. unfold fill_missing_fields. cbn. rewrite decide_True by done. reflexivity.
Qed.

(** ** Witnesses *)

Definition demo_fields : list (string * pyval) :=
  [("name", PStr "N/A"); ("dob", PStr "1990-02-03"); ("face_bbox", PList [])].

Lemma demo_fields_wf : dict_wf demo_fields.
Proof. apply (bool_decide_unpack _). vm_compute. reflexivity. Qed.

Lemma fill_missing_fields_dict_witness :
  fill_missing_fields (PDict demo_fields) = Ok (PDict (map fill_entry demo_fields)).
Proof. apply fill_missing_fields_dict, demo_fields_wf. Defined.

Lemma normalize_height_no_quote_witness : string_contains_char dquote "5'10" = false.
Proof.
  apply (normalize_height_no_quote [("height", PStr (" 5'10" +:+ String dquote " "))] [("height", PStr "5'10")]).
  - apply (bool_decide_unpack _). vm_compute. reflexivity.
  - vm_compute. reflexivity.
  - reflexivity.
Defined.

Lemma normalize_height_type_error_witness :
  normalize (PDict [("height", PInt 170)]) = Err (no_attribute (PInt 170) "replace").
Proof.
  apply normalize_height_type_error.
  - apply (bool_decide_unpack _). vm_compute. reflexivity.
  - reflexivity.
  - intros s. discriminate.
  - reflexivity.
Defined.

Lemma normalize_not_idempotent_witness :
  exists d1 d2, normalize (PDict [("height", PStr (String dquote dquote_str))]) = Ok (PDict d1) /\
    normalize (PDict d1) = Ok (PDict d2) /\
    dict_get "height" d1 = Some (PStr "") /\ dict_get "height" d2 = Some na.
Proof.
  apply (normalize_not_idempotent _ (String dquote dquote_str));
    [apply (bool_decide_unpack _); vm_compute; reflexivity | reflexivity | discriminate | repeat constructor].
Defined.

Lemma fill_missing_fields_non_object_witness :
  (is_dict (PInt 7) = false -> True ->
   fill_missing_fields (PInt 7) = Err (type_error ("'" +:+ type_name (PInt 7) +:+ "' object is not iterable"))) /\
  (forall c s, PInt 7 = PStr (String c s) ->
   fill_missing_fields (PInt 7) = Err (type_error "string indices must be integers, not 'str'")) /\
  (forall s l, PInt 7 = PList (PStr s :: l) ->
   fill_missing_fields (PInt 7) = Err (type_error "list indices must be integers or slices, not str")).
Proof. apply (fill_missing_fields_non_object (PInt 7)). Defined.
