(* ===== verification/PathOps.v ===== *)
(** * Paths and file names

    The string functions of the standard library that fai.py applies to
    file names, written out from CPython's [posixpath]/[genericpath] and
    [str] methods:
    - the image filter of lines 97-100,
      [f.lower().endswith((".png", ".jpg", ".jpeg"))];
    - [os.path.join] (lines 12, 80, 83);
    - [os.path.splitext] and the face-crop path of line 83,
      [os.path.join(face_dir, f"{os.path.splitext(filename)[0]}_face.png")]. *)

From S2P Require Import Fai PyValue.

(** ** Slicing *)

(** [s[:n]] *)
Fixpoint str_take (n : nat) (s : string) : string :=
  match n, s with
  | S n', String c s' => String c (str_take n' s')
  | _, _ => ""
  end.

(** [s[n:]] *)
Fixpoint str_drop (n : nat) (s : string) : string :=
  match n, s with
  | S n', String _ s' => str_drop n' s'
  | O, _ => s
  | _, EmptyString => ""
  end.

Lemma str_take_drop n s : str_take n s +:+ str_drop n s = s.
Proof.
  revert s; induction n as [|n IH]; intros [|c s]; simpl; try done.
  rewrite string_app_cons. by rewrite IH.
Qed.

(** [s.rfind(c)], with [-1] when [c] does not occur. *)
Fixpoint rfind_from (c : ascii) (s : string) (i acc : Z) : Z :=
  match s with
  | EmptyString => acc
  | String c' s' => rfind_from c s' (i + 1) (if decide (c' = c) then i else acc)
  end.

Definition rfind (c : ascii) (s : string) : Z := rfind_from c s 0 (-1).

Fixpoint all_char (c : ascii) (s : string) : bool :=
  match s with
  | EmptyString => true
  | String c' s' => bool_decide (c' = c) && all_char c s'
  end.

(** ** [os.path.splitext] *)

(** [genericpath._splitext(p, "/", None, ".")]: split at the last dot
    when it comes after the last slash and the base name does not consist
    of dots up to it (the [while] loop over [p[filenameIndex]]). *)
Definition splitext (p : string) : string * string :=
  let sep := rfind "/" p in
  let dot := rfind "." p in
  if (sep <? dot)%Z then
    let leading := str_take (Z.to_nat (dot - (sep + 1))) (str_drop (Z.to_nat (sep + 1)) p) in
    if all_char "." leading then (p, "")
    else (str_take (Z.to_nat dot) p, str_drop (Z.to_nat dot) p)
  else (p, "").

(** ** [os.path.join] *)

Fixpoint ends_with_char (c : ascii) (s : string) : bool :=
  match s with
  | EmptyString => false
  | String c' EmptyString => bool_decide (c' = c)
  | String _ s' => ends_with_char c s'
  end.

(** [posixpath.join(a, b)] *)
Definition os_path_join (a b : string) : string :=
  match b with
  | String "/" _ => b
  | _ => if String.eqb a "" || ends_with_char "/" a then a +:+ b else a +:+ "/" +:+ b
  end.

(** ** [str.lower] and [str.endswith] *)

(** [c.lower()] for code points below 256: [A-Z] and the Latin-1 capitals
    [À-Þ] except [×] map to their small letters. *)
Definition char_lower (c : ascii) : ascii :=
  let n := code c in
  if ((65 <=? n)%N && (n <=? 90)%N) || ((192 <=? n)%N && (n <=? 222)%N && negb (n =? 215)%N)
  then Ascii.ascii_of_N (n + 32) else c.

Fixpoint str_lower (s : string) : string :=
  match s with
  | EmptyString => ""
  | String c s' => String (char_lower c) (str_lower s')
  end.

Definition str_endswith (s suffix : string) : bool :=
  (String.length suffix <=? String.length s)%nat &&
  String.eqb (str_drop (String.length s - String.length suffix) s) suffix.

(** ** fai.py *)

Definition image_exts : list string := [".png"; ".jpg"; ".jpeg"].

(** Line 99: [f.lower().endswith((".png", ".jpg", ".jpeg"))]. *)
Definition is_image_file (f : string) : bool :=
  existsb (str_endswith (str_lower f)) image_exts.

(** Lines 97-100, given [os.listdir(args.input_dir)]. *)
Definition image_files (listing : list string) : list string :=
  filter (fun f => is_image_file f = true) listing.

(** Line 83. *)
Definition face_crop_path (face_dir filename : string) : string :=
  os_path_join face_dir ((splitext filename).1 +:+ "_face.png").

(** ** Properties *)

(** [os.path.splitext] splits: the root followed by the extension is
    the path again. *)
Lemma splitext_concat (p : string) : (splitext p).1 +:+ (splitext p).2 = p.
Proof.
  unfold splitext. destruct (_ <? _)%Z; [destruct all_char|]; simpl;
    auto using string_app_nil_r, str_take_drop.
Qed.

Lemma char_lower_idem c : char_lower (char_lower c) = char_lower c.
Proof.
  destruct c as [b0 b1 b2 b3 b4 b5 b6 b7].
  destruct b0, b1, b2, b3, b4, b5, b6, b7; vm_compute; reflexivity.
Qed.

Lemma str_lower_idem s : str_lower (str_lower s) = str_lower s.
Proof. induction s; simpl; [done|]. by rewrite char_lower_idem, IHs. Qed.

(** The image filter of line 99 ignores case: a name and its
    lower-case form are accepted together. *)
Lemma is_image_file_lower (f : string) : is_image_file (str_lower f) = is_image_file f.
Proof. unfold is_image_file. by rewrite str_lower_idem. Qed.

(** Two distinct images of one directory can get the same face-crop
    path: [a.png] and [a.jpg] both save to [faces/a_face.png], so one crop
    overwrites the other (the spec, section 4.4, says no two invocations
    for distinct source files may collide). *)
Lemma face_crop_path_collision :
  is_image_file "a.png" = true /\ is_image_file "a.jpg" = true /\
  face_crop_path "faces" "a.png" = face_crop_path "faces" "a.jpg".
Proof. split_and!; vm_compute; reflexivity. Qed.
