(* ===== verification/Base64.v ===== *)
(** * The encoder: [encode_image] (fai.py lines 11-15)

<<
    def encode_image(image_folder, filename):
        path = os.path.join(image_folder, filename)
        with open(path, "rb") as f:
            encoded = base64.b64encode(f.read()).decode("utf-8")
        return filename, f"data:image/png;base64,{encoded}"
>>
    [b64encode] is RFC 4648 base64 as CPython's [binascii.b2a_base64]
    computes it: each group of three bytes becomes four characters of the
    standard alphabet, and a final group of one or two bytes is padded
    with [=].  The file read is the [read_file] capability: it returns
    the bytes or raises [OSError].  [Base64Spec] states what the encoder
    computes against RFC 4648. *)

From S2P Require Import Fai PyValue PathOps.
From Stdlib Require Import Init.Byte Strings.Byte.

Definition b64_alphabet : string :=
  "ABCDEFGHIJKLMNOPQRSTUVWXYZabcdefghijklmnopqrstuvwxyz0123456789+/".

(** The character for a 6-bit value. *)
Definition b64_char (n : Z) : ascii :=
  match String.get (Z.to_nat n) b64_alphabet with Some c => c | None => "="%char end.

Definition bval (b : byte) : Z := Z.of_N (Byte.to_N b).

(** [base64.b64encode(data)] *)
Fixpoint b64encode (bs : list byte) : string :=
  match bs with
  | b1 :: b2 :: b3 :: rest =>
      let n := (bval b1 * 65536 + bval b2 * 256 + bval b3)%Z in
      String (b64_char (n / 262144)) (String (b64_char (n / 4096 mod 64))
        (String (b64_char (n / 64 mod 64)) (String (b64_char (n mod 64)) (b64encode rest))))
  | [b1; b2] =>
      let n := (bval b1 * 65536 + bval b2 * 256)%Z in
      String (b64_char (n / 262144)) (String (b64_char (n / 4096 mod 64))
        (String (b64_char (n / 64 mod 64)) "="))
  | [b1] =>
      let n := (bval b1 * 65536)%Z in
      String (b64_char (n / 262144)) (String (b64_char (n / 4096 mod 64)) "==")
  | [] => ""
  end.

(** [f"data:image/png;base64,{encoded}"] *)
Definition data_uri (bs : list byte) : string :=
  "data:image/png;base64," +:+ b64encode bs.

(** Lines 11-15, with the file read as a capability. *)
Definition encode_image (read_file : string -> pyres (list byte))
    (image_folder filename : string) : pyres (string * string) :=
  bs ← read_file (os_path_join image_folder filename);
  Ok (filename, data_uri bs).

(** ** Arithmetic of the three cases *)

Lemma bval_range b : (0 <= bval b < 256)%Z.
Proof. unfold bval. pose proof (Byte.to_N_bounded b). lia. Qed.

Lemma digits3 b1 b2 b3 :
  let n := (bval b1 * 65536 + bval b2 * 256 + bval b3)%Z in
  (0 <= n / 262144 < 64)%Z /\ (0 <= n / 4096 mod 64 < 64)%Z /\
  (0 <= n / 64 mod 64 < 64)%Z /\ (0 <= n mod 64 < 64)%Z /\
  (n / 262144 * 262144 + n / 4096 mod 64 * 4096 + n / 64 mod 64 * 64 + n mod 64 = n)%Z /\
  ((n / 65536) mod 256 = bval b1)%Z /\ ((n / 256) mod 256 = bval b2)%Z /\ (n mod 256 = bval b3)%Z.
Proof.
  pose proof (bval_range b1). pose proof (bval_range b2). pose proof (bval_range b3).
  split_and!; div_mod_lia.
Qed.

Lemma digits2 b1 b2 :
  let n := (bval b1 * 65536 + bval b2 * 256)%Z in
  (0 <= n / 262144 < 64)%Z /\ (0 <= n / 4096 mod 64 < 64)%Z /\ (0 <= n / 64 mod 64 < 64)%Z /\
  ((n / 262144 * 262144 + n / 4096 mod 64 * 4096 + n / 64 mod 64 * 64) / 65536 mod 256 = bval b1)%Z /\
  ((n / 262144 * 262144 + n / 4096 mod 64 * 4096 + n / 64 mod 64 * 64) / 256 mod 256 = bval b2)%Z.
Proof. pose proof (bval_range b1). pose proof (bval_range b2). split_and!; div_mod_lia. Qed.

Lemma digits1 b1 :
  let n := (bval b1 * 65536)%Z in
  (0 <= n / 262144 < 64)%Z /\ (0 <= n / 4096 mod 64 < 64)%Z /\
  ((n / 262144 * 262144 + n / 4096 mod 64 * 4096) / 65536 mod 256 = bval b1)%Z.
Proof. pose proof (bval_range b1). split_and!; div_mod_lia. Qed.

(** Size: the encoding of [n] bytes has [4 * ceil(n / 3)] characters. *)
Lemma b64encode_length (bs : list byte) :
  String.length (b64encode bs) = 4 * ((length bs + 2) / 3).
Proof.
  induction bs as [bs IH] using (induction_ltof1 _ (@length byte)).
  destruct bs as [|b1 [|b2 [|b3 rest]]]; [done|done|done|].
  simpl b64encode. cbn [String.length]. rewrite (IH rest) by (unfold ltof; simpl; lia).
  cbn [length]. replace (S (S (S (length rest))) + 2) with ((length rest + 2) + 1 * 3) by lia.
  rewrite Nat.div_add by lia. lia.
Qed.
