(* ===== verification/Base64Spec.v ===== *)
(** * [encode_image] against RFC 4648

    RFC 4648, section 4, defines base64 on the bit stream of the input:
    the bytes, most significant bit first, are cut into groups of six bits
    (the last group completed with zero bits), each group is the character
    of Table 1 for its value ([rfc_char], written from the table's ranges
    [A-Z], [a-z], [0-9], [+], [/]), and [=] pads the output to a multiple
    of four characters.  [b64_ref] transcribes that definition and
    [b64decode] is the decoder of the same table.  [b64encode] (the model
    of [base64.b64encode] on line 14) works on three bytes at a time with
    integer arithmetic and its own alphabet string; the theorems show that
    [encode_image] sends the RFC encoding of the file's bytes, and that
    the payload of its data URI decodes back to those bytes. *)

From S2P Require Import Fai PyValue PathOps Base64.
From Stdlib Require Import Init.Byte Strings.Byte.

(** ** The reference *)

(** Table 1 of RFC 4648: the character of a 6-bit value. *)
Definition rfc_char (v : Z) : ascii :=
  Ascii.ascii_of_N (Z.to_N (if v <? 26 then 65 + v else if v <? 52 then 71 + v
                            else if v <? 62 then v - 4 else if v =? 62 then 43 else 47))%Z.

(** The value of a character of Table 1. *)
Definition rfc_index (c : ascii) : option Z :=
  let n := Z.of_N (Ascii.N_of_ascii c) in
  (if (65 <=? n) && (n <=? 90) then Some (n - 65)
  else if (97 <=? n) && (n <=? 122) then Some (n - 71)
  else if (48 <=? n) && (n <=? 57) then Some (n + 4)
  else if n =? 43 then Some 62 else if n =? 47 then Some 63 else None)%Z.

(** The eight bits of a byte, most significant first. *)
Definition byte_bits (b : byte) : list bool :=
  map (fun i => Z.testbit (bval b) i) [7; 6; 5; 4; 3; 2; 1; 0]%Z.

(** The number a sequence of bits denotes, most significant first. *)
Definition bits_val (l : list bool) : Z :=
  fold_left (fun acc b => 2 * acc + Z.b2z b)%Z l 0%Z.

(** The six-bit groups, the last one completed with zero bits. *)
Fixpoint sextets (l : list bool) : list (list bool) :=
  match l with
  | b1 :: b2 :: b3 :: b4 :: b5 :: b6 :: rest => [b1; b2; b3; b4; b5; b6] :: sextets rest
  | [] => []
  | _ => [l ++ replicate (6 - length l) false]
  end.

Definition ref_chars (bs : list byte) : list ascii :=
  map (fun g => rfc_char (bits_val g)) (sextets (concat (map byte_bits bs))).

(** The number of [=] that completes [n] characters to a multiple of four. *)
Definition pad_count (n : nat) : nat := (4 - n mod 4) mod 4.

Definition b64_ref (bs : list byte) : string :=
  String.string_of_list_ascii (ref_chars bs ++ replicate (pad_count (length (ref_chars bs))) "="%char).

(** The decoder of the RFC: four characters at a time; [=] may only pad
    the last group. *)
Definition is_pad (c : ascii) : bool := Ascii.eqb c "=".

Definition byte_of (n : Z) : byte :=
  match Byte.of_N (Z.to_N (n mod 256)) with Some b => b | None => x00 end.

Fixpoint b64decode (s : string) : option (list byte) :=
  match s with
  | EmptyString => Some []
  | String c1 (String c2 (String c3 (String c4 rest))) =>
      i1 ← rfc_index c1; i2 ← rfc_index c2;
      if is_pad c3 then
        (if is_pad c4 && String.eqb rest "" then
           Some [byte_of ((i1 * 262144 + i2 * 4096) / 65536)]
         else None)
      else
        (i3 ← rfc_index c3;
         if is_pad c4 then
           (if String.eqb rest "" then
              let n := (i1 * 262144 + i2 * 4096 + i3 * 64)%Z in
              Some [byte_of (n / 65536); byte_of (n / 256)]
            else None)
         else
           (i4 ← rfc_index c4;
            let n := (i1 * 262144 + i2 * 4096 + i3 * 64 + i4)%Z in
            bs ← b64decode rest;
            Some (byte_of (n / 65536) :: byte_of (n / 256) :: byte_of n :: bs)))
  | _ => None
  end.

(** ** The alphabet *)

(** A property of every 6-bit value, checked on the 64 of them. *)
Lemma sextet_check (f : Z -> bool) :
  forallb f (map Z.of_nat (seq 0 64)) = true -> forall k, (0 <= k < 64)%Z -> f k = true.
Proof.
  intros H k Hk. rewrite forallb_forall in H. apply H, in_map_iff.
  exists (Z.to_nat k). split; [lia|]. apply in_seq. lia.
Qed.

(** The alphabet string of [Base64] is Table 1. *)
Lemma b64_char_rfc k : (0 <= k < 64)%Z -> b64_char k = rfc_char k.
Proof.
  intros Hk. apply Ascii.eqb_eq.
  exact (sextet_check (fun k => Ascii.eqb (b64_char k) (rfc_char k)) ltac:(vm_compute; reflexivity) k Hk).
Qed.

Lemma rfc_index_char k : (0 <= k < 64)%Z -> rfc_index (rfc_char k) = Some k.
Proof.
  intros Hk.
  pose proof (sextet_check (fun k => if rfc_index (rfc_char k) is Some j then Z.eqb j k else false)
                ltac:(vm_compute; reflexivity) k Hk) as H. cbv beta in H.
  destruct (rfc_index (rfc_char k)); [|discriminate]. apply Z.eqb_eq in H. by subst.
Qed.

Lemma rfc_char_not_pad k : (0 <= k < 64)%Z -> is_pad (rfc_char k) = false.
Proof.
  intros Hk. apply negb_true_iff.
  exact (sextet_check (fun k => negb (is_pad (rfc_char k))) ltac:(vm_compute; reflexivity) k Hk).
Qed.

(** ** Lemmas on bits *)

Lemma fold_bits_acc l acc :
  fold_left (fun acc b => 2 * acc + Z.b2z b)%Z l acc = (acc * 2 ^ Z.of_nat (length l) + bits_val l)%Z.
Proof.
  unfold bits_val. revert acc. induction l as [|b l IH]; intros acc; simpl; [lia|].
  rewrite IH, (IH (2 * 0 + Z.b2z b)%Z). rewrite Nat2Z.inj_succ, Z.pow_succ_r by lia. lia.
Qed.

Lemma bits_val_app l1 l2 :
  bits_val (l1 ++ l2) = (bits_val l1 * 2 ^ Z.of_nat (length l2) + bits_val l2)%Z.
Proof. unfold bits_val at 1. by rewrite fold_left_app, fold_bits_acc. Qed.

Lemma bits_val_bound l : (0 <= bits_val l < 2 ^ Z.of_nat (length l))%Z.
Proof.
  induction l as [|b l IH] using rev_ind; [unfold bits_val; simpl; lia|].
  rewrite bits_val_app, length_app. simpl length.
  rewrite Nat2Z.inj_add, Z.pow_add_r by lia. change (2 ^ Z.of_nat 1)%Z with 2%Z.
  replace (bits_val [b]) with (Z.b2z b) by (unfold bits_val; simpl; lia).
  destruct b; simpl Z.b2z; lia.
Qed.

Lemma bits_val_byte b : bits_val (byte_bits b) = bval b.
Proof. destruct b; reflexivity. Qed.

Lemma length_byte_bits b : length (byte_bits b) = 8.
Proof. reflexivity. Qed.

Lemma sextets_app6 g r : length g = 6 -> sextets (g ++ r) = g :: sextets r.
Proof. intros Hg. do 6 (destruct g as [|? g]; [discriminate|]). by destruct g. Qed.

(** A list of [6 * k + j] bits cut where [sextets] cuts it. *)
Lemma split_bits (L : list bool) n :
  length L = n -> (6 <= n)%nat -> exists g r, L = g ++ r /\ length g = 6 /\ length r = (n - 6)%nat.
Proof.
  intros HL Hn. exists (take 6 L), (drop 6 L). rewrite take_drop, length_take, length_drop. split_and!; [done | lia | lia].
Qed.

Lemma bits_val_bound6 g : length g = 6 -> (0 <= bits_val g < 64)%Z.
Proof. intros Hg. pose proof (bits_val_bound g) as B. by rewrite Hg in B. Qed.

#[local] Ltac cut6 L H g r Hg Hr :=
  destruct (split_bits L _ H) as (g & r & ? & Hg & Hr); [lia|]; subst L;
  pose proof (bits_val_bound6 g Hg).

(** Evaluates the powers [2 ^ k] of known exponents, everywhere. *)
#[local] Ltac pow_simpl :=
  repeat match goal with
  | H : context [(2 ^ Z.of_nat ?k)%Z] |- _ =>
      let v := eval vm_compute in (2 ^ Z.of_nat k)%Z in change (2 ^ Z.of_nat k)%Z with v in H
  | |- context [(2 ^ Z.of_nat ?k)%Z] =>
      let v := eval vm_compute in (2 ^ Z.of_nat k)%Z in change (2 ^ Z.of_nat k)%Z with v
  end.

(** ** The three cases of [b64encode] *)

Lemma ref_chars_3 b1 b2 b3 rest :
  let n := (bval b1 * 65536 + bval b2 * 256 + bval b3)%Z in
  ref_chars (b1 :: b2 :: b3 :: rest) =
    rfc_char (n / 262144) :: rfc_char (n / 4096 mod 64) :: rfc_char (n / 64 mod 64) ::
    rfc_char (n mod 64) :: ref_chars rest.
Proof.
  intros n. unfold ref_chars. cbn [map concat]. rewrite !app_assoc.
  remember ((byte_bits b1 ++ byte_bits b2) ++ byte_bits b3) as L eqn:HL.
  assert (Hv : bits_val L = n).
  { subst L n. rewrite !bits_val_app, !bits_val_byte, !length_byte_bits. simpl. lia. }
  assert (Hlen : length L = 24) by (subst L; by rewrite !length_app, !length_byte_bits).
  clear HL.
  cut6 L Hlen g1 r1 Hg1 Hr1. cut6 r1 Hr1 g2 r2 Hg2 Hr2. cut6 r2 Hr2 g3 g4 Hg3 Hg4.
  rewrite <- !app_assoc, !sextets_app6 by done. pose proof (bits_val_bound6 g4 Hg4).
  rewrite !bits_val_app, !length_app, Hg2, Hg3, Hg4 in Hv. simpl length in Hv. pow_simpl.
  cbn [map]. repeat f_equal; subst n; div_mod_lia.
Qed.

Lemma ref_chars_2 b1 b2 :
  let n := (bval b1 * 65536 + bval b2 * 256)%Z in
  ref_chars [b1; b2] = [rfc_char (n / 262144); rfc_char (n / 4096 mod 64); rfc_char (n / 64 mod 64)].
Proof.
  intros n. unfold ref_chars. cbn [map concat]. rewrite app_nil_r.
  remember (byte_bits b1 ++ byte_bits b2) as L eqn:HL.
  assert (Hv : bits_val L = (n / 256)%Z).
  { subst L n. rewrite !bits_val_app, !bits_val_byte, !length_byte_bits. simpl. div_mod_lia. }
  assert (Hlen : length L = 16) by (subst L; by rewrite !length_app, !length_byte_bits).
  clear HL. cut6 L Hlen g1 r1 Hg1 Hr1. cut6 r1 Hr1 g2 g3 Hg2 Hg3.
  rewrite sextets_app6 by done. rewrite sextets_app6 by done.
  pose proof (bits_val_bound g3) as B3. rewrite Hg3 in B3.
  do 4 (destruct g3 as [|? g3]; [discriminate|]). destruct g3; [|discriminate]. cbn [sextets map].
  rewrite !bits_val_app, !length_app, Hg2 in Hv. rewrite (bits_val_app _ [false; false]).
  change (bits_val [false; false]) with 0%Z. simpl length in *. pow_simpl.
  repeat f_equal; subst n; div_mod_lia.
Qed.

Lemma ref_chars_1 b1 :
  let n := (bval b1 * 65536)%Z in
  ref_chars [b1] = [rfc_char (n / 262144); rfc_char (n / 4096 mod 64)].
Proof.
  intros n. unfold ref_chars. cbn [map concat]. rewrite app_nil_r.
  pose proof (bits_val_byte b1) as Hv. pose proof (length_byte_bits b1) as Hlen.
  remember (byte_bits b1) as L eqn:HL. clear HL.
  cut6 L Hlen g1 g2 Hg1 Hg2. rewrite sextets_app6 by done.
  pose proof (bits_val_bound g2) as B2. rewrite Hg2 in B2.
  do 2 (destruct g2 as [|? g2]; [discriminate|]). destruct g2; [|discriminate]. cbn [sextets map].
  rewrite bits_val_app in Hv. rewrite (bits_val_app _ [false; false; false; false]).
  change (bits_val [false; false; false; false]) with 0%Z. simpl length in *. pow_simpl.
  repeat f_equal; subst n; div_mod_lia.
Qed.

Lemma pad_count_add4 k : pad_count (S (S (S (S k)))) = pad_count k.
Proof. unfold pad_count. replace (S (S (S (S k)))) with (k + 1 * 4) by lia. by rewrite Nat.Div0.mod_add. Qed.

Lemma byte_of_mod x b : (x mod 256 = bval b)%Z -> byte_of x = b.
Proof. intros H. unfold byte_of. rewrite H. unfold bval. by rewrite N2Z.id, Byte.of_to_N. Qed.

(** ** Equivalence and round trip of the encoder *)

(** The three-bytes-at-a-time encoder computes the bit-level reference. *)
Lemma b64encode_spec (bs : list byte) : b64encode bs = b64_ref bs.
Proof.
  unfold b64_ref. induction bs as [bs IH] using (induction_ltof1 _ (@length byte)).
  destruct bs as [|b1 [|b2 [|b3 rest]]]; [done| | |].
  - pose proof (digits1 b1) as D. cbv zeta in D. destruct D as (H1 & H2 & _).
    rewrite ref_chars_1. simpl b64encode. by rewrite (b64_char_rfc _ H1), (b64_char_rfc _ H2).
  - pose proof (digits2 b1 b2) as D. cbv zeta in D. destruct D as (H1 & H2 & H3 & _).
    rewrite ref_chars_2. simpl b64encode.
    by rewrite (b64_char_rfc _ H1), (b64_char_rfc _ H2), (b64_char_rfc _ H3).
  - pose proof (digits3 b1 b2 b3) as D. cbv zeta in D. destruct D as (H1 & H2 & H3 & H4 & _).
    rewrite ref_chars_3. cbn [length]. rewrite pad_count_add4. simpl b64encode.
    rewrite (b64_char_rfc _ H1), (b64_char_rfc _ H2), (b64_char_rfc _ H3), (b64_char_rfc _ H4).
    rewrite (IH rest) by (unfold ltof; simpl; lia). reflexivity.
Qed.

(** Decoding what [b64encode] produced gives back the bytes. *)
Lemma b64_roundtrip (bs : list byte) : b64decode (b64encode bs) = Some bs.
Proof.
  induction bs as [bs IH] using (induction_ltof1 _ (@length byte)).
  destruct bs as [|b1 [|b2 [|b3 rest]]]; [done| | |].
  - pose proof (digits1 b1) as D. cbv zeta in D. destruct D as (H1 & H2 & H3).
    simpl b64encode. rewrite (b64_char_rfc _ H1), (b64_char_rfc _ H2). cbn [b64decode].
    rewrite (rfc_index_char _ H1), (rfc_index_char _ H2). simpl.
    by rewrite (byte_of_mod _ _ H3).
  - pose proof (digits2 b1 b2) as D. cbv zeta in D. destruct D as (H1 & H2 & H3 & H4 & H5).
    simpl b64encode. rewrite (b64_char_rfc _ H1), (b64_char_rfc _ H2), (b64_char_rfc _ H3).
    cbn [b64decode]. rewrite (rfc_index_char _ H1), (rfc_index_char _ H2), (rfc_char_not_pad _ H3). simpl.
    rewrite (rfc_index_char _ H3). simpl.
    by rewrite (byte_of_mod _ _ H4), (byte_of_mod _ _ H5).
  - pose proof (digits3 b1 b2 b3) as D. cbv zeta in D.
    destruct D as (H1 & H2 & H3 & H4 & H5 & H6 & H7 & H8).
    simpl b64encode. rewrite (b64_char_rfc _ H1), (b64_char_rfc _ H2), (b64_char_rfc _ H3), (b64_char_rfc _ H4).
    cbn [b64decode]. rewrite (rfc_index_char _ H1), (rfc_index_char _ H2), (rfc_char_not_pad _ H3). simpl.
    rewrite (rfc_index_char _ H3), (rfc_char_not_pad _ H4). simpl.
    rewrite (rfc_index_char _ H4). simpl. rewrite H5.
    rewrite (IH rest) by (unfold ltof; simpl; lia). simpl.
    by rewrite (byte_of_mod _ _ H6), (byte_of_mod _ _ H7), (byte_of_mod _ _ H8).
Qed.

(** ** [encode_image] *)

(** C13: [encode_image(image_folder, filename)] reads the file at
    [os.path.join(image_folder, filename)] and returns the file name with
    the data URI [data:image/png;base64,] followed by the RFC 4648
    base64 encoding of the file's bytes; a failing read raises its
    exception. *)
Theorem encode_image_spec (read_file : string -> pyres (list byte)) (image_folder filename : string) :
  encode_image read_file image_folder filename =
    (fun bs => (filename, "data:image/png;base64," +:+ b64_ref bs)) <$> read_file (os_path_join image_folder filename).
Proof.
  unfold encode_image. destruct (read_file _) as [bs|e]; [|done].
  rewrite bind_Ok. unfold data_uri. by rewrite b64encode_spec.
Qed.

(** C14: round trip: the payload of the data URI [encode_image] returns
    decodes, with the RFC decoder, to exactly the bytes of the file that
    was read. *)
Theorem encode_image_roundtrip (read_file : string -> pyres (list byte)) (image_folder filename f uri : string) :
  encode_image read_file image_folder filename = Ok (f, uri) ->
  f = filename /\ exists payload bs, uri = "data:image/png;base64," +:+ payload /\
    read_file (os_path_join image_folder filename) = Ok bs /\ b64decode payload = Some bs.
Proof.
  unfold encode_image. destruct (read_file _) as [bs|e]; [|discriminate]. intros [= <- <-].
  split; [done|]. exists (b64encode bs), bs. split_and!; [done | done | apply b64_roundtrip].
Qed.

(** ** Witness *)

Lemma encode_image_roundtrip_witness :
  "a.png" = "a.png" /\ exists payload bs, "data:image/png;base64,AQI=" = "data:image/png;base64," +:+ payload /\
    (fun _ : string => Ok [x01; x02] : pyres (list byte)) (os_path_join "in" "a.png") = Ok bs /\
    b64decode payload = Some bs.
Proof. apply (encode_image_roundtrip (fun _ => Ok [x01; x02]) "in" "a.png"). reflexivity. Defined.
