(* ===== verification/Worker.v ===== *)
(** * The extraction worker: [process_image] (fai.py lines 23-88)

    One call sends the image to the model, parses the JSON answer,
    normalizes it ([Normalizer.normalize]), optionally saves a face crop,
    and returns [(filename, parsed)]; every exception raised on the way is
    caught by [except Exception as e] and returned as
    [(filename, {"error": str(e)})].

    The collaborators fai.py only calls are the fields of [Runtime]: the
    Fireworks client ([llm_create], which returns
    [response.choices[0].message.content] or raises), [json.loads], and
    PIL's [Image.open], [Image.crop] and [Image.save] on an abstract image
    type.  Every theorem holds for every runtime.  The files the worker
    writes are returned next to its result, as the list of
    [(path, image)] saves it performed. *)

From S2P Require Import Fai PyDict PyValue Normalizer PathOps.
From stdpp Require Import pretty.

(** ** The request (lines 25-67) *)

Definition prompt : string :=
  "Classify the ID type as 'passport' or 'DL'. Then extract fields: " +:+
  "DL number, expiry, name, DOB, address, sex, height, weight, hair, eyes. " +:+
  "Also provide the face crop bounding box. " +:+
  "Detect if any part of the ID (text, photo, structure) appears generated or altered. " +:+
  "Output all in JSON, and include a final field named 'altered' with value True or False.".

Definition str_field (k : string) : string * pyval := (k, PDict [("type", PStr "string")]).

Definition response_format : pyval :=
  PDict [("type", PStr "json_object");
         ("schema", PDict [
            ("type", PStr "object");
            ("properties", PDict [
               str_field "ID_type"; str_field "dl_number"; str_field "expiry";
               str_field "name"; str_field "dob"; str_field "address"; str_field "sex";
               str_field "height"; str_field "weight"; str_field "hair"; str_field "eyes";
               ("altered", PDict [("type", PStr "boolean")]);
               ("face_bbox", PDict [("type", PStr "array");
                                    ("items", PDict [("type", PStr "number")])])]);
            ("required", PList [PStr "ID_type"; PStr "name"; PStr "dob"; PStr "altered"])])].

Record request := Request {
  req_text : string;
  req_image_url : string;
  req_response_format : pyval
}.

Definition build_request (image_data_uri : string) : request :=
  Request prompt image_data_uri response_format.

(** ** External capabilities and configuration *)

Record Runtime := {
  image : Type;
  llm_create : request -> pyres string;
  json_loads : string -> pyres pyval;
  image_open : string -> pyres image;
  image_crop : image -> Z * Z * Z * Z -> pyres image;
  image_save : image -> string -> pyres unit
}.

(** The fields of [args] that [process_image] reads. *)
Record Args := MkArgs {
  input_dir : string;
  face_dir : option string
}.

(** [if args.face_dir:] — [None] and the empty string are false. *)
Definition face_dir_set (args : Args) : option string :=
  match face_dir args with
  | Some d => if String.eqb d "" then None else Some d
  | None => None
  end.

Section Worker.
Context (rt : Runtime) (args : Args).

(** [x, y, w, h = map(int, face_bbox)] *)
Definition unpack4 (zs : list Z) : pyres (Z * Z * Z * Z) :=
  match zs with
  | [x; y; w; h] => Ok (x, y, w, h)
  | _ => if (length zs <? 4)%nat
         then Err (Exn ValueError ("not enough values to unpack (expected 4, got "
                                   +:+ pretty (length zs) +:+ ")"))
         else Err (Exn ValueError "too many values to unpack (expected 4)")
  end.

(** Lines 76-84, once [args.face_dir] is known to be set to [fdir]. *)
Definition crop_face (fdir filename : string) (parsed : pyval)
  : pyres (list (string * image rt)) :=
  face_bbox ← py_dict_get parsed "face_bbox";
  is4 ← (if py_truthy face_bbox then n ← py_len face_bbox; Ok (Nat.eqb n 4) else Ok false);
  if (is4 : bool) then
    (items ← py_iter face_bbox;
     zs ← mapM py_int items;
     '(x, y, w, h) ← unpack4 zs;
     img ← image_open rt (os_path_join (input_dir args) filename);
     face_crop ← image_crop rt img (x, y, x + w, y + h)%Z;
     let face_crop_path := face_crop_path fdir filename in
     _ ← image_save rt face_crop face_crop_path;
     Ok [(face_crop_path, face_crop)])
  else Ok [].

(** The body of the [try] (lines 25-86). *)
Definition process_body (filename image_data_uri : string)
  : pyres (pyval * list (string * image rt)) :=
  content ← llm_create rt (build_request image_data_uri);
  parsed ← json_loads rt content;
  parsed ← normalize parsed;
  saves ← (match face_dir_set args with
           | Some fdir => crop_face fdir filename parsed
           | None => Ok []
           end);
  Ok (parsed, saves).

(** [{"error": str(e)}] *)
Definition error_record (e : exn) : pyval := PDict [("error", PStr (exn_msg e))].

(** [process_image(llm, filename, image_data_uri, args)]: the returned
    pair and the crops saved on the way. *)
Definition process_image (filename image_data_uri : string)
  : (string * pyval) * list (string * image rt) :=
  match process_body filename image_data_uri with
  | Ok (parsed, saves) => ((filename, parsed), saves)
  | Err e => ((filename, error_record e), [])
  end.
End Worker.

(** ** Theorems *)

Section WorkerTheorems.
Context (rt : Runtime) (args : Args) (filename uri : string).

Lemma process_image_key : (process_image rt args filename uri).1.1 = filename.
Proof. unfold process_image. by destruct (process_body rt args filename uri) as [[??]|]. Qed.

(** C2: failure isolation.  [process_image] always returns, keyed by its
    own file name; its record is either [{"error": str(e)}] for the
    exception [e] that the body raised, with no crop saved, or the
    normalized JSON object the model returned for this image. *)
Theorem process_image_contract :
  let '((f, r), saves) := process_image rt args filename uri in
  f = filename /\
  ((exists e, r = error_record e /\ saves = [] /\ process_body rt args filename uri = Err e) \/
   (exists content raw, llm_create rt (build_request uri) = Ok content /\
                        json_loads rt content = Ok raw /\ normalize raw = Ok r)).
Proof.
  unfold process_image. destruct (process_body rt args filename uri) as [[parsed saves]|e] eqn:E.
  - split; [done|]. right. unfold process_body in E. res_simpl. subst. eauto.
  - split; [done|]. left. eauto.
Qed.

(** When [json.loads] returns JSON objects, the record is a dict: the
    normalized object or the error record. *)
Lemma process_image_record_dict :
  (forall c v, json_loads rt c = Ok v -> is_dict v = true) ->
  is_dict (process_image rt args filename uri).1.2 = true.
Proof.
  intros Hl. unfold process_image.
  destruct (process_body rt args filename uri) as [[parsed saves]|e] eqn:E; [|done].
  unfold process_body in E. res_simpl. subst.
  match goal with Hj : json_loads _ _ = Ok ?raw |- _ => pose proof (Hl _ _ Hj) as Hd; destruct raw; try discriminate end.
  by eapply normalize_dict.
Qed.

Lemma crop_face_saves fdir parsed saves x :
  crop_face rt args fdir filename parsed = Ok saves -> x ∈ saves -> x.1 = face_crop_path fdir filename.
Proof.
  unfold crop_face. intros H Hx. res_simpl.
  match goal with H : (if ?b then _ else _) = Ok _ |- _ => destruct b end;
    [|match goal with H : Ok [] = Ok _ |- _ => injection H as <- end; by apply not_elem_of_nil in Hx].
  res_simpl. repeat match goal with p : (_ * _ * _ * _)%type |- _ => destruct p as [[[??]?]?] end. res_simpl.
  subst saves. by apply list_elem_of_singleton in Hx as ->.
Qed.

(** The crops [process_image] saves: only after a successful extraction,
    with a face directory set, at the face-crop path of the file. *)
Lemma process_image_saves x :
  x ∈ (process_image rt args filename uri).2 ->
  exists fdir content raw parsed,
    face_dir_set args = Some fdir /\ x.1 = face_crop_path fdir filename /\
    llm_create rt (build_request uri) = Ok content /\ json_loads rt content = Ok raw /\
    normalize raw = Ok parsed /\ (process_image rt args filename uri).1.2 = parsed.
Proof.
  unfold process_image. destruct (process_body rt args filename uri) as [[parsed saves]|e] eqn:E;
    cbn [fst snd]; [|by intros ?%not_elem_of_nil].
  intros Hx. unfold process_body in E. res_simpl. subst.
  destruct (face_dir_set args) as [fdir|] eqn:Hf;
    [|match goal with H : Ok [] = Ok _ |- _ => injection H as <- end; by apply not_elem_of_nil in Hx].
  eexists _, _, _, _. split_and!; [done | by eapply crop_face_saves | done..].
Qed.

(** C20: an exception of the model call becomes the record
    [{"error": str(e)}] of this file. *)
Theorem process_image_llm_error (e : exn) :
  llm_create rt (build_request uri) = Err e ->
  process_image rt args filename uri = ((filename, error_record e), []).
Proof. intros H. unfold process_image, process_body. by rewrite H. Qed.

Section Crop.
Context (fdir content : string) (raw parsed : pyval) (x y w h : Z).
Hypothesis Hdir : face_dir_set args = Some fdir.
Hypothesis Hllm : llm_create rt (build_request uri) = Ok content.
Hypothesis Hjson : json_loads rt content = Ok raw.
Hypothesis Hnorm : normalize raw = Ok parsed.
Hypothesis Hbbox : py_dict_get parsed "face_bbox" = Ok (PList [PInt x; PInt y; PInt w; PInt h]).

Lemma process_image_to_crop :
  process_image rt args filename uri =
  match crop_face rt args fdir filename parsed with
  | Ok saves => ((filename, parsed), saves)
  | Err e => ((filename, error_record e), [])
  end.
Proof.
  unfold process_image, process_body.
  rewrite Hllm, bind_Ok, Hjson, bind_Ok, Hnorm, bind_Ok, Hdir.
  by destruct (crop_face rt args fdir filename parsed).
Qed.

Lemma crop_face_bbox :
  crop_face rt args fdir filename parsed =
  (img ← image_open rt (os_path_join (input_dir args) filename);
   face_crop ← image_crop rt img (x, y, x + w, y + h)%Z;
   _ ← image_save rt face_crop (face_crop_path fdir filename);
   Ok [(face_crop_path fdir filename, face_crop)]).
Proof. unfold crop_face. by rewrite Hbbox. Qed.

(** C21: with a four-number [face_bbox], the worker crops the box
    [(x, y, x + w, y + h)] (top-left corner, width, height) and saves it
    to the face-crop path of the file, next to the normalized record. *)
Theorem process_image_crop_ok (img face : image rt) :
  image_open rt (os_path_join (input_dir args) filename) = Ok img ->
  image_crop rt img (x, y, x + w, y + h)%Z = Ok face ->
  image_save rt face (face_crop_path fdir filename) = Ok tt ->
  process_image rt args filename uri =
  ((filename, parsed), [(face_crop_path fdir filename, face)]).
Proof.
  intros Ho Hc Hs. rewrite process_image_to_crop, crop_face_bbox.
  by rewrite Ho, bind_Ok, Hc, bind_Ok, Hs.
Qed.

(** C22: a crop that fails (the image cannot be reopened) discards the
    extraction that succeeded: the file's record becomes
    [{"error": str(e)}].  The spec (section 9) describes cropping
    failures as silent, with the record kept. *)
Theorem process_image_crop_error (e : exn) :
  image_open rt (os_path_join (input_dir args) filename) = Err e ->
  process_image rt args filename uri = ((filename, error_record e), []).
Proof. intros Ho. rewrite process_image_to_crop, crop_face_bbox. by rewrite Ho. Qed.
End Crop.
End WorkerTheorems.

(** [int(c)] of a one-character string that is a digit. *)
Lemma py_int_digit c : is_digit c = true -> py_int (PStr (String c "")) = Ok (digit_value c).
Proof. destruct c as [[] [] [] [] [] [] [] []]; intros H; try discriminate H; reflexivity. Qed.

(** C23: a [face_bbox] given as a string of four digits passes
    [len(face_bbox) == 4] and is unpacked character by character: the
    digits [x], [y], [w], [h] crop the box [(x, y, x + w, y + h)]. *)
Theorem crop_face_string_bbox (rt : Runtime) (args : Args) (fdir filename : string) (parsed : pyval)
    (c1 c2 c3 c4 : ascii) (img face : image rt) :
  py_dict_get parsed "face_bbox" = Ok (PStr (String c1 (String c2 (String c3 (String c4 ""))))) ->
  is_digit c1 = true -> is_digit c2 = true -> is_digit c3 = true -> is_digit c4 = true ->
  image_open rt (os_path_join (input_dir args) filename) = Ok img ->
  image_crop rt img (digit_value c1, digit_value c2, digit_value c1 + digit_value c3,
                     digit_value c2 + digit_value c4)%Z = Ok face ->
  image_save rt face (face_crop_path fdir filename) = Ok tt ->
  crop_face rt args fdir filename parsed = Ok [(face_crop_path fdir filename, face)].
Proof.
  intros Hb H1 H2 H3 H4 Ho Hc Hs. unfold crop_face. rewrite Hb. cbn -[py_int].
  rewrite (py_int_digit _ H1), (py_int_digit _ H2), (py_int_digit _ H3), (py_int_digit _ H4). simpl.
  by rewrite Ho, bind_Ok, Hc, bind_Ok, Hs.
Qed.

(** ** A concrete runtime for the witnesses

    The model answers one image (the data URI of the two bytes [01 02])
    with a complete record and fails on every other; images are their
    source path and size, [100 x 100] on open; the crop has PIL's size
    [(right - left, lower - upper)] and its check that the box is not
    inverted. *)

Definition demo_uri_a : string := "data:image/png;base64,AQI=".

Definition demo_response : pyval :=
  PDict [("ID_type", PStr "DL"); ("dl_number", PStr "D1234567"); ("expiry", PStr "2030-01-01");
         ("name", PStr "JANE DOE"); ("dob", PStr "1990-02-03"); ("address", PStr "1 MAIN ST");
         ("sex", PStr "F"); ("height", PStr ("5'-06" +:+ dquote_str)); ("weight", PStr "130 lb");
         ("hair", PStr "BRN"); ("eyes", PStr "BLU"); ("altered", PBool false);
         ("face_bbox", PList [PInt 10; PInt 10; PInt 50; PInt 50])].

Definition demo_parsed : pyval :=
  PDict [("ID_type", PStr "DL"); ("dl_number", PStr "D1234567"); ("expiry", PStr "2030-01-01");
         ("name", PStr "JANE DOE"); ("dob", PStr "1990-02-03"); ("address", PStr "1 MAIN ST");
         ("sex", PStr "F"); ("height", PStr "5'-06"); ("weight", PStr "130 lb");
         ("hair", PStr "BRN"); ("eyes", PStr "BLU"); ("altered", PBool false);
         ("face_bbox", PList [PInt 10; PInt 10; PInt 50; PInt 50])].

Definition inference_error : exn := Exn APIError "inference failed".

Definition demo_rt : Runtime := {|
  image := (string * Z * Z)%type;
  llm_create r := if String.eqb (req_image_url r) demo_uri_a then Ok "a" else Err inference_error;
  json_loads s := if String.eqb s "a" then Ok demo_response
                  else Err (Exn JSONDecodeError "Expecting value: line 1 column 1 (char 0)");
  image_open p := if String.eqb p "in/missing.png"
                  then Err (Exn OSError "[Errno 2] No such file or directory: 'in/missing.png'")
                  else Ok (p, 100%Z, 100%Z);
  image_crop img box :=
    let '(x0, y0, x1, y1) := box in
    if (x1 <? x0)%Z then Err (Exn ValueError "Coordinate 'right' is less than 'left'")
    else if (y1 <? y0)%Z then Err (Exn ValueError "Coordinate 'lower' is less than 'upper'")
    else Ok (img.1.1, x1 - x0, y1 - y0)%Z;
  image_save _ _ := Ok tt
|}.

Definition demo_args : Args := MkArgs "in" (Some "faces").

Lemma process_image_llm_error_witness :
  process_image demo_rt demo_args "b.jpg" "data:image/png;base64,AwQ=" =
  (("b.jpg", error_record inference_error), []).
Proof. apply process_image_llm_error. reflexivity. Defined.

Lemma process_image_crop_ok_witness :
  process_image demo_rt demo_args "a.png" demo_uri_a =
  (("a.png", demo_parsed), [("faces/a_face.png", ("in/a.png", 50%Z, 50%Z))]).
Proof.
  apply (process_image_crop_ok demo_rt demo_args "a.png" demo_uri_a "faces" "a"
           demo_response demo_parsed 10 10 50 50) with (img := ("in/a.png", 100%Z, 100%Z));
    vm_compute; reflexivity.
Defined.

Lemma process_image_crop_error_witness :
  process_image demo_rt demo_args "missing.png" demo_uri_a =
  (("missing.png",
    error_record (Exn OSError "[Errno 2] No such file or directory: 'in/missing.png'")), []).
Proof.
  apply (process_image_crop_error demo_rt demo_args "missing.png" demo_uri_a "faces" "a"
           demo_response demo_parsed 10 10 50 50); vm_compute; reflexivity.
Defined.

Lemma crop_face_string_bbox_witness :
  crop_face demo_rt demo_args "faces" "a.png" (PDict [("face_bbox", PStr "1234")]) =
  Ok [("faces/a_face.png", ("in/a.png", 3%Z, 4%Z))].
Proof.
  apply (crop_face_string_bbox demo_rt demo_args "faces" "a.png" _ "1" "2" "3" "4" ("in/a.png", 100%Z, 100%Z));
    vm_compute; reflexivity.
Defined.
