(* ===== verification/Export.v ===== *)
(** * The exporters (fai.py lines 124-157)

    After the pool has drained, [main] writes [output_data] to
    [args.output_path] in the format [args.output_format.lower()]:
    [json.dump(output_data, f, indent=4)], a TXT listing, or a CSV file
    written by [csv.DictWriter] with the thirteen fixed columns; any other
    format prints a message and writes nothing.

    Each writer is a function from the dict to the text of the file.  The
    TXT writer can raise in the middle of the file; it returns the text
    written before the exception together with the exception.  Reference
    readers ([Csv.csv_read], [Json.json_scan]) state what the files mean: the
    CSV file reads back as its header and one thirteen-field row per
    record, and every JSON string reads back as the Python string.  The
    whole JSON and TXT files are read back in [JsonRead] and [TxtRead]. *)

From S2P Require Import Fai PyDict PyValue PathOps Worker.
From stdpp Require Import pretty.

(** ** CSV (lines 139-155) *)

Module Csv.

(** Lines 141-144. *)
Definition all_fields : list string :=
  ["filename"; "ID_type"; "dl_number"; "expiry"; "name"; "dob";
   "address"; "sex"; "height"; "weight"; "hair"; "eyes"; "face_bbox"].

Definition comma : ascii := ","%char.
Definition cr : ascii := "013"%char.
Definition lf : ascii := "010"%char.

(** The [excel] dialect with [QUOTE_MINIMAL]: a field is quoted when it
    holds the delimiter, the quote character or a line break. *)
Definition csv_special (c : ascii) : bool :=
  bool_decide (c = comma) || bool_decide (c = dquote) || bool_decide (c = cr) || bool_decide (c = lf).

Fixpoint needs_quote (s : string) : bool :=
  match s with
  | EmptyString => false
  | String c s' => csv_special c || needs_quote s'
  end.

(** [doublequote=True]: a quote inside a quoted field is written twice. *)
Fixpoint quote_body (s : string) : string :=
  match s with
  | EmptyString => EmptyString
  | String c s' =>
      if decide (c = dquote) then String dquote (String dquote (quote_body s'))
      else String c (quote_body s')
  end.

Definition csv_field (s : string) : string :=
  if needs_quote s then String dquote (quote_body s +:+ dquote_str) else s.

(** The fields joined by the delimiter (rows of [fai.py] have thirteen
    fields, so the writer's special case of a row made of one empty field
    never arises). *)
Fixpoint csv_join (fields : list string) : string :=
  match fields with
  | [] => ""
  | [f] => csv_field f
  | f :: fs => csv_field f +:+ String comma (csv_join fs)
  end.

(** [writer.writerow]: the fields and the line terminator ["\r\n"]. *)
Definition csv_line (fields : list string) : string :=
  csv_join fields +:+ String cr (String lf "").

(** Lines 148-153: the row of one entry of [output_data], in the order of
    [fieldnames]; [str(data.get(k, ""))] for a dict, [""] otherwise. *)
Definition csv_row (entry : string * pyval) : list string :=
  let (filename, data) := entry in
  filename :: map (fun k => match data with
                            | PDict d => match dict_get k d with Some v => py_str v | None => "" end
                            | _ => ""
                            end)
                  (filter (fun k => k <> "filename") all_fields).

(** Lines 145-154: [writeheader()] and one [writerow] per entry, in the
    dict's order. *)
Definition export_csv (out : dict pyval) : string :=
  foldr (fun r acc => csv_line r +:+ acc) "" (all_fields :: map csv_row out).

(** *** A reference reader *)

(** The reader's state between two characters: at the start of a field,
    inside an unquoted field, inside quotes, just after a closing quote. *)
Inductive rstate := RStart | RUnq | RQuo | RQuoEnd.

#[export] Instance rstate_eq_dec : EqDecision rstate.
Proof. solve_decision. Defined.

Definition emit (cur : list ascii) : string := String.string_of_list_ascii (rev cur).

(** [cur] holds the current field reversed, [row] the fields read so far
    of the current row, reversed. *)
Fixpoint csv_go (s : string) (st : rstate) (cur : list ascii) (row : list string)
    : list (list string) :=
  match s with
  | EmptyString =>
      match st, cur, row with
      | RStart, [], [] => []
      | _, _, _ => [rev (emit cur :: row)]
      end
  | String c s' =>
      match st with
      | RQuo =>
          if decide (c = dquote) then csv_go s' RQuoEnd cur row
          else csv_go s' RQuo (c :: cur) row
      | _ =>
          if decide (c = comma) then csv_go s' RStart [] (emit cur :: row)
          else if decide (c = dquote) then
            match st with
            | RStart => csv_go s' RQuo [] row
            | RQuoEnd => csv_go s' RQuo (c :: cur) row
            | _ => csv_go s' RUnq (c :: cur) row
            end
          else if decide (c = cr) then
            match s' with
            | String d s'' =>
                if decide (d = lf) then rev (emit cur :: row) :: csv_go s'' RStart [] []
                else csv_go s' RUnq (c :: cur) row
            | EmptyString => csv_go s' RUnq (c :: cur) row
            end
          else csv_go s' RUnq (c :: cur) row
      end
  end.

Definition csv_read (s : string) : list (list string) := csv_go s RStart [] [].

(** *** Lemmas *)

Definition rev_chars (s : string) : list ascii := rev (String.list_ascii_of_string s).

Lemma emit_rev_chars s : emit (rev_chars s) = s.
Proof. unfold emit, rev_chars. by rewrite rev_involutive, String.string_of_list_ascii_of_string. Qed.

Lemma rev_chars_cons c s cur : rev_chars s ++ c :: cur = rev_chars (String c s) ++ cur.
Proof. unfold rev_chars. simpl. by rewrite <- app_assoc. Qed.

Lemma csv_special_no c :
  csv_special c = false -> c <> comma /\ c <> dquote /\ c <> cr.
Proof. unfold csv_special. intros H. repeat (apply orb_false_elim in H as [H ?]). split_and!; eapply bool_decide_eq_false_1; eassumption. Qed.

(** Outside quotes, the delimiter ends the field and ["\r\n"] the row. *)
Lemma csv_go_comma st rest cur row :
  st <> RQuo -> csv_go (String comma rest) st cur row = csv_go rest RStart [] (emit cur :: row).
Proof. by destruct st. Qed.

Lemma csv_go_crlf st rest cur row :
  st <> RQuo ->
  csv_go (String cr (String lf rest)) st cur row = rev (emit cur :: row) :: csv_go rest RStart [] [].
Proof. by destruct st. Qed.

(** An unquoted field is read character by character. *)
Lemma csv_go_unquoted s rest cur row :
  needs_quote s = false ->
  csv_go (s +:+ rest) RUnq cur row = csv_go rest RUnq (rev_chars s ++ cur) row.
Proof.
  revert cur. induction s as [|c s IH]; intros cur Hq; [done|].
  simpl in Hq. apply orb_false_elim in Hq as [Hc Hq].
  destruct (csv_special_no c Hc) as (H1 & H2 & H3).
  rewrite string_app_cons. cbn [csv_go].
  rewrite decide_False, decide_False, decide_False by done.
  rewrite IH by done. by rewrite rev_chars_cons.
Qed.

(** A quoted field is read up to its single closing quote. *)
Lemma csv_go_quoted s rest cur row :
  csv_go (quote_body s +:+ String dquote rest) RQuo cur row = csv_go rest RQuoEnd (rev_chars s ++ cur) row.
Proof.
  revert cur. induction s as [|c s IH]; intros cur; [done|]. cbn [quote_body].
  destruct (decide (c = dquote)) as [->|Hc].
  - rewrite !string_app_cons. cbn [csv_go]. rewrite !decide_True by done.
    by rewrite IH, rev_chars_cons.
  - rewrite string_app_cons. cbn [csv_go]. rewrite decide_False by done.
    by rewrite IH, rev_chars_cons.
Qed.

Lemma csv_go_field f rest row :
  exists st, st <> RQuo /\ csv_go (csv_field f +:+ rest) RStart [] row = csv_go rest st (rev_chars f) row.
Proof.
  unfold csv_field. destruct (needs_quote f) eqn:Hq.
  - exists RQuoEnd. split; [done|].
    rewrite string_app_cons. cbn [csv_go]. rewrite decide_False, decide_True by done.
    rewrite <- string_app_assoc. unfold dquote_str. rewrite string_app_cons, string_app_nil_l.
    by rewrite csv_go_quoted, app_nil_r.
  - destruct f as [|c s]; [by exists RStart|]. exists RUnq. split; [done|].
    simpl in Hq. apply orb_false_elim in Hq as [Hc Hq].
    destruct (csv_special_no c Hc) as (H1 & H2 & H3).
    rewrite string_app_cons. cbn [csv_go].
    rewrite decide_False, decide_False, decide_False by done.
    by rewrite csv_go_unquoted, rev_chars_cons, app_nil_r.
Qed.

Lemma csv_join_cons f fs :
  fs <> [] -> csv_join (f :: fs) = csv_field f +:+ String comma (csv_join fs).
Proof. by destruct fs. Qed.

Lemma csv_go_line fs row rest :
  fs <> [] ->
  csv_go (csv_line fs +:+ rest) RStart [] row = (rev row ++ fs) :: csv_go rest RStart [] [].
Proof.
  unfold csv_line. rewrite <- string_app_assoc, string_app_cons, string_app_cons, string_app_nil_l.
  revert row. induction fs as [|f fs IH]; intros row Hne; [done|].
  destruct fs as [|f' fs].
  - cbn [csv_join]. destruct (csv_go_field f (String cr (String lf rest)) row) as (st' & Hst' & ->).
    rewrite csv_go_crlf, emit_rev_chars by done. done.
  - rewrite csv_join_cons, <- string_app_assoc, string_app_cons by done.
    destruct (csv_go_field f (String comma (csv_join (f' :: fs) +:+ String cr (String lf rest))) row)
      as (st' & Hst' & ->).
    rewrite csv_go_comma, emit_rev_chars, IH by done. simpl. by rewrite <- app_assoc.
Qed.

Lemma csv_go_lines rows :
  Forall (fun r => r <> []) rows ->
  csv_go (foldr (fun r acc => csv_line r +:+ acc) "" rows) RStart [] [] = rows.
Proof.
  induction 1 as [|r rows Hr _ IH]; [done|]. simpl. by rewrite csv_go_line, IH.
Qed.

(** *** Theorems *)

(** C12: the CSV file reads back, with the reference reader, as the header
    and one row per entry of [output_data] in the dict's order, each row
    of thirteen fields: quoting keeps commas, quotes and line breaks of
    the values inside their field. *)
Theorem csv_read_export (out : dict pyval) :
  csv_read (export_csv out) = all_fields :: map csv_row out /\
  Forall (fun r => length r = length all_fields) (map csv_row out).
Proof.
  split.
  - apply csv_go_lines. constructor; [done|].
    apply Forall_forall. intros r (kv & <- & _)%list_elem_of_In%in_map_iff. by destruct kv.
  - apply Forall_forall. intros r (kv & <- & _)%list_elem_of_In%in_map_iff. by destruct kv.
Qed.

(** C26: the CSV file has no column for the [altered] flag the model is
    asked for (the forgery verdict): changing or adding [altered] in a
    record leaves its CSV row unchanged. *)
Theorem csv_ignores_altered (filename : string) (d : list (string * pyval)) (x : pyval) :
  csv_row (filename, PDict (dict_set "altered" x d)) = csv_row (filename, PDict d).
Proof.
  unfold csv_row. f_equal. apply map_ext_in. intros k Hk.
  rewrite dict_get_set_ne; [done|]. intros <-. vm_compute in Hk. intuition discriminate.
Qed.

(** A failure record [{"error": msg}] is a dict without any of the
    twelve data columns: its row is the file name followed by twelve
    empty fields, and the error message does not reach the CSV file. *)
Lemma csv_row_failure (filename : string) (e : exn) :
  csv_row (filename, error_record e) = filename :: replicate 12 "".
Proof. reflexivity. Qed.

End Csv.

(** ** TXT (lines 130-136) *)

Module Txt.

Definition nl : string := String Csv.lf "".

(** [f"  {key}: {value}\n"]: the f-string formats [value] with [str]. *)
Definition txt_field (kv : string * pyval) : string :=
  "  " +:+ kv.1 +:+ ": " +:+ py_str kv.2 +:+ nl.

(** One iteration of the loop of line 132: the header line, then
    [data.items()], which raises [AttributeError] when [data] is not a
    dict, after the header line was written. *)
Definition txt_entry (entry : string * pyval) : string * option exn :=
  let (filename, data) := entry in
  let head := "Filename: " +:+ filename +:+ nl in
  match data with
  | PDict d => (head +:+ foldr (fun kv acc => txt_field kv +:+ acc) "" d +:+ nl, None)
  | _ => (head, Some (Exn AttributeError ("'" +:+ type_name data +:+ "' object has no attribute 'items'")))
  end.

(** The text written to the file, and the exception that ends the loop if
    one is raised. *)
Fixpoint export_txt (out : dict pyval) : string * option exn :=
  match out with
  | [] => ("", None)
  | entry :: out' =>
      match txt_entry entry with
      | (t, None) => let (t', r) := export_txt out' in (t +:+ t', r)
      | (t, Some e) => (t, Some e)
      end
  end.

Lemma export_txt_dicts pre rest :
  Forall (fun kv => is_dict kv.2 = true) pre ->
  export_txt (pre ++ rest) = ((export_txt pre).1 +:+ (export_txt rest).1, (export_txt rest).2).
Proof.
  induction 1 as [|[fn v] pre Hv _ IH]; [simpl; by destruct (export_txt rest)|]. destruct v; try discriminate.
  cbn [app export_txt txt_entry]. rewrite IH. destruct (export_txt pre), (export_txt rest).
  simpl. by rewrite string_app_assoc.
Qed.

(** C24: the TXT export stops with [AttributeError] at the first entry of
    [output_data] that is not a dict (a model answer such as [[]] that
    normalization leaves as it is, when no face directory is set): the
    file holds the entries before it and that entry's header line, and
    the entries after it are not written. *)
Theorem export_txt_non_dict (pre post : dict pyval) (filename : string) (v : pyval) :
  Forall (fun kv => is_dict kv.2 = true) pre -> is_dict v = false ->
  export_txt (pre ++ (filename, v) :: post) =
    ((export_txt pre).1 +:+ "Filename: " +:+ filename +:+ nl,
     Some (Exn AttributeError ("'" +:+ type_name v +:+ "' object has no attribute 'items'"))).
Proof. intros Hpre Hv. rewrite export_txt_dicts by done. by destruct v. Qed.

End Txt.

(** ** JSON (lines 125-127) *)

Module Json.

Definition bslash : ascii := "\"%char.

(** [json.encoder.ESCAPE_DCT] and [ensure_ascii=True]: the quote, the
    backslash and five controls have short escapes; every other character
    outside [' '..'~'] becomes ["\u00XX"] with lowercase hex digits. *)
Definition json_char (c : ascii) : string :=
  if Ascii.eqb c dquote then String bslash dquote_str
  else if Ascii.eqb c bslash then String bslash (String bslash "")
  else if Ascii.eqb c "010"%char then String bslash "n"
  else if Ascii.eqb c "013"%char then String bslash "r"
  else if Ascii.eqb c "009"%char then String bslash "t"
  else if Ascii.eqb c "008"%char then String bslash "b"
  else if Ascii.eqb c "012"%char then String bslash "f"
  else if (32 <=? code c)%N && (code c <=? 126)%N then String c ""
  else String bslash ("u00" +:+ String (hex_digit (code c / 16)) (String (hex_digit (code c mod 16)) "")).

Fixpoint json_body (s : string) : string :=
  match s with
  | EmptyString => ""
  | String c s' => json_char c +:+ json_body s'
  end.

(** [encode_basestring_ascii] *)
Definition json_str (s : string) : string := String dquote (json_body s +:+ dquote_str).

Fixpoint spaces (n : nat) : string :=
  match n with 0 => "" | S n' => String " " (spaces n') end.

(** [indent=4]: a new line and four spaces per level. *)
Definition newline_indent (lvl : nat) : string := String Csv.lf (spaces (4 * lvl)).

(** The items after the first of a non-empty list, each after the item
    separator [","] and a new line, then the closing bracket on a line
    of the enclosing level ([_iterencode_list]). *)
Fixpoint json_items (enc : pyval -> string) (lvl : nat) (l : list pyval) : string :=
  match l with
  | [] => newline_indent lvl +:+ "]"
  | y :: l' => "," +:+ newline_indent (S lvl) +:+ enc y +:+ json_items enc lvl l'
  end.

(** The same for the members of a dict, [key: value] ([_iterencode_dict]). *)
Fixpoint json_members (enc : pyval -> string) (lvl : nat) (d : list (string * pyval)) : string :=
  match d with
  | [] => newline_indent lvl +:+ "}"
  | (k, y) :: d' => "," +:+ newline_indent (S lvl) +:+ json_str k +:+ ": " +:+ enc y +:+ json_members enc lvl d'
  end.

(** [json.encoder._make_iterencode] with [indent=4], the default
    separators [(",", ": ")] and no key sorting: an empty container is
    written [[]] or [{}]; otherwise each item goes on its own line,
    indented one level deeper. *)
Fixpoint json_enc (lvl : nat) (v : pyval) : string :=
  match v with
  | PNone => "null"
  | PBool b => if b then "true" else "false"
  | PInt z => pretty z
  | PStr s => json_str s
  | PList [] => "[]"
  | PList (x :: l') =>
      "[" +:+ newline_indent (S lvl) +:+ json_enc (S lvl) x +:+ json_items (json_enc (S lvl)) lvl l'
  | PDict [] => "{}"
  | PDict ((k, x) :: d') =>
      "{" +:+ newline_indent (S lvl) +:+ json_str k +:+ ": " +:+ json_enc (S lvl) x +:+
      json_members (json_enc (S lvl)) lvl d'
  end.

(** [json.dump(output_data, f, indent=4)] *)
Definition export_json (out : dict pyval) : string := json_enc 0 (PDict out).

(** *** A reference reader for JSON strings *)

Definition hex_val (c : ascii) : option N :=
  let n := code c in
  if (48 <=? n)%N && (n <=? 57)%N then Some (n - 48)%N
  else if (97 <=? n)%N && (n <=? 102)%N then Some (n - 87)%N
  else if (65 <=? n)%N && (n <=? 70)%N then Some (n - 55)%N
  else None.

(** A ["\uXXXX"] escape, for the code points below 256 that strings of
    this development hold. *)
Definition hex4 (a b c d : ascii) : option ascii :=
  match hex_val a, hex_val b, hex_val c, hex_val d with
  | Some x1, Some x2, Some x3, Some x4 =>
      let n := (((x1 * 16 + x2) * 16 + x3) * 16 + x4)%N in
      if (n <? 256)%N then Some (Ascii.ascii_of_N n) else None
  | _, _, _, _ => None
  end.

Definition simple_escape (e : ascii) : option ascii :=
  if Ascii.eqb e dquote then Some dquote
  else if Ascii.eqb e bslash then Some bslash
  else if Ascii.eqb e "/"%char then Some "/"%char
  else if Ascii.eqb e "n"%char then Some "010"%char
  else if Ascii.eqb e "r"%char then Some "013"%char
  else if Ascii.eqb e "t"%char then Some "009"%char
  else if Ascii.eqb e "b"%char then Some "008"%char
  else if Ascii.eqb e "f"%char then Some "012"%char
  else None.

Definition cons_fst (c : ascii) (r : option (string * string)) : option (string * string) :=
  (fun p => (String c p.1, p.2)) <$> r.

(** Reads the body of a string literal up to its closing quote; returns
    the decoded string and the text after the quote. *)
Fixpoint json_scan (s : string) : option (string * string) :=
  match s with
  | EmptyString => None
  | String c s' =>
      if Ascii.eqb c dquote then Some ("", s')
      else if Ascii.eqb c bslash then
        match s' with
        | String "u" (String h1 (String h2 (String h3 (String h4 s'')))) =>
            match hex4 h1 h2 h3 h4 with Some ch => cons_fst ch (json_scan s'') | None => None end
        | String e s'' =>
            match simple_escape e with Some ch => cons_fst ch (json_scan s'') | None => None end
        | EmptyString => None
        end
      else cons_fst c (json_scan s')
  end.

Definition json_ascii (c : ascii) : bool := (32 <=? code c)%N && (code c <=? 126)%N.

(** *** Lemmas *)

(** Each escape reads back as its character (all 256 cases). *)
Lemma json_scan_char c t : json_scan (json_char c +:+ t) = cons_fst c (json_scan t).
Proof. destruct c as [[] [] [] [] [] [] [] []]; reflexivity. Qed.

Lemma json_char_ascii c : forallb json_ascii (String.list_ascii_of_string (json_char c)) = true.
Proof. destruct c as [[] [] [] [] [] [] [] []]; reflexivity. Qed.

(** *** Theorems *)

(** Every string [json.dump] writes reads back: the escaped body followed
    by the closing quote decodes to the original string and stops right
    after that quote. *)
Lemma json_str_roundtrip (s rest : string) :
  json_scan (json_body s +:+ String dquote rest) = Some (s, rest).
Proof.
  induction s as [|c s IH]; [done|]. cbn [json_body].
  by rewrite <- string_app_assoc, json_scan_char, IH.
Qed.

(** With [ensure_ascii] the body of every JSON string is printable ASCII,
    whatever the code points of the Python string. *)
Lemma json_body_ascii (s : string) :
  forallb json_ascii (String.list_ascii_of_string (json_body s)) = true.
Proof.
  induction s as [|c s IH]; [done|]. cbn [json_body].
  by rewrite list_ascii_of_string_app, forallb_app, json_char_ascii, IH.
Qed.

End Json.

(** ** The choice of the writer (lines 124-157) *)

(** What [main] leaves at [args.output_path]. *)
Inductive output_file :=
  | WroteFile (text : string) (raised : option exn)
  | NotSupported.

Definition export (output_format : string) (out : dict pyval) : output_file :=
  let fmt := str_lower output_format in
  if String.eqb fmt "json" then WroteFile (Json.export_json out) None
  else if String.eqb fmt "txt" then let (t, r) := Txt.export_txt out in WroteFile t r
  else if String.eqb fmt "csv" then WroteFile (Csv.export_csv out) None
  else NotSupported.

(** Line 165: [argparse] accepts [--output_format] only among its
    [choices], compared as given; any other value ends the program with
    a usage error before [main] runs. *)
Definition format_choices : list string := ["json"; "txt"; "csv"].

Definition parse_output_format (arg : string) : option string :=
  if bool_decide (arg ∈ format_choices) then Some arg else None.

(** ** Theorems on the choice of the writer *)

Lemma export_supported fmt out : fmt ∈ format_choices -> export fmt out <> NotSupported.
Proof.
  unfold format_choices. intros Hin.
  repeat (apply elem_of_cons in Hin as [->|Hin]); [done| |done|by apply not_elem_of_nil in Hin].
  unfold export. simpl. by destruct (Txt.export_txt out).
Qed.


(** C25: every value [argparse] lets through selects one of the three
    writers: the branch of line 157 that prints ["not supported"] is
    unreachable. *)
Theorem export_format_total (arg fmt : string) (out : dict pyval) :
  parse_output_format arg = Some fmt -> export fmt out <> NotSupported.
Proof.
  unfold parse_output_format. case_bool_decide as Hin; [|done]. intros [= <-].
  by apply export_supported.
Qed.

(** [main] lower-cases the format (line 125), but [argparse] compares
    it with its [choices] as given: ["JSON"] is refused with a usage error
    although the writers would accept it. *)
Lemma export_upper_rejected (out : dict pyval) :
  parse_output_format "JSON" = None /\ export "JSON" out = WroteFile (Json.export_json out) None.
Proof. split; reflexivity. Qed.

(** ** Witnesses *)

Lemma export_txt_non_dict_witness :
  Txt.export_txt ([("a.png", PDict [("name", PStr "X")])] ++ ("b.jpg", PList []) :: []) =
    ("Filename: a.png" +:+ Txt.nl +:+ "  name: X" +:+ Txt.nl +:+ Txt.nl +:+ "Filename: b.jpg" +:+ Txt.nl,
     Some (Exn AttributeError "'list' object has no attribute 'items'")).
Proof. apply (Txt.export_txt_non_dict [("a.png", PDict [("name", PStr "X")])] [] "b.jpg" (PList [])); repeat constructor. Defined.

Lemma export_format_total_witness : export "csv" [] <> NotSupported.
Proof. apply (export_format_total "csv" "csv" []). reflexivity. Defined.
