(* ===== verification/JsonRead.v ===== *)
(** * Reading back the JSON file (fai.py lines 125-127)

    [json.dump(output_data, f, indent=4)] writes [Json.export_json
    output_data].  [json_read] is a reference reader for the JSON text
    fai.py writes: whitespace between tokens, [null], [true], [false],
    integers, strings with their escapes ([Json.json_scan]), arrays and
    objects, the members of an object kept in file order.  It reads
    integers without JSON's rule against leading zeros (the writer never
    produces them) and has no floats, as [pyval] has none.  The reader is
    a fuel-indexed recursive descent; the length of the text is enough
    fuel, as every value it holds takes at least one character. *)

From stdpp Require Import pretty.
From S2P Require Import Fai PyDict PyValue PathOps Export.

Import Json.

(** ** The reader *)

Definition is_ws (c : ascii) : bool :=
  Ascii.eqb c " " || Ascii.eqb c "010" || Ascii.eqb c "013" || Ascii.eqb c "009".

Fixpoint skip_ws (s : string) : string :=
  match s with
  | String c s' => if is_ws c then skip_ws s' else s
  | EmptyString => EmptyString
  end.

(** The longest prefix of digits, and the text after it. *)
Fixpoint span_digits (s : string) : string * string :=
  match s with
  | String c s' => if is_digit c then let '(a, b) := span_digits s' in (String c a, b) else ("", s)
  | EmptyString => ("", "")
  end.

(** An integer, after its sign was read. *)
Definition read_number (neg : bool) (s : string) : option (pyval * string) :=
  let '(ds, rest) := span_digits s in
  if String.eqb ds "" then None
  else (fun z => (PInt (if neg then - z else z)%Z, rest)) <$> int_body ds 0 false.

Fixpoint read_value (fuel : nat) (s : string) : option (pyval * string) :=
  match fuel with
  | O => None
  | S f =>
      match skip_ws s with
      | EmptyString => None
      | String c r =>
          if Ascii.eqb c "n" then
            match r with String "u" (String "l" (String "l" r')) => Some (PNone, r') | _ => None end
          else if Ascii.eqb c "t" then
            match r with String "r" (String "u" (String "e" r')) => Some (PBool true, r') | _ => None end
          else if Ascii.eqb c "f" then
            match r with
            | String "a" (String "l" (String "s" (String "e" r'))) => Some (PBool false, r')
            | _ => None
            end
          else if Ascii.eqb c dquote then (fun p => (PStr p.1, p.2)) <$> json_scan r
          else if Ascii.eqb c "-" then read_number true r
          else if is_digit c then read_number false (String c r)
          else if Ascii.eqb c "[" then
            match skip_ws r with
            | String c' r' => if Ascii.eqb c' "]" then Some (PList [], r')
                              else (fun p => (PList p.1, p.2)) <$> read_items f r
            | EmptyString => None
            end
          else if Ascii.eqb c "{" then
            match skip_ws r with
            | String c' r' => if Ascii.eqb c' "}" then Some (PDict [], r')
                              else (fun p => (PDict p.1, p.2)) <$> read_members f r
            | EmptyString => None
            end
          else None
      end
  end
(** The items of a non-empty array, up to its closing bracket. *)
with read_items (fuel : nat) (s : string) : option (list pyval * string) :=
  match fuel with
  | O => None
  | S f =>
      match read_value f s with
      | None => None
      | Some (x, r) =>
          match skip_ws r with
          | String "," r' => (fun p => (x :: p.1, p.2)) <$> read_items f r'
          | String "]" r' => Some ([x], r')
          | _ => None
          end
      end
  end
(** The members of a non-empty object, up to its closing brace. *)
with read_members (fuel : nat) (s : string) : option (list (string * pyval) * string) :=
  match fuel with
  | O => None
  | S f =>
      match skip_ws s with
      | String "034" r =>
          match json_scan r with
          | Some (k, r1) =>
              match skip_ws r1 with
              | String ":" r2 =>
                  match read_value f r2 with
                  | Some (x, r3) =>
                      match skip_ws r3 with
                      | String "," r4 => (fun p => ((k, x) :: p.1, p.2)) <$> read_members f r4
                      | String "}" r4 => Some ([(k, x)], r4)
                      | _ => None
                      end
                  | None => None
                  end
              | _ => None
              end
          | None => None
          end
      | _ => None
      end
  end.

(** A whole document: one value and nothing but whitespace after it. *)
Definition json_read (s : string) : option pyval :=
  match read_value (String.length s) s with
  | Some (v, r) => if String.eqb (skip_ws r) "" then Some v else None
  | None => None
  end.

(** ** Lemmas on the reader *)

(** The number of values in a value: the fuel the reader needs. *)
Fixpoint pv_size (v : pyval) : nat :=
  match v with
  | PList l => S (sum_list_with (fun x => S (pv_size x)) l)
  | PDict d => S (sum_list_with (fun kv => S (pv_size kv.2)) d)
  | _ => 1
  end.

(** A text that cannot continue a number. *)
Definition stops (rest : string) : Prop := forall c t, rest = String c t -> is_digit c = false.

(** Rewrites [Ascii.eqb c d] to [false] for a digit [c] and a constant
    [d] that is not a digit. *)
Ltac digit_neq Hc :=
  lazymatch type of Hc with
  | is_digit ?c = true =>
      repeat match goal with
      | |- context [Ascii.eqb c ?d] => rewrite (digit_eqb_false c d Hc) by reflexivity
      end
  end.

Lemma skip_ws_app w s :
  forallb is_ws (String.list_ascii_of_string w) = true -> skip_ws (w +:+ s) = skip_ws s.
Proof.
  induction w as [|c w IH]; [done|]. intros H. simpl in H. apply andb_true_iff in H as [Hc Hw].
  rewrite string_app_cons. cbn [skip_ws]. rewrite Hc. by apply IH.
Qed.

Lemma spaces_ws k : forallb is_ws (String.list_ascii_of_string (spaces k)) = true.
Proof. induction k as [|k IH]; [done|]. exact IH. Qed.

Lemma newline_indent_ws n : forallb is_ws (String.list_ascii_of_string (newline_indent n)) = true.
Proof. apply spaces_ws. Qed.

Lemma spaces_length k : String.length (spaces k) = k.
Proof. induction k as [|k IH]; simpl; [done|]. by rewrite IH. Qed.

Lemma newline_indent_length n : String.length (newline_indent n) = S (4 * n).
Proof. unfold newline_indent. cbn [String.length]. by rewrite spaces_length. Qed.

Lemma read_value_ws fuel w s :
  forallb is_ws (String.list_ascii_of_string w) = true -> read_value fuel (w +:+ s) = read_value fuel s.
Proof. intros H. destruct fuel; [done|]. cbn [read_value]. by rewrite skip_ws_app. Qed.

Lemma span_digits_app ds rest :
  forallb is_digit (String.list_ascii_of_string ds) = true -> stops rest -> span_digits (ds +:+ rest) = (ds, rest).
Proof.
  intros Hd Hs. induction ds as [|c ds IH].
  - destruct rest as [|c t]; [done|]. simpl. by rewrite (Hs c t eq_refl).
  - simpl in Hd. apply andb_true_iff in Hd as [Hc Hd]. rewrite string_app_cons. simpl. by rewrite Hc, IH.
Qed.

Lemma read_number_pos neg p rest :
  stops rest -> read_number neg (pretty (Npos p) +:+ rest) = Some (PInt (if neg then Zneg p else Zpos p), rest).
Proof.
  intros Hs. unfold read_number. rewrite span_digits_app by (done || by apply pretty_N_go_digits).
  destruct (pretty_pos_digits p) as (c & r & E & _ & _).
  replace (String.eqb (pretty (Npos p)) "") with false by (by rewrite E).
  change (pretty (Npos p)) with (pretty_N_go (Npos p) "").
  rewrite <- parse_int_digits by (by apply pretty_N_go_digits).
  change (pretty_N_go (Npos p) "") with (pretty (Npos p)). rewrite parse_int_pretty_pos.
  by destruct neg.
Qed.

Lemma read_value_digit fuel c r :
  is_digit c = true -> read_value (S fuel) (String c r) = read_number false (String c r).
Proof.
  intros Hc. cbn [read_value skip_ws]. unfold is_ws. digit_neq Hc. cbn [orb]. digit_neq Hc. by rewrite Hc.
Qed.

(** Every value is written starting with a character that is neither
    whitespace nor a closing bracket. *)
Lemma enc_head lvl v rest :
  exists c t, json_enc lvl v +:+ rest = String c t /\ is_ws c = false /\
              Ascii.eqb c "]" = false /\ Ascii.eqb c "}" = false.
Proof.
  destruct v as [|[]|[|p|p]|s|[|x l]|[|[k x] d]];
    try (eexists _, _; split; [reflexivity | done]).
  change (json_enc lvl (PInt (Zpos p))) with (pretty (Npos p)).
  destruct (pretty_pos_digits p) as (c & r & -> & Hc & _).
  exists c, (r +:+ rest). split; [done|]. unfold is_ws. digit_neq Hc. done.
Qed.

Lemma stops_items enc lvl l rest : stops (json_items enc lvl l +:+ rest).
Proof. destruct l; intros c t E; cbn in E; injection E as <- _; reflexivity. Qed.

Lemma stops_members enc lvl d rest : stops (json_members enc lvl d +:+ rest).
Proof. destruct d as [|[??]]; intros c t E; cbn in E; injection E as <- _; reflexivity. Qed.

(** The reader's correctness on one value, as the induction needs it. *)
Definition reads_back (v : pyval) : Prop :=
  forall lvl rest fuel, pv_size v <= fuel -> stops rest ->
  read_value fuel (json_enc lvl v +:+ rest) = Some (v, rest).

Lemma read_items_enc lvl x l rest fuel :
  Forall reads_back (x :: l) -> sum_list_with (fun y => S (pv_size y)) (x :: l) <= fuel -> stops rest ->
  read_items fuel (newline_indent (S lvl) +:+ json_enc (S lvl) x +:+ json_items (json_enc (S lvl)) lvl l +:+ rest)
    = Some (x :: l, rest).
Proof.
  revert x fuel. induction l as [|y l IH]; intros x [|f] HP Hf Hs; cbn [sum_list_with] in Hf; try lia;
    apply Forall_cons in HP as [Hx HP]; cbn -[json_enc json_items newline_indent];
    rewrite read_value_ws by apply newline_indent_ws; rewrite Hx by (lia || apply stops_items).
  - cbn [json_items]. rewrite <- string_app_assoc, skip_ws_app by apply newline_indent_ws. done.
  - cbn [json_items]. rewrite <- !string_app_assoc, string_app_cons, string_app_nil_l.
    cbn -[json_enc json_items newline_indent].
    rewrite IH by (done || cbn [sum_list_with]; lia). done.
Qed.

Lemma read_members_enc lvl k x d rest fuel :
  Forall (fun kv => reads_back kv.2) ((k, x) :: d) ->
  sum_list_with (fun kv => S (pv_size kv.2)) ((k, x) :: d) <= fuel -> stops rest ->
  read_members fuel (newline_indent (S lvl) +:+ json_str k +:+ ": " +:+ json_enc (S lvl) x +:+
                     json_members (json_enc (S lvl)) lvl d +:+ rest)
    = Some ((k, x) :: d, rest).
Proof.
  revert k x fuel. induction d as [|[k' y] d IH]; intros k x [|f] HP Hf Hs; cbn [sum_list_with] in Hf; try lia;
    apply Forall_cons in HP as [Hx HP]; cbn -[json_enc json_members newline_indent json_str json_scan];
    rewrite skip_ws_app by apply newline_indent_ws; unfold json_str at 1;
    rewrite string_app_cons, <- !string_app_assoc; unfold dquote_str; rewrite string_app_cons, string_app_nil_l;
    cbn -[json_enc json_members newline_indent json_str json_scan json_body];
    rewrite json_str_roundtrip, (string_app_cons ":"), (string_app_cons " "), string_app_nil_l;
    cbn -[json_enc json_members newline_indent json_str json_scan json_body];
    change (String " " ?t) with (" " +:+ t); rewrite read_value_ws by reflexivity;
    rewrite Hx by (apply stops_members || (simpl in *; lia)).
  - cbn [json_members]. rewrite <- string_app_assoc, skip_ws_app by apply newline_indent_ws. done.
  - cbn [json_members]. rewrite <- !string_app_assoc, string_app_cons, string_app_nil_l.
    cbn -[json_enc json_members newline_indent json_str].
    rewrite IH by (done || cbn [sum_list_with]; simpl in *; lia). done.
Qed.

(** The reader reads back every value [json.dump] writes, at every
    indentation level, and stops right after it. *)
Lemma read_enc v : reads_back v.
Proof.
  induction v as [| b | z | s | l IH | d IH] using pyval_ind'; intros lvl rest [|f] Hf Hs;
    cbn [pv_size] in Hf; try lia.
  - reflexivity.
  - by destruct b.
  - destruct z as [|p|p].
    + change (json_enc lvl (PInt 0)) with "0". rewrite string_app_cons, string_app_nil_l.
      rewrite read_value_digit by done. unfold read_number.
      change (String "0" rest) with ("0" +:+ rest). by rewrite span_digits_app.
    + change (json_enc lvl (PInt (Zpos p))) with (pretty (Npos p)).
      destruct (pretty_pos_digits p) as (c & r & E & Hc & _).
      rewrite E, string_app_cons, read_value_digit, <- string_app_cons, <- E by done.
      by apply read_number_pos.
    + change (json_enc lvl (PInt (Zneg p))) with ("-" +:+ pretty (Npos p)).
      rewrite <- string_app_assoc, string_app_cons, string_app_nil_l. cbn -[read_number pretty].
      by apply read_number_pos.
  - cbn [json_enc]. unfold json_str, dquote_str.
    rewrite string_app_cons, <- string_app_assoc, string_app_cons, string_app_nil_l.
    cbn -[json_scan json_body]. by rewrite json_str_roundtrip.
  - destruct l as [|x l]; [reflexivity|]. cbn [json_enc].
    rewrite <- !string_app_assoc, string_app_cons, string_app_nil_l.
    cbn -[json_enc json_items newline_indent read_items].
    rewrite skip_ws_app by apply newline_indent_ws.
    destruct (enc_head (S lvl) x (json_items (json_enc (S lvl)) lvl l +:+ rest)) as (c & t & E & Hw & Hb & _).
    rewrite E. cbn [skip_ws]. rewrite Hw, Hb, <- E.
    rewrite read_items_enc by (done || cbn [sum_list_with] in *; lia). done.
  - destruct d as [|[k x] d]; [reflexivity|]. cbn [json_enc].
    rewrite <- !string_app_assoc, string_app_cons, string_app_nil_l.
    cbn -[json_enc json_members newline_indent read_members json_str].
    rewrite skip_ws_app by apply newline_indent_ws. unfold json_str at 1. cbn [skip_ws is_ws Ascii.eqb orb].
    rewrite <- (string_app_cons dquote).
    rewrite read_members_enc by (done || cbn [sum_list_with] in *; lia). done.
Qed.

Lemma pretty_Z_length (z : Z) : 1 <= String.length (pretty z).
Proof.
  destruct z as [|p|p]; [simpl; lia| |].
  - change (pretty (Zpos p)) with (pretty (Npos p)). destruct (pretty_pos_digits p) as (c & r & -> & _). simpl. lia.
  - change (pretty (Zneg p)) with ("-" +:+ pretty (Npos p)). simpl. lia.
Qed.

(** Every value takes at least one character per value it holds, so the
    length of the text is enough fuel. *)
Lemma size_le_length v lvl : pv_size v <= String.length (json_enc lvl v).
Proof.
  revert lvl. induction v as [| b | z | s | l IH | d IH] using pyval_ind'; intros lvl; cbn [pv_size].
  - simpl. lia.
  - destruct b; simpl; lia.
  - apply pretty_Z_length.
  - simpl. lia.
  - destruct l as [|x l]; [simpl; lia|]. apply Forall_cons in IH as [Hx IH]. cbn [json_enc sum_list_with].
    rewrite !string_app_length, newline_indent_length. specialize (Hx (S lvl)).
    enough (sum_list_with (fun y => S (pv_size y)) l <= String.length (json_items (json_enc (S lvl)) lvl l))
      by (simpl; lia).
    induction IH as [|y l Hy _ IHl]; cbn [json_items sum_list_with];
      rewrite !string_app_length, newline_indent_length; [lia|]. specialize (Hy (S lvl)). simpl. lia.
  - destruct d as [|[k x] d]; [simpl; lia|]. apply Forall_cons in IH as [Hx IH]. cbn [json_enc sum_list_with].
    rewrite !string_app_length, newline_indent_length. specialize (Hx (S lvl)). cbn [snd] in *.
    enough (sum_list_with (fun kv => S (pv_size kv.2)) d <= String.length (json_members (json_enc (S lvl)) lvl d))
      by (simpl; lia).
    induction IH as [|[k' y] d Hy _ IHd]; cbn [json_members sum_list_with];
      rewrite !string_app_length, newline_indent_length; [lia|]. specialize (Hy (S lvl)). simpl in *. lia.
Qed.

(** ** The file fai.py writes *)

(** C10: round trip of the JSON output: with [--output_format json] (in
    any case, as [main] lower-cases it), [main] writes a file, without
    raising, whose text reads back as exactly [output_data]: every file
    name with its record, in the dict's order, every string and number
    as stored. *)
Theorem json_export_roundtrip (fmt : string) (out : dict pyval) :
  str_lower fmt = "json" ->
  exists text, export fmt out = WroteFile text None /\ json_read text = Some (PDict out).
Proof.
  intros Hf. exists (export_json out). split; [unfold export; by rewrite Hf|].
  unfold json_read, export_json. rewrite <- (string_app_nil_r (json_enc 0 (PDict out))) at 2.
  rewrite read_enc; [reflexivity | apply size_le_length | intros c t [=]].
Qed.

(** ** Witness *)

Lemma json_export_roundtrip_witness :
  exists text, export "JSON" [("a.png", PDict [("name", PStr "JANE DOE"); ("altered", PBool false)])] =
    WroteFile text None /\
    json_read text = Some (PDict [("a.png", PDict [("name", PStr "JANE DOE"); ("altered", PBool false)])]).
Proof. apply json_export_roundtrip. reflexivity. Defined.
