(* ===== verification/TxtRead.v ===== *)
(** * Reading back the TXT file (fai.py lines 130-136)

    The TXT writer puts, for every entry of [output_data], a line
    [Filename: <name>], one line [  <key>: <str(value)>] per field (two
    spaces, then the key, a colon and a space), and a blank line.
    [txt_read] is a reference reader of that layout: it cuts the text into
    lines and reads each entry back as its file name and its list of
    [(key, text)] pairs.  The layout has no quoting, so a reader can only
    recover the fields when no name, key or value holds a line break and
    no key holds [": "]. *)

From S2P Require Import Fai PyDict PyValue PathOps Export.

Import Txt.

(** ** The reader *)

(** The lines of a text; the piece after the last line break is the last
    element (empty when the text ends with a line break). *)
Fixpoint lines_go (s : string) (cur : list ascii) : list string :=
  match s with
  | EmptyString => [Csv.emit cur]
  | String c s' => if Ascii.eqb c Csv.lf then Csv.emit cur :: lines_go s' [] else lines_go s' (c :: cur)
  end.

Definition lines (s : string) : list string := lines_go s [].

Fixpoint strip_prefix (p s : string) : option string :=
  match p, s with
  | EmptyString, _ => Some s
  | String c p', String d s' => if Ascii.eqb c d then strip_prefix p' s' else None
  | _, _ => None
  end.

(** The text before the first [": "], and the text after it. *)
Fixpoint split_colon (s : string) : string * string :=
  match s with
  | EmptyString => ("", "")
  | String c r =>
      match (if Ascii.eqb c ":" then strip_prefix " " r else None) with
      | Some r' => ("", r')
      | None => let '(a, b) := split_colon r in (String c a, b)
      end
  end.

(** Outside an entry, a [Filename: ] line opens one; inside, a blank line
    closes it and an indented line is one more field. *)
Fixpoint txt_parse (ls : list string) (cur : option (string * list (string * string)))
    : option (list (string * list (string * string))) :=
  match cur with
  | None =>
      match ls with
      | [] => None
      | [EmptyString] => Some []
      | l :: ls' =>
          match strip_prefix "Filename: " l with
          | Some f => txt_parse ls' (Some (f, []))
          | None => None
          end
      end
  | Some (f, fs) =>
      match ls with
      | [] => None
      | l :: ls' =>
          if String.eqb l "" then (fun es => (f, rev fs) :: es) <$> txt_parse ls' None
          else match strip_prefix "  " l with
               | Some kv => txt_parse ls' (Some (f, split_colon kv :: fs))
               | None => None
               end
      end
  end.

Definition txt_read (s : string) : option (list (string * list (string * string))) :=
  txt_parse (lines s) None.

(** ** Lemmas *)

(** The line of one field, without its line break. *)
Definition field_line (kv : string * pyval) : string := "  " +:+ kv.1 +:+ ": " +:+ py_str kv.2.

(** What the TXT layout can carry: no line break in a name, a key or a
    value, and no [": "] in a key. *)
Definition no_lf (s : string) : Prop := string_contains_char Csv.lf s = false.

Definition field_ok (kv : string * pyval) : Prop :=
  no_lf kv.1 /\ string_contains ": " kv.1 = false /\ no_lf (py_str kv.2).

Lemma lines_go_line l s cur :
  no_lf l -> lines_go (l +:+ String Csv.lf s) cur = Csv.emit (Csv.rev_chars l ++ cur) :: lines_go s [].
Proof.
  unfold no_lf. revert cur. induction l as [|c l IH]; intros cur H; [done|].
  simpl in H. case_decide as Hc; [discriminate|].
  rewrite string_app_cons. cbn [lines_go]. destruct (Ascii.eqb_spec c Csv.lf); [congruence|].
  by rewrite IH, Csv.rev_chars_cons.
Qed.

Lemma lines_line l s : no_lf l -> lines_go (l +:+ String Csv.lf s) [] = l :: lines_go s [].
Proof. intros H. by rewrite lines_go_line, app_nil_r, Csv.emit_rev_chars. Qed.

Lemma field_line_no_lf kv : field_ok kv -> no_lf (field_line kv).
Proof.
  intros (H1 & _ & H3). unfold no_lf, field_line in *.
  by rewrite !string_contains_char_app, H1, H3.
Qed.

Lemma txt_field_line kv : txt_field kv = field_line kv +:+ nl.
Proof. unfold txt_field, field_line. by rewrite <- !string_app_assoc. Qed.

Lemma lines_fields d rest :
  Forall field_ok d ->
  lines_go (foldr (fun kv acc => txt_field kv +:+ acc) "" d +:+ rest) [] = map field_line d ++ lines_go rest [].
Proof.
  induction 1 as [|kv d Hkv _ IH]; [done|]. cbn [foldr map app].
  rewrite txt_field_line, <- !string_app_assoc. unfold nl at 1. rewrite string_app_cons, string_app_nil_l.
  rewrite lines_line by (by apply field_line_no_lf). by rewrite IH.
Qed.

Definition entry_ok (e : string * list (string * pyval)) : Prop := no_lf e.1 /\ Forall field_ok e.2.

Lemma export_txt_entries (es : list (string * list (string * pyval))) :
  export_txt (map (fun e => (e.1, PDict e.2)) es) =
    (foldr (fun e acc => (txt_entry (e.1, PDict e.2)).1 +:+ acc) "" es, None).
Proof. induction es as [|[f d] es IH]; [done|]. cbn [map export_txt txt_entry fst snd]. by rewrite IH. Qed.

Lemma lines_entry e rest :
  entry_ok e ->
  lines_go ((txt_entry (e.1, PDict e.2)).1 +:+ rest) [] =
    ("Filename: " +:+ e.1) :: map field_line e.2 ++ "" :: lines_go rest [].
Proof.
  destruct e as [f d]. intros [Hf Hd]. cbn [txt_entry fst snd] in *.
  rewrite <- !string_app_assoc, (string_app_assoc "Filename: " f). unfold nl at 1.
  rewrite (string_app_cons Csv.lf ""), string_app_nil_l, lines_line
    by (unfold no_lf in *; by rewrite string_contains_char_app, Hf).
  by rewrite lines_fields.
Qed.

Lemma strip_prefix_app p s : strip_prefix p (p +:+ s) = Some s.
Proof. induction p as [|c p IH]; [done|]. rewrite string_app_cons. simpl. by rewrite Ascii.eqb_refl. Qed.

Lemma split_colon_key k v : string_contains ": " k = false -> split_colon (k +:+ ": " +:+ v) = (k, v).
Proof.
  induction k as [|c k IH]; intros Hk; [reflexivity|].
  cbn [string_contains] in Hk. apply orb_false_iff in Hk as [Hp Hk].
  rewrite string_app_cons. cbn [split_colon].
  replace (if Ascii.eqb c ":" then strip_prefix " " (k +:+ ": " +:+ v) else None) with (@None string).
  - by rewrite IH.
  - destruct (Ascii.eqb_spec c ":") as [->|]; [|done].
    destruct k as [|d k]; [reflexivity|]. rewrite string_app_cons. cbn [strip_prefix].
    destruct (Ascii.eqb_spec " " d) as [<-|]; [|done].
    cbn [string_is_prefix] in Hp. rewrite !decide_True in Hp by done. discriminate.
Qed.

Lemma txt_parse_header f ls : txt_parse (("Filename: " +:+ f) :: ls) None = txt_parse ls (Some (f, [])).
Proof. by rewrite !string_app_cons, string_app_nil_l. Qed.

Lemma txt_parse_field f fs kv ls :
  field_ok kv -> txt_parse (field_line kv :: ls) (Some (f, fs)) = txt_parse ls (Some (f, (kv.1, py_str kv.2) :: fs)).
Proof.
  intros (_ & Hk & _). unfold field_line. cbn [txt_parse].
  rewrite strip_prefix_app, split_colon_key by done. by rewrite !string_app_cons.
Qed.

Lemma txt_parse_fields f fs d ls :
  Forall field_ok d ->
  txt_parse (map field_line d ++ "" :: ls) (Some (f, fs)) =
    (fun es => (f, rev fs ++ map (fun kv => (kv.1, py_str kv.2)) d) :: es) <$> txt_parse ls None.
Proof.
  intros Hd. revert fs. induction Hd as [|kv d Hkv _ IH]; intros fs.
  - cbn. by rewrite app_nil_r.
  - cbn [map app]. rewrite txt_parse_field, IH by done. cbn [rev]. by rewrite <- app_assoc.
Qed.

(** ** The file fai.py writes *)

(** C11: round trip of the TXT output: when every record is a dict and
    no file name, key or value holds a line break (nor a key [": "]),
    [--output_format txt] writes a file, without raising, from which the
    reader recovers every file name, in order, with the [str()] of each
    of its fields, in order. *)
Theorem txt_export_roundtrip (fmt : string) (es : list (string * list (string * pyval))) :
  str_lower fmt = "txt" -> Forall entry_ok es ->
  exists text, export fmt (map (fun e => (e.1, PDict e.2)) es) = WroteFile text None /\
    txt_read text = Some (map (fun e => (e.1, map (fun kv => (kv.1, py_str kv.2)) e.2)) es).
Proof.
  intros Hf Hes. eexists. split.
  - unfold export. rewrite Hf. cbn. rewrite export_txt_entries. reflexivity.
  - unfold txt_read, lines. induction Hes as [|e es He _ IH]; [reflexivity|].
    cbn [foldr]. rewrite lines_entry by done. rewrite txt_parse_header.
    rewrite txt_parse_fields by (apply He). rewrite IH. reflexivity.
Qed.

(** ** Witness *)

Lemma txt_export_roundtrip_witness :
  exists text, export "txt" (map (fun e => (e.1, PDict e.2)) [("a.png", [("name", PStr "JANE DOE"); ("altered", PBool false)])]) =
    WroteFile text None /\
    txt_read text = Some (map (fun e => (e.1, map (fun kv => (kv.1, py_str kv.2)) e.2))
                              [("a.png", [("name", PStr "JANE DOE"); ("altered", PBool false)])]).
Proof.
  apply txt_export_roundtrip; [reflexivity|].
  repeat constructor; vm_compute; reflexivity.
Defined.
