(* ===== verification/Cli.v ===== *)
(** * The command line (fai.py lines 160-171)

<<
    parser = argparse.ArgumentParser(description=...)
    parser.add_argument("--input_dir", type=str, required=True, ...)
    parser.add_argument("--output_path", type=str, default="identity_outputs.json", ...)
    parser.add_argument("--max_workers", type=int, default=4, ...)
    parser.add_argument("--output_format", type=str, default="json", choices=["json", "txt", "csv"], ...)
    parser.add_argument("--model", type=str, default="qwen2p5-vl-32b-instruct", ...)
    parser.add_argument("--face_dir", type=str, default=None, ...)
    args = parser.parse_args()
    main(args)
>>
    [parse_args] is [ArgumentParser.parse_args] of CPython 3.12 for this
    parser, in the two passes the library makes.  First every argument is
    classified ([classify], [_parse_optional]): a positional value, a
    known option (exact, [--opt=value], or a unique prefix since
    [allow_abbrev] is on), or an unknown option; an ambiguous prefix is an
    error already here.  Then the arguments are consumed left to right
    ([consume]): each option takes its explicit value or the next
    positional argument, converts it ([type=int]) and checks it
    ([choices]); [-h] prints the help and exits.  Arguments no option
    consumed are the extras.  At the end a missing [--input_dir] and then
    any extra argument are usage errors (exit status 2).

    Not modelled: the separator ["--"] (an argument list holding it is
    reported as [OutsideModel]) and the text of the help and usage
    messages. *)

From S2P Require Import Fai PyValue Export.
From stdpp Require Import pretty.

(** ** The parser *)

Inductive action := AHelp | AInputDir | AOutputPath | AMaxWorkers | AOutputFormat | AModel | AFaceDir.

#[export] Instance action_eq_dec : EqDecision action.
Proof. solve_decision. Defined.

(** [parser._option_string_actions], in registration order ([-h] and
    [--help] come first, from [add_help]). *)
Definition option_table : list (string * action) :=
  [("-h", AHelp); ("--help", AHelp); ("--input_dir", AInputDir); ("--output_path", AOutputPath);
   ("--max_workers", AMaxWorkers); ("--output_format", AOutputFormat); ("--model", AModel);
   ("--face_dir", AFaceDir)].

(** [_get_action_name]: the option strings joined by [/]. *)
Definition action_name (a : action) : string :=
  match a with
  | AHelp => "-h/--help" | AInputDir => "--input_dir" | AOutputPath => "--output_path"
  | AMaxWorkers => "--max_workers" | AOutputFormat => "--output_format"
  | AModel => "--model" | AFaceDir => "--face_dir"
  end.

Definition lookup_option (s : string) : option action :=
  snd <$> find (fun p => String.eqb p.1 s) option_table.

(** ** Strings *)

(** [s.partition("=")]: the text before the first [=], and the text after
    it when there is one. *)
Fixpoint partition_eq (s : string) : string * option string :=
  match s with
  | EmptyString => ("", None)
  | String c s' =>
      if Ascii.eqb c "=" then ("", Some s')
      else let '(a, b) := partition_eq s' in (String c a, b)
  end.

Definition all_digits (s : string) : bool := forallb is_digit (String.list_ascii_of_string s).

Definition nonempty (s : string) : bool := negb (String.eqb s "").

(** Python's [$] also matches before a final newline. *)
Definition drop_final_newline (s : string) : string :=
  match string_rev s with
  | String "010" r => string_rev r
  | _ => s
  end.

Fixpoint partition_dot (s : string) : string * option string :=
  match s with
  | EmptyString => ("", None)
  | String c s' =>
      if Ascii.eqb c "." then ("", Some s')
      else let '(a, b) := partition_dot s' in (String c a, b)
  end.

(** [parser._negative_number_matcher]: [^-\d+$|^-\d*\.\d+$]. *)
Definition is_negative_number (s : string) : bool :=
  match s with
  | String "-" r =>
      let r := drop_final_newline r in
      (nonempty r && all_digits r) ||
      match partition_dot r with
      | (a, Some b) => all_digits a && nonempty b && all_digits b
      | _ => false
      end
  | _ => false
  end.

(** ** Classification ([_parse_optional], [_get_option_tuples]) *)

(** A positional argument, or an option: its action ([None] when unknown),
    the option string it stands for, and its explicit value with a flag
    telling whether it came after [=]. *)
Inductive argclass :=
  | CPos
  | COpt (a : option action) (opt : string) (explicit : option (bool * string)).

(** The options an argument abbreviates. *)
Definition option_tuples (arg : string) : list (action * string * option (bool * string)) :=
  match arg with
  | String "-" (String "-" _) =>
      let '(prefix, expl) := partition_eq arg in
      map (fun '(o, a) => (a, o, (fun e => (true, e)) <$> expl))
          (filter (fun '(o, _) => string_is_prefix prefix o) option_table)
  | String "-" (String c rest) =>
      let short := String "-" (String c "") in
      omap (fun '(o, a) =>
              if String.eqb o short then Some (a, o, Some (false, rest))
              else if string_is_prefix arg o then Some (a, o, None) else None)
           option_table
  | _ => []
  end.

(** An argument that is no known option nor a unique prefix of one. *)
Definition classify_abbrev (arg : string) : result string argclass :=
  match option_tuples arg with
  | [(a, o, e)] => Ok (COpt (Some a) o e)
  | (_ :: _ :: _) as ts =>
      Err ("ambiguous option: " +:+ arg +:+ " could match " +:+
           String.concat ", " (map (fun '(_, o, _) => o) ts))
  | [] =>
      if is_negative_number arg || string_contains_char " " arg then Ok CPos
      else Ok (COpt None arg None)
  end.

(** [_parse_optional] *)
Definition classify (arg : string) : result string argclass :=
  match arg with
  | String "-" rest =>
      match lookup_option arg with
      | Some a => Ok (COpt (Some a) arg None)
      | None =>
          if String.eqb rest "" then Ok CPos
          else match partition_eq arg with
               | (o, Some e) =>
                   match lookup_option o with
                   | Some a => Ok (COpt (Some a) o (Some (true, e)))
                   | None => classify_abbrev arg
                   end
               | _ => classify_abbrev arg
               end
      end
  | _ => Ok CPos
  end.

(** ** The namespace and the actions *)

Record Namespace := MkNamespace {
  ns_input_dir : option string;
  ns_output_path : string;
  ns_max_workers : Z;
  ns_output_format : string;
  ns_model : string;
  ns_face_dir : option string
}.

(** The defaults of lines 162-167 ([--input_dir] has none). *)
Definition ns_defaults : Namespace :=
  MkNamespace None "identity_outputs.json" 4 "json" "qwen2p5-vl-32b-instruct" None.

(** [take_action] for an option with one value: [type] conversion, the
    [choices] check, and [setattr]. *)
Definition store (a : action) (v : string) (ns : Namespace) : result string Namespace :=
  let '(MkNamespace i o m f md fd) := ns in
  match a with
  | AInputDir => Ok (MkNamespace (Some v) o m f md fd)
  | AOutputPath => Ok (MkNamespace i v m f md fd)
  | AMaxWorkers =>
      match parse_int v with
      | Some z => Ok (MkNamespace i o z f md fd)
      | None => Err ("argument --max_workers: invalid int value: " +:+ repr_str v)
      end
  | AOutputFormat =>
      match parse_output_format v with
      | Some f' => Ok (MkNamespace i o m f' md fd)
      | None => Err ("argument --output_format: invalid choice: " +:+ repr_str v +:+
                     " (choose from 'json', 'txt', 'csv')")
      end
  | AModel => Ok (MkNamespace i o m f v fd)
  | AFaceDir => Ok (MkNamespace i o m f md (Some v))
  | AHelp => Ok ns
  end.

(** How the left-to-right pass ends. *)
Inductive consumed :=
  | CDone (ns : Namespace) (extras : list string)
  | CHelp
  | CError (msg : string).

(** [-h] with text attached: after [=], or starting with [-], the text is
    an error; otherwise it is read as more single-letter flags, and the
    help is shown first. *)
Definition help_explicit (e : bool * string) : consumed :=
  match e with
  | (true, v) | (false, (String "-" _ as v)) =>
      CError ("argument -h/--help: ignored explicit argument " +:+ repr_str v)
  | (false, _) => CHelp
  end.

(** [consume_optional] and the collection of extras, left to right. *)
Fixpoint consume (args : list (string * argclass)) (ns : Namespace) (extras : list string) : consumed :=
  match args with
  | [] => CDone ns extras
  | (s, CPos) :: rest => consume rest ns (extras ++ [s])
  | (s, COpt None _ _) :: rest => consume rest ns (extras ++ [s])
  | (_, COpt (Some AHelp) _ None) :: _ => CHelp
  | (_, COpt (Some AHelp) _ (Some e)) :: _ => help_explicit e
  | (_, COpt (Some a) _ (Some (_, v))) :: rest =>
      match store a v ns with Ok ns' => consume rest ns' extras | Err m => CError m end
  | (_, COpt (Some a) _ None) :: rest =>
      match rest with
      | (v, CPos) :: rest' =>
          match store a v ns with Ok ns' => consume rest' ns' extras | Err m => CError m end
      | _ => CError ("argument " +:+ action_name a +:+ ": expected one argument")
      end
  end.

(** The outcome of [parser.parse_args()]: the namespace, the help (exit
    status 0), or a usage error (exit status 2). *)
Inductive cli_result :=
  | Parsed (ns : Namespace)
  | ShowHelp
  | UsageError (msg : string)
  | OutsideModel.

Definition parse_args (argv : list string) : cli_result :=
  if existsb (String.eqb "--") argv then OutsideModel else
  match mapM classify argv with
  | Err m => UsageError m
  | Ok classes =>
      match consume (zip argv classes) ns_defaults [] with
      | CHelp => ShowHelp
      | CError m => UsageError m
      | CDone ns extras =>
          match ns_input_dir ns with
          | None => UsageError "the following arguments are required: --input_dir"
          | Some _ =>
              if bool_decide (extras = []) then Parsed ns
              else UsageError ("unrecognized arguments: " +:+ String.concat " " extras)
          end
      end
  end.

(** The arguments that set every field of a namespace, in the
    [--option=value] form. *)
Definition render (ns : Namespace) (input_dir : string) : list string :=
  ["--input_dir=" +:+ input_dir; "--output_path=" +:+ ns_output_path ns;
   "--max_workers=" +:+ pretty (ns_max_workers ns); "--output_format=" +:+ ns_output_format ns;
   "--model=" +:+ ns_model ns] ++
  match ns_face_dir ns with Some f => ["--face_dir=" +:+ f] | None => [] end.

(** ** The two passes on rendered arguments *)

Lemma render_no_sep ns d : existsb (String.eqb "--") (render ns d) = false.
Proof. destruct ns as [i p z f m [fd|]]; reflexivity. Qed.

Lemma render_classes ns d : mapM classify (render ns d) =
  Ok ([COpt (Some AInputDir) "--input_dir" (Some (true, d));
       COpt (Some AOutputPath) "--output_path" (Some (true, ns_output_path ns));
       COpt (Some AMaxWorkers) "--max_workers" (Some (true, pretty (ns_max_workers ns)));
       COpt (Some AOutputFormat) "--output_format" (Some (true, ns_output_format ns));
       COpt (Some AModel) "--model" (Some (true, ns_model ns))] ++
      match ns_face_dir ns with Some f => [COpt (Some AFaceDir) "--face_dir" (Some (true, f))] | None => [] end).
Proof. destruct ns as [i p z f m [fd|]]; reflexivity. Qed.

Lemma parse_output_format_in f : f ∈ format_choices -> parse_output_format f = Some f.
Proof. intros Hf. unfold parse_output_format. by rewrite bool_decide_true. Qed.

Lemma parse_output_format_choice v f : parse_output_format v = Some f -> f ∈ format_choices.
Proof. unfold parse_output_format. case_bool_decide; intros [= <-]; done. Qed.

(** ** The parser's invariant *)

Definition ns_valid_format (ns : Namespace) : Prop := ns_output_format ns ∈ format_choices.

Lemma store_valid a v ns ns' : store a v ns = Ok ns' -> ns_valid_format ns -> ns_valid_format ns'.
Proof.
  destruct ns as [i o m f md fd]. unfold ns_valid_format.
  destruct a; simpl; try (intros [= <-]; done).
  - destruct (parse_int v); intros H; [by injection H as <-|discriminate].
  - destruct (parse_output_format v) eqn:E; intros H; [|discriminate].
    injection H as <-. intros _. by eapply parse_output_format_choice.
Qed.

Lemma help_explicit_not_done e ns extras : help_explicit e <> CDone ns extras.
Proof.
  destruct e as [[] [|c v]]; simpl; try done.
  destruct c as [[] [] [] [] [] [] [] []]; done.
Qed.

Lemma consume_valid args ns extras ns' extras' :
  consume args ns extras = CDone ns' extras' -> ns_valid_format ns -> ns_valid_format ns'.
Proof.
  revert ns extras. induction args as [args IH] using (induction_ltof1 _ (@length _)).
  intros ns extras Hc Hv. destruct args as [|[s c] rest]; [by injection Hc as <- _|].
  assert (Hlt : forall l, (length l <= length rest)%nat -> ltof _ (@length _) l ((s, c) :: rest)).
  { intros l Hl. unfold ltof. simpl. lia. }
  destruct c as [|[a|] o [[b v]|]]; cbn [consume] in Hc.
  - eapply (IH rest); [apply Hlt; done | exact Hc | exact Hv].
  - destruct a; try discriminate; try (exfalso; by eapply help_explicit_not_done);
      (destruct (store _ v ns) as [ns1|] eqn:Es; [|discriminate]);
      (eapply (IH rest); [apply Hlt; done | exact Hc | by eapply store_valid]).
  - destruct a; try discriminate;
      (destruct rest as [|[v c'] rest']; [discriminate|]; destruct c'; [|discriminate];
       destruct (store _ v ns) as [ns1|] eqn:Es; [|discriminate];
       eapply (IH rest'); [apply Hlt; simpl; lia | exact Hc | by eapply store_valid]).
  - eapply (IH rest); [apply Hlt; done | exact Hc | exact Hv].
  - eapply (IH rest); [apply Hlt; done | exact Hc | exact Hv].
Qed.

Lemma parse_args_ns (argv : list string) (ns : Namespace) :
  parse_args argv = Parsed ns -> ns_input_dir ns <> None /\ ns_output_format ns ∈ format_choices.
Proof.
  unfold parse_args. destruct (existsb _ argv); [discriminate|].
  destruct (mapM classify argv) as [classes|]; [|discriminate].
  destruct (consume _ ns_defaults []) as [ns1 extras| |] eqn:Ec; try discriminate.
  destruct (ns_input_dir ns1) eqn:Ei; [|discriminate].
  case_bool_decide; [|discriminate]. intros [= <-]. split; [by rewrite Ei|].
  eapply (consume_valid _ ns_defaults); [exact Ec | by left].
Qed.

(** ** Negative numbers as values *)

Lemma partition_eq_digits s :
  forallb is_digit (String.list_ascii_of_string s) = true -> partition_eq s = (s, None).
Proof.
  induction s as [|c s IH]; [done|]. simpl. intros [Hc Hs]%andb_true_iff.
  rewrite (digit_eqb_false c "=") by done. by rewrite IH.
Qed.

Lemma drop_final_newline_digits s :
  forallb is_digit (String.list_ascii_of_string s) = true -> drop_final_newline s = s.
Proof.
  intros Hs. unfold drop_final_newline. destruct (string_rev s) as [|x r] eqn:E; [done|].
  assert (Hx : is_digit x = true).
  { pose proof (string_rev_chars s) as Hr. rewrite E in Hr. simpl in Hr.
    rewrite <- forallb_rev, <- Hr in Hs. simpl in Hs. by apply andb_true_iff in Hs as [? _]. }
  destruct x as [[] [] [] [] [] [] [] []]; try discriminate Hx; reflexivity.
Qed.

(** A negative number is a value, not an option: [_negative_number_matcher]
    matches it and the parser has no option that looks like a number. *)
Lemma classify_negative z : (z < 0)%Z -> classify (pretty z) = Ok CPos.
Proof.
  intros Hz. destruct z as [|p|p]; [lia|lia|].
  change (pretty (Zneg p)) with ("-" +:+ pretty (Npos p)).
  destruct (pretty_pos_digits p) as (c & r & -> & Hc & Hr). rewrite string_app_cons, string_app_nil_l.
  destruct c as [[] [] [] [] [] [] [] []]; try discriminate Hc;
  cbn; rewrite partition_eq_digits by done;
  unfold classify_abbrev, option_tuples, is_negative_number; cbn;
  rewrite drop_final_newline_digits by (cbn; by rewrite Hr); cbn; rewrite Hr; reflexivity.
Qed.

(** An argument that does not start with [-] is a value. *)
Lemma classify_pos d : (forall r, d <> String "-" r) -> classify d = Ok CPos.
Proof.
  destruct d as [|c r]; [done|]. intros H.
  destruct c as [[] [] [] [] [] [] [] []]; try reflexivity. by destruct (H r).
Qed.

Lemma pretty_neg_not_sep z : (z < 0)%Z -> String.eqb "--" (pretty z) = false.
Proof.
  intros Hz. apply String.eqb_neq. intros He. pose proof (classify_negative z Hz) as H.
  rewrite <- He in H. discriminate H.
Qed.

Lemma parse_negative_args d z :
  (z < 0)%Z -> (forall r, d <> String "-" r) ->
  parse_args ["--input_dir"; d; "--max_workers"; pretty z] =
    Parsed (MkNamespace (Some d) "identity_outputs.json" z "json" "qwen2p5-vl-32b-instruct" None).
Proof.
  intros Hz Hd. unfold parse_args.
  assert (Hs : String.eqb "--" d = false) by (apply String.eqb_neq; intros <-; by apply (Hd "-")).
  cbn [existsb]. rewrite Hs, pretty_neg_not_sep by done. cbn [orb].
  cbn [mapM]. rewrite (classify_pos d Hd), (classify_negative z Hz). cbn -[parse_int pretty].
  by rewrite parse_int_pretty.
Qed.

(** ** Abbreviations *)

Lemma unique_prefix_check p o :
  (forall o' a', (o', a') ∈ option_table -> string_is_prefix p o' = true -> o' = o) ->
  forallb (fun oa => negb (string_is_prefix p oa.1) || String.eqb oa.1 o) option_table = true.
Proof.
  intros H. apply forallb_forall. intros [o' a'] Hin%list_elem_of_In. cbn [fst].
  destruct (string_is_prefix p o') eqn:E; [|done]. apply orb_true_iff. right.
  apply String.eqb_eq. by apply (H o' a').
Qed.

(** ** Theorems *)

(** C9: round trip: every namespace with an input directory and an
    accepted format is what [parse_args] returns for the arguments that
    spell out its fields as [--option=value]; [int()] reads back the
    printed number of workers, and every other value, whatever its
    characters, is taken as written. *)
Theorem cli_roundtrip (ns : Namespace) (d : string) :
  ns_input_dir ns = Some d -> ns_output_format ns ∈ format_choices ->
  parse_args (render ns d) = Parsed ns.
Proof.
  intros Hi Hf. pose proof (parse_output_format_in _ Hf) as Hp.
  unfold parse_args. rewrite render_no_sep, render_classes.
  destruct ns as [i p z f m [fd|]]; cbn [ns_input_dir ns_output_format] in Hi, Hp; subst i;
  cbn -[parse_int parse_output_format pretty]; rewrite parse_int_pretty;
  cbn -[parse_int parse_output_format pretty]; rewrite Hp; reflexivity.
Qed.

(** C8: invariant: a namespace [parse_args] returns always has an input
    directory and one of the three output formats, so the dispatch of
    lines 125-157 always finds its writer. *)
Theorem parse_args_valid (argv : list string) (ns : Namespace) :
  parse_args argv = Parsed ns -> ns_input_dir ns <> None /\ ns_output_format ns ∈ format_choices.
Proof. apply parse_args_ns. Qed.

(** C27: [argparse] reads a negative number after [--max_workers] as its
    value (the negative-number rule of [_parse_optional]): for every input
    directory that does not start with [-] and every [z < 0], the
    namespace holds [max_workers = z], with the other defaults. *)
Theorem parse_negative_workers (d : string) (z : Z) :
  (z < 0)%Z -> (forall r, d <> String "-" r) ->
  parse_args ["--input_dir"; d; "--max_workers"; pretty z] =
    Parsed (MkNamespace (Some d) "identity_outputs.json" z "json" "qwen2p5-vl-32b-instruct" None).
Proof. apply parse_negative_args. Qed.

(** C28: abbreviations ([allow_abbrev], on by default): every prefix of
    at least three characters of a [--] option that is the prefix of no
    other option stands for that option. *)
Theorem option_abbrev (o : string) (a : action) (k : nat) :
  (o, a) ∈ option_table -> (3 <= k <= String.length o)%nat ->
  (forall o' a', (o', a') ∈ option_table -> string_is_prefix (String.substring 0 k o) o' = true -> o' = o) ->
  classify (String.substring 0 k o) = Ok (COpt (Some a) o None).
Proof.
  intros Hin Hk Hu%unique_prefix_check.
  repeat (apply elem_of_cons in Hin as [Hin|Hin]; [injection Hin as -> ->|]);
    [| | | | | | | | by apply not_elem_of_nil in Hin];
    cbn [String.length] in Hk;
    (do 16 (destruct k as [|k]; [first [lia | vm_compute in Hu; first [discriminate Hu | vm_compute; reflexivity]]|]));
    lia.
Qed.

(** ** Witnesses *)

Definition demo_namespace : Namespace :=
  MkNamespace (Some "imgs") "out.csv" (-3) "csv" "qwen2p5-vl-32b-instruct" (Some "faces").

Lemma cli_roundtrip_witness : parse_args (render demo_namespace "imgs") = Parsed demo_namespace.
Proof. apply cli_roundtrip; [reflexivity | vm_compute; right; right; left]. Defined.

Lemma parse_args_valid_witness :
  ns_input_dir (MkNamespace (Some "imgs") "identity_outputs.json" 4 "json" "qwen2p5-vl-32b-instruct" None) <> None /\
  ns_output_format (MkNamespace (Some "imgs") "identity_outputs.json" 4 "json" "qwen2p5-vl-32b-instruct" None)
    ∈ format_choices.
Proof. apply (parse_args_valid ["--input_dir"; "imgs"]). vm_compute. reflexivity. Defined.

Lemma parse_negative_workers_witness :
  parse_args ["--input_dir"; "in"; "--max_workers"; pretty (-1)%Z] =
    Parsed (MkNamespace (Some "in") "identity_outputs.json" (-1) "json" "qwen2p5-vl-32b-instruct" None).
Proof. apply parse_negative_workers; [lia | intros r; discriminate]. Defined.

Lemma option_abbrev_witness :
  classify (String.substring 0 5 "--max_workers") = Ok (COpt (Some AMaxWorkers) "--max_workers" None).
Proof.
  apply option_abbrev; [vm_compute; right; right; right; right; left | simpl; lia |].
  intros o' a' Hin Hp. repeat (apply elem_of_cons in Hin as [Hin|Hin]; [injection Hin as -> ->; vm_compute in Hp; congruence|]).
  by apply not_elem_of_nil in Hin.
Defined.
