(* ===== verification/Scheduler.v ===== *)
(** * The batch scheduler: the thread pool of fai.py lines 111-118

<<
    with ThreadPoolExecutor(max_workers=args.max_workers) as executor:
        future_to_file = {executor.submit(process_image, ...): filename
                          for filename, data_uri in encoded_results}
        for future in as_completed(future_to_file):
            filename, result = future.result()
            output_data[filename] = result
>>
    All tasks are submitted to the executor's FIFO work queue; at most
    [max_workers] threads each run one task; a task that finishes becomes a
    completed future; [as_completed] yields completed futures in the order
    they finished and the main thread stores each result in [output_data].
    [pool_step] has one rule for each of these three events, and any
    interleaving of them is a run of the program.

    The scheduler is generic: a task is anything with a key and a result,
    as promised by the class [PoolWork]; [Pipeline] instantiates it with
    [process_image]. *)

From S2P Require Import Fai PyDict.

(** What the pool needs of a task: its key (the file name), and the pair
    [(filename, result)] it returns with the writes it performs.  The
    returned name is the task's key. *)
Class PoolWork (T R W : Type) := {
  task_key : T -> string;
  work : T -> (string * R) * list W;
  work_key t : (work t).1.1 = task_key t
}.

(** [ThreadPoolExecutor(max_workers=...)] rejects a non-positive count. *)
Definition executor_workers (max_workers : Z) : result string nat :=
  if (max_workers <=? 0)%Z then Err "max_workers must be greater than 0"
  else Ok (Z.to_nat max_workers).

Section Pool.
Context {T R W : Type} `{!PoolWork T R W}.

Record pool := Pool {
  queued : list T;                          (* the executor's work queue *)
  running : list T;                         (* tasks held by a thread *)
  completed : list ((string * R) * list W); (* done, not yet yielded *)
  output : dict R;                          (* output_data *)
  written : list W                          (* writes of finished tasks *)
}.

Definition pool_init (tasks : list T) : pool := Pool tasks [] [] [] [].

Definition terminal (s : pool) : Prop :=
  queued s = [] /\ running s = [] /\ completed s = [].

Inductive pool_step (max_workers : nat) : pool -> pool -> Prop :=
  | step_start t q r c o f :
      length r < max_workers ->
      pool_step max_workers (Pool (t :: q) r c o f) (Pool q (t :: r) c o f)
  | step_finish t q r1 r2 c o f :
      pool_step max_workers (Pool q (r1 ++ t :: r2) c o f)
                            (Pool q (r1 ++ r2) (c ++ [work t]) o (f ++ (work t).2))
  | step_collect k v ws q r c o f :
      pool_step max_workers (Pool q r (((k, v), ws) :: c) o f)
                            (Pool q r c (dict_set k v o) f).

Definition reachable (max_workers : nat) (tasks : list T) (s : pool) : Prop :=
  rtc (pool_step max_workers) (pool_init tasks) s.

(** The abstract result of a batch: each task's key mapped to its
    result, whatever the completion order. *)
Definition spec_batch (tasks : list T) : gmap string R :=
  list_to_map (map (fun t => (work t).1) tasks).

(** Steps left: each task still has to start, finish and be collected. *)
Definition pool_measure (s : pool) : nat :=
  3 * length (queued s) + 2 * length (running s) + length (completed s).
End Pool.

Arguments pool : clear implicits.
#[export] Hint Constructors pool_step : fai.

(** ** The pool invariant *)

Section PoolTheorems.
Context {T R W : Type} `{!PoolWork T R W}.
Context (m : nat) (tasks : list T).
(** The file names of one directory listing are distinct. *)
Hypothesis Hkeys : NoDup (map task_key tasks).

(** Every task key sits in exactly one place: queued, running,
    completed, or stored in [output_data]. *)
Definition all_keys (s : pool T R W) : list string :=
  map task_key (queued s) ++ map task_key (running s) ++
  map (fun r => r.1.1) (completed s) ++ dict_keys (output s).

Record pool_inv (s : pool T R W) : Prop := {
  inv_bound : length (running s) <= m;
  inv_keys : all_keys s ≡ₚ map task_key tasks;
  inv_pending : forall t, t ∈ queued s ++ running s -> t ∈ tasks;
  inv_completed : forall r, r ∈ completed s -> exists t, t ∈ tasks /\ r = work t;
  inv_output : forall k v, dict_get k (output s) = Some v ->
               exists t, t ∈ tasks /\ (work t).1 = (k, v);
  inv_written : forall w, w ∈ written s -> exists t, t ∈ tasks /\ w ∈ (work t).2
}.

Lemma pool_inv_init : pool_inv (pool_init tasks).
Proof.
  split; simpl; [lia | | | set_solver | done | set_solver].
  - unfold all_keys; simpl. by rewrite !app_nil_r.
  - intros t. by rewrite app_nil_r.
Qed.

Lemma all_keys_NoDup s : pool_inv s -> NoDup (all_keys s).
Proof. intros Hinv. rewrite (inv_keys _ Hinv). exact Hkeys. Qed.

Lemma output_wf s : pool_inv s -> dict_wf (output s).
Proof.
  intros Hinv. pose proof (all_keys_NoDup s Hinv) as Hnd. unfold all_keys in Hnd.
  apply NoDup_app in Hnd as (_ & _ & Hnd). apply NoDup_app in Hnd as (_ & _ & Hnd).
  apply NoDup_app in Hnd as (_ & _ & Hnd). exact Hnd.
Qed.

Lemma map_key_work (ts : list T) :
  map (fun r => r.1.1) (map work ts) = map task_key ts.
Proof. rewrite map_map. apply map_ext, work_key. Qed.

Lemma pool_inv_step s s' : pool_inv s -> pool_step m s s' -> pool_inv s'.
Proof.
  intros Hinv Hstep. destruct Hinv as [Hb Hk Hp Hc Ho Hw].
  destruct Hstep as [t q r c o f Hlt|t q r1 r2 c o f|k v ws q r c o f]; simpl in *.
  - split; simpl; [lia| | |done|done|done].
    + rewrite <- Hk. unfold all_keys; simpl. solve_Permutation.
    + intros t' Ht'. apply Hp. set_solver.
  - split; simpl.
    + rewrite length_app in *; simpl in *; lia.
    + rewrite <- Hk. unfold all_keys; simpl.
      rewrite !map_app. simpl. rewrite work_key. solve_Permutation.
    + intros t' Ht'. apply Hp. set_solver.
    + intros x Hx. apply elem_of_app in Hx as [Hx|Hx]; [by apply Hc|].
      apply list_elem_of_singleton in Hx as ->.
      exists t. split; [apply Hp; set_solver|done].
    + exact Ho.
    + intros w Hx. apply elem_of_app in Hx as [Hx|Hx]; [by apply Hw|].
      exists t. split; [apply Hp; set_solver|done].
  - assert (Hnd : NoDup (all_keys (Pool q r (((k, v), ws) :: c) o f)))
      by (rewrite Hk; exact Hkeys).
    assert (Hko : k ∉ dict_keys o).
    { unfold all_keys in Hnd; simpl in Hnd.
      apply NoDup_app in Hnd as (_ & _ & Hnd). apply NoDup_app in Hnd as (_ & _ & Hnd).
      apply NoDup_cons in Hnd as [Hnd _]. set_solver. }
    split; simpl; [done| | done | | | done].
    + rewrite <- Hk. unfold all_keys; simpl.
      rewrite dict_keys_set_notin by done. solve_Permutation.
    + intros x Hx. apply Hc. set_solver.
    + intros k' v' Hg. destruct (decide (k = k')) as [<-|Hne].
      * rewrite dict_get_set_eq in Hg. injection Hg as <-.
        destruct (Hc ((k, v), ws)) as (t & Ht & Hwt); [set_solver|].
        exists t. split; [done|]. by rewrite <- Hwt.
      * rewrite dict_get_set_ne in Hg by done. by apply Ho.
Qed.

Lemma rtc_pool_inv s s' : rtc (pool_step m) s s' -> pool_inv s -> pool_inv s'.
Proof. induction 1; eauto using pool_inv_step. Qed.

Lemma reachable_inv s : reachable m tasks s -> pool_inv s.
Proof. intros Hr. eapply rtc_pool_inv; [exact Hr | apply pool_inv_init]. Qed.

(** Every entry of [output_data] is the result of one of the tasks. *)
Lemma output_from_work s k v :
  reachable m tasks s -> (k, v) ∈ output s -> exists t, t ∈ tasks /\ (work t).1 = (k, v).
Proof.
  intros Hr Hkv. pose proof (reachable_inv s Hr) as Hinv.
  apply (inv_output _ Hinv). apply dict_get_elem; [by apply output_wf | done].
Qed.

(** Every write in a reachable state was performed by one of the tasks. *)
Lemma written_from_work s w :
  reachable m tasks s -> w ∈ written s -> exists t, t ∈ tasks /\ w ∈ (work t).2.
Proof. intros Hr. apply (inv_written _ (reachable_inv s Hr)). Qed.

Lemma spec_batch_keys :
  (map (fun t => (work t).1) tasks).*1 = map task_key tasks.
Proof. rewrite <- (map_key_work tasks). by rewrite !map_map. Qed.

Lemma terminal_keys s :
  pool_inv s -> terminal s -> dict_keys (output s) ≡ₚ map task_key tasks.
Proof.
  intros Hinv (Hq & Hr & Hc). rewrite <- (inv_keys _ Hinv). unfold all_keys.
  by rewrite Hq, Hr, Hc.
Qed.

(** Bounded parallelism: in every reachable state at most [max_workers]
    tasks are running. *)
Lemma pool_bounded s : reachable m tasks s -> length (running s) <= m.
Proof. intros Hr. exact (inv_bound _ (reachable_inv s Hr)). Qed.

Lemma terminal_output_map s :
  reachable m tasks s -> terminal s -> to_map (output s) = spec_batch tasks.
Proof.
  intros Hr Ht. pose proof (reachable_inv s Hr) as Hinv.
  apply map_eq; intros k. rewrite to_map_lookup. unfold spec_batch.
  destruct (dict_get k (output s)) as [v|] eqn:Hg.
  - destruct (inv_output _ Hinv k v Hg) as (t & Ht' & Hw).
    symmetry. apply elem_of_list_to_map_1; [by rewrite spec_batch_keys|].
    apply list_elem_of_In, in_map_iff. exists t. split; [done | by apply list_elem_of_In].
  - symmetry. apply not_elem_of_list_to_map_1. rewrite spec_batch_keys.
    rewrite <- (terminal_keys s Hinv Ht). by apply dict_get_None.
Qed.

(** The abstract batch maps each task's key to its result. *)
Lemma spec_batch_lookup t : t ∈ tasks -> spec_batch tasks !! task_key t = Some (work t).1.2.
Proof.
  intros Hin. unfold spec_batch. apply elem_of_list_to_map_1; [by rewrite spec_batch_keys|].
  apply list_elem_of_In, in_map_iff. exists t. split; [|by apply list_elem_of_In].
  rewrite <- (work_key t). by destruct (work t) as [[k v] ws].
Qed.

(** C3: refinement.  When the pool has drained, [output_data] holds
    exactly [spec_batch tasks]: each file name mapped to its worker's
    result, for every interleaving of starts, completions and
    collections. *)
Theorem pool_terminal_refines s :
  reachable m tasks s -> terminal s -> to_map (output s) = spec_batch tasks.
Proof. apply terminal_output_map. Qed.

(** Cardinality: a drained pool has one entry per input file. *)
Lemma pool_terminal_size s :
  reachable m tasks s -> terminal s -> length (output s) = length tasks.
Proof.
  intros Hr Ht. pose proof (Permutation_length (terminal_keys s (reachable_inv s Hr) Ht)) as H.
  unfold dict_keys in H. by rewrite !length_map in H.
Qed.

End PoolTheorems.

(** ** Termination and progress *)

Section PoolRun.
Context {T R W : Type} `{!PoolWork T R W} (m : nat).

Lemma pool_step_measure s s' : pool_step m s s' -> pool_measure s' < pool_measure s.
Proof. destruct 1; unfold pool_measure; simpl; rewrite ?length_app; simpl; lia. Qed.

Lemma pool_step_wf : well_founded (fun s' s => pool_step m s s').
Proof.
  apply (wf_projected (<) pool_measure); [|apply lt_wf].
  intros ?? H. by apply pool_step_measure.
Qed.

Lemma pool_can_step (s : pool T R W) :
  0 < m -> ~ terminal s -> exists s', pool_step m s s'.
Proof.
  intros Hm Hnt. destruct s as [q r c o f].
  destruct c as [|[[k v] ws] c]; [|eexists; apply step_collect].
  destruct r as [|t r]; [|eexists; apply (step_finish m t q [] r)].
  destruct q as [|t q]; [destruct Hnt; done|].
  eexists. apply step_start. simpl. lia.
Qed.

Lemma pool_drains (s : pool T R W) :
  0 < m -> exists s', rtc (pool_step m) s s' /\ terminal s'.
Proof.
  intros Hm. induction s as [s IH] using (well_founded_induction pool_step_wf).
  destruct (decide (terminal s)) as [Ht|Hnt].
  - exists s. split; [constructor|done].
  - destruct (pool_can_step s Hm Hnt) as [s1 Hs1].
    destruct (IH s1 Hs1) as (s2 & Hr & Ht). exists s2. split; [|done]. by eapply rtc_l.
Qed.

End PoolRun.

(** ** An executable schedule *)

(** One task at a time: collect a completed future if there is one, else
    let the running task finish, else start the next queued task.  Every
    step is a [pool_step], so [sched_run] computes one of the program's
    interleavings. *)
Section Sched.
Context {T R W : Type} `{!PoolWork T R W} (m : nat).

Definition sched_step (s : pool T R W) : option (pool T R W) :=
  match s with
  | Pool q r (((k, v), ws) :: c) o f => Some (Pool q r c (dict_set k v o) f)
  | Pool q (t :: r) [] o f => Some (Pool q r [work t] o (f ++ (work t).2))
  | Pool (t :: q) [] [] o f => if Nat.ltb 0 m then Some (Pool q [t] [] o f) else None
  | _ => None
  end.

Fixpoint sched_run (fuel : nat) (s : pool T R W) : pool T R W :=
  match fuel with
  | O => s
  | S fuel' => match sched_step s with Some s' => sched_run fuel' s' | None => s end
  end.

Lemma sched_step_sound s s' : sched_step s = Some s' -> pool_step m s s'.
Proof.
  destruct s as [q r c o f]. unfold sched_step. intros H.
  destruct c as [|[[k v] ws] c]; [|destruct q, r; simplify_eq; constructor].
  destruct r as [|t r].
  - destruct q as [|t q]; [discriminate|].
    destruct (Nat.ltb_spec 0 m); simplify_eq. constructor. simpl. lia.
  - destruct q; simplify_eq; apply (step_finish m t _ [] r []).
Qed.

Lemma sched_run_reach fuel s : rtc (pool_step m) s (sched_run fuel s).
Proof.
  revert s; induction fuel as [|fuel IH]; intros s; simpl; [constructor|].
  destruct (sched_step s) as [s'|] eqn:E; [|constructor].
  eapply rtc_l; [by apply sched_step_sound | apply IH].
Qed.
End Sched.

(** ** Witnesses: a two-file batch on one thread *)

#[local] Instance demo_work : PoolWork string nat unit := {|
  task_key t := t;
  work t := ((t, String.length t), []);
  work_key t := eq_refl
|}.

Definition demo_tasks : list string := ["a"; "bb"].

(** After starting, finishing and collecting ["a"]. *)
Definition demo_mid : pool string nat unit := sched_run 1 3 (pool_init demo_tasks).

Definition demo_final : pool string nat unit := sched_run 1 6 (pool_init demo_tasks).

Lemma demo_keys : NoDup (map task_key demo_tasks).
Proof. apply (bool_decide_unpack _). vm_compute. reflexivity. Qed.

Lemma pool_terminal_refines_witness : to_map (output demo_final) = spec_batch demo_tasks.
Proof.
  apply (pool_terminal_refines 1 demo_tasks demo_keys); [apply sched_run_reach|].
  vm_compute. split_and!; reflexivity.
Defined.
