(* ===== verification/Pipeline.v ===== *)
(** * [main] (fai.py lines 90-121): the components composed

    [main] lists the input directory, keeps the image files, encodes them
    all ([executor.map] keeps the listing order, and the first exception
    aborts the run), creates the pool, and collects [output_data].  The
    pool is [Scheduler]'s, instantiated through [PoolWork] with the tasks
    [(filename, data_uri)] of line 113 and [Worker.process_image] as the
    work.  [main_runs] relates an input to every [output_data] and list of
    saved crops that some interleaving of the threads produces. *)

From S2P Require Import Fai PyDict PyValue Normalizer PathOps Base64 Worker Export Scheduler.
From Stdlib Require Import Init.Byte.

(** The command-line arguments that [main] reads. *)
Record MainArgs := MkMainArgs {
  m_input_dir : string;
  m_max_workers : Z;
  m_face_dir : option string
}.

Definition worker_args (a : MainArgs) : Args := MkArgs (m_input_dir a) (m_face_dir a).

Section Main.
Context (rt : Runtime) (read_file : string -> pyres (list byte)) (a : MainArgs).

(** The pool's view of [process_image] (line 113). *)
Definition fai_work : PoolWork (string * string) pyval (string * image rt) := {|
  task_key t := t.1;
  work t := process_image rt (worker_args a) t.1 t.2;
  work_key t := process_image_key rt (worker_args a) t.1 t.2
|}.

(** Lines 97-111, up to the creation of the executor. *)
Definition main_prepare (listing : list string) : pyres (list (string * string) * nat) :=
  encoded ← mapM (encode_image read_file (m_input_dir a)) (image_files listing);
  match executor_workers (m_max_workers a) with
  | Ok n => Ok (encoded, n)
  | Err msg => Err (Exn ValueError msg)
  end.

(** Lines 97-118: one interleaving of the pool ends with [output_data]
    equal to [out], after saving the crops [crops]. *)
Definition main_runs (listing : list string) (out : dict pyval)
    (crops : list (string * image rt)) : Prop :=
  exists tasks n s,
    main_prepare listing = Ok (tasks, n) /\
    @reachable _ _ _ fai_work n tasks s /\ terminal s /\
    output s = out /\ written s = crops.

(** The contents of the face directory after the crops were saved in
    this order: a later save to the same path replaces the file. *)
Definition face_dir_files (crops : list (string * image rt)) : dict (image rt) :=
  dict_of_sets crops.

(** Lines 111-118: a state of the executor some interleaving of [main]'s
    pool passes through. *)
Definition main_reaches (listing : list string) (s : pool (string * string) pyval (string * image rt)) : Prop :=
  exists tasks n, main_prepare listing = Ok (tasks, n) /\ @reachable _ _ _ fai_work n tasks s.
End Main.

(** ** Theorems *)

Section MainTheorems.
Context (rt : Runtime) (read_file : string -> pyres (list byte)) (a : MainArgs).

Lemma encode_names files tasks :
  mapM (encode_image read_file (m_input_dir a)) files = Ok tasks -> map fst tasks = files.
Proof.
  intros H. apply mapM_Ok_Forall2 in H. induction H as [|f t fs ts Ht _ IH]; [done|].
  simpl. rewrite IH. unfold encode_image in Ht. res_simpl. by subst.
Qed.

Lemma image_files_NoDup listing : NoDup listing -> NoDup (image_files listing).
Proof. apply NoDup_filter. Qed.

Lemma runs_output_map (listing : list string) out crops :
  NoDup listing -> main_runs rt read_file a listing out crops ->
  exists tasks, mapM (encode_image read_file (m_input_dir a)) (image_files listing) = Ok tasks /\
    map fst tasks = image_files listing /\
    to_map out = @spec_batch _ _ _ (fai_work rt a) tasks.
Proof.
  intros Hnd (tasks & n & s & Hp & Hr & Ht & <- & _).
  unfold main_prepare in Hp. res_simpl.
  destruct (executor_workers _); [|discriminate]. injection Hp as -> ->.
  exists tasks. split_and!; [done | by eapply encode_names|].
  apply (terminal_output_map (PoolWork0 := fai_work rt a) n tasks); [|done|done].
  simpl. erewrite encode_names by eauto. by apply image_files_NoDup.
Qed.

Lemma main_runs_exist (listing : list string) tasks :
  (1 <= m_max_workers a)%Z ->
  mapM (encode_image read_file (m_input_dir a)) (image_files listing) = Ok tasks ->
  exists out crops, main_runs rt read_file a listing out crops.
Proof.
  intros Hm He.
  destruct (pool_drains (PoolWork0 := fai_work rt a) (Z.to_nat (m_max_workers a))
              (pool_init tasks)) as (s & Hr & Ht); [lia|].
  exists (output s), (written s), tasks, (Z.to_nat (m_max_workers a)), s.
  split_and!; try done.
  unfold main_prepare. rewrite He, bind_Ok. unfold executor_workers.
  destruct (Z.leb_spec (m_max_workers a) 0); [lia|done].
Qed.

Lemma encode_all_ok files :
  (forall f, f ∈ files -> exists bs, read_file (os_path_join (m_input_dir a) f) = Ok bs) ->
  exists tasks, mapM (encode_image read_file (m_input_dir a)) files = Ok tasks.
Proof.
  intros H. apply mapM_all_Ok. intros f Hf. destruct (H f Hf) as [bs Hbs].
  unfold encode_image. rewrite Hbs. by eexists.
Qed.

Lemma encode_first_err pre f post e :
  (forall g, g ∈ pre -> exists bs, read_file (os_path_join (m_input_dir a) g) = Ok bs) ->
  read_file (os_path_join (m_input_dir a) f) = Err e ->
  mapM (encode_image read_file (m_input_dir a)) (pre ++ f :: post) = Err e.
Proof.
  intros Hpre Hf. apply mapM_first_Err; [|by unfold encode_image; rewrite Hf].
  intros g Hg. destruct (Hpre g Hg) as [bs Hbs]. unfold encode_image. rewrite Hbs. by eexists.
Qed.

Lemma prepare_workers listing tasks n :
  main_prepare read_file a listing = Ok (tasks, n) ->
  mapM (encode_image read_file (m_input_dir a)) (image_files listing) = Ok tasks /\
  (1 <= m_max_workers a)%Z /\ n = Z.to_nat (m_max_workers a).
Proof.
  unfold main_prepare, executor_workers. intros H. res_simpl.
  destruct (Z.leb_spec (m_max_workers a) 0); [discriminate|]. injection H as -> ->. split_and!; [done|lia|done].
Qed.

(** C4: every run of [main] fills [output_data] with exactly one entry
    per image file of the listing, the [process_image] result of that
    file's encoded bytes, whatever order the threads finish in. *)
Theorem main_output_refines (listing : list string) out crops :
  NoDup listing -> main_runs rt read_file a listing out crops ->
  exists tasks, mapM (encode_image read_file (m_input_dir a)) (image_files listing) = Ok tasks /\
    map fst tasks = image_files listing /\
    to_map out = @spec_batch _ _ _ (fai_work rt a) tasks.
Proof. apply runs_output_map. Qed.

(** C7: bounded parallelism of [main]: in every state its pool passes
    through, at most [args.max_workers] images are inside
    [process_image] at once (the executor of line 111 is created with
    that bound). *)
Theorem main_threads_bounded (listing : list string) s :
  NoDup listing -> main_reaches rt read_file a listing s ->
  (Z.of_nat (length (running s)) <= m_max_workers a)%Z.
Proof.
  intros Hnd (tasks & n & Hp & Hr). destruct (prepare_workers _ _ _ Hp) as (He & Hm & ->).
  assert (Hk : NoDup (map (@task_key _ _ _ (fai_work rt a)) tasks)).
  { simpl. erewrite encode_names by eauto. by apply image_files_NoDup. }
  pose proof (pool_bounded (PoolWork0 := fai_work rt a) _ tasks Hk s Hr). lia.
Qed.

(** C31: [--max_workers 0] or a negative value (accepted by argparse)
    makes the [ThreadPoolExecutor] constructor raise [ValueError], but
    only after the encode phase: when every image reads, [main] raises
    [ValueError]; when one does not, the first unreadable image in
    listing order raises its own exception instead. *)
Theorem main_bad_workers (listing : list string) :
  (m_max_workers a <= 0)%Z ->
  ((forall f, f ∈ image_files listing -> exists bs, read_file (os_path_join (m_input_dir a) f) = Ok bs) ->
   main_prepare read_file a listing = Err (Exn ValueError "max_workers must be greater than 0")) /\
  (forall pre f post e, image_files listing = pre ++ f :: post ->
   (forall g, g ∈ pre -> exists bs, read_file (os_path_join (m_input_dir a) g) = Ok bs) ->
   read_file (os_path_join (m_input_dir a) f) = Err e ->
   main_prepare read_file a listing = Err e).
Proof.
  intros Hm. split.
  - intros Hall. destruct (encode_all_ok _ Hall) as [tasks He].
    unfold main_prepare. rewrite He, bind_Ok. unfold executor_workers.
    destruct (Z.leb_spec (m_max_workers a) 0); [done|lia].
  - intros pre f post e Hl Hpre Hf. unfold main_prepare. rewrite Hl.
    by rewrite (encode_first_err pre f post e Hpre Hf).
Qed.

(** C15: when the model answers every image with a JSON object, the TXT
    export of every run of [main] writes the whole of [output_data]
    without raising: every record, the error records included, is a
    dict, so [data.items()] never fails. *)
Theorem txt_export_total (listing : list string) out crops :
  NoDup listing -> (forall c v, json_loads rt c = Ok v -> is_dict v = true) ->
  main_runs rt read_file a listing out crops -> exists text, export "txt" out = WroteFile text None.
Proof.
  intros Hnd Hl (tasks & n & s & Hp & Hr & _ & <- & _).
  destruct (prepare_workers _ _ _ Hp) as (He & _ & ->).
  assert (Hk : NoDup (map (@task_key _ _ _ (fai_work rt a)) tasks)).
  { simpl. erewrite encode_names by eauto. by apply image_files_NoDup. }
  assert (Hall : Forall (fun kv => is_dict kv.2 = true) (output s)).
  { apply Forall_forall. intros [k v] Hkv.
    destruct (output_from_work (PoolWork0 := fai_work rt a) _ tasks Hk s k v Hr Hkv) as (t & _ & Ht).
    simpl in Ht. cbn [snd]. replace v with (process_image rt (worker_args a) t.1 t.2).1.2 by (by rewrite Ht).
    by apply process_image_record_dict. }
  unfold export. simpl. pose proof (Txt.export_txt_dicts (output s) [] Hall) as H.
  rewrite app_nil_r in H. rewrite H. by eexists.
Qed.

(** C6: a face crop is saved only for an image whose extraction
    succeeded: every crop a run of [main] saves is at the face-crop path
    of an image file of the listing, with [--face_dir] set, and that
    file's entry in [output_data] is the normalized answer of the model
    to that image's data URI. *)
Theorem crops_from_successes (listing : list string) out crops p img :
  NoDup listing -> main_runs rt read_file a listing out crops -> (p, img) ∈ crops ->
  exists f uri fdir r, f ∈ image_files listing /\ encode_image read_file (m_input_dir a) f = Ok (f, uri) /\
    face_dir_set (worker_args a) = Some fdir /\ p = face_crop_path fdir f /\ dict_get f out = Some r /\
    exists content raw, llm_create rt (build_request uri) = Ok content /\ json_loads rt content = Ok raw /\
      normalize raw = Ok r.
Proof.
  intros Hnd (tasks & n & s & Hp & Hr & Ht & <- & <-) Hc.
  destruct (prepare_workers _ _ _ Hp) as (He & _ & ->).
  assert (Hk : NoDup (map (@task_key _ _ _ (fai_work rt a)) tasks)).
  { simpl. erewrite encode_names by eauto. by apply image_files_NoDup. }
  destruct (written_from_work (PoolWork0 := fai_work rt a) _ tasks Hk s _ Hr Hc) as ([f uri] & Htin & Hw).
  destruct (mapM_elem_Ok _ _ _ _ He Htin) as (f' & Hf' & Henc).
  assert (f' = f) as -> by (unfold encode_image in Henc; res_simpl; congruence).
  destruct (process_image_saves rt (worker_args a) f uri _ Hw)
    as (fdir & content & raw & r & Hfd & Hpath & Hllm & Hj & Hn & Hrec).
  exists f, uri, fdir, r. split_and!; [done | done | done | done | | by exists content, raw].
  rewrite <- to_map_lookup, (terminal_output_map (PoolWork0 := fai_work rt a) _ tasks Hk s Hr Ht).
  pose proof (spec_batch_lookup (PoolWork0 := fai_work rt a) tasks Hk (f, uri) Htin) as L.
  cbn [task_key work fai_work fst snd] in L, Hrec. by rewrite L, Hrec.
Qed.

(** C32: one unreadable image aborts the whole batch before any model
    call: the encode phase has no per-file isolation. *)
Theorem main_encode_error (listing : list string) f e :
  f ∈ image_files listing ->
  read_file (os_path_join (m_input_dir a) f) = Err e ->
  exists e', main_prepare read_file a listing = Err e'.
Proof.
  intros Hf Hr. unfold main_prepare.
  destruct (mapM_elem_Err (encode_image read_file (m_input_dir a)) _ f e Hf)
    as [e' ->]; [by unfold encode_image; rewrite Hr|].
  by exists e'.
Qed.
End MainTheorems.

(** ** The spec's scenario and the order of completion *)

Definition demo_read (p : string) : pyres (list byte) :=
  if String.eqb p "in/a.png" || String.eqb p "in/a.jpg" then Ok [x01; x02]
  else if String.eqb p "in/b.jpg" then Ok [x03; x04]
  else Err (Exn OSError ("[Errno 2] No such file or directory: " +:+ repr_str p)).

Definition demo_main_args : MainArgs := MkMainArgs "in" 2 (Some "faces").

Definition demo_listing : list string := ["a.png"; "b.jpg"; "notes.txt"].

Definition demo_tasks : list (string * string) :=
  [("a.png", demo_uri_a); ("b.jpg", "data:image/png;base64,AwQ=")].

Lemma demo_encode :
  mapM (encode_image demo_read "in") (image_files demo_listing) = Ok demo_tasks.
Proof. vm_compute. reflexivity. Qed.

Definition demo_work := fai_work demo_rt demo_main_args.

(** Both files started on the two threads, [b.jpg] last. *)
Definition demo_both_running : pool (string * string) pyval (string * image demo_rt) :=
  Pool [] [("b.jpg", "data:image/png;base64,AwQ="); ("a.png", demo_uri_a)] [] [] [].

(** The run in which [a.png] completes first, and the run in which
    [b.jpg] does. *)
Definition demo_run1 := @sched_run _ _ _ demo_work 2 6 (pool_init demo_tasks).
Definition demo_run2 := @sched_run _ _ _ demo_work 2 4 demo_both_running.

Lemma demo_prepare : main_prepare demo_read demo_main_args demo_listing = Ok (demo_tasks, 2).
Proof. vm_compute. reflexivity. Qed.

Lemma demo_runs1 : main_runs demo_rt demo_read demo_main_args demo_listing (output demo_run1) (written demo_run1).
Proof.
  exists demo_tasks, 2, demo_run1. split_and!; [apply demo_prepare | apply sched_run_reach
    | vm_compute; split_and!; reflexivity | done | done].
Qed.

Lemma demo_runs2 : main_runs demo_rt demo_read demo_main_args demo_listing (output demo_run2) (written demo_run2).
Proof.
  exists demo_tasks, 2, demo_run2. split_and!; [apply demo_prepare | | vm_compute; split_and!; reflexivity | done | done].
  eapply rtc_l; [apply step_start; simpl; lia|].
  eapply rtc_l; [apply step_start; simpl; lia|].
  apply sched_run_reach.
Qed.

(** C30: [output_data] is filled in completion order, so its order (and
    the order of the TXT and CSV files written from it) differs between
    runs of the same input. *)
Theorem output_order_nondeterministic :
  exists out1 out2 crops1 crops2,
    main_runs demo_rt demo_read demo_main_args demo_listing out1 crops1 /\
    main_runs demo_rt demo_read demo_main_args demo_listing out2 crops2 /\
    dict_keys out1 = ["a.png"; "b.jpg"] /\ dict_keys out2 = ["b.jpg"; "a.png"].
Proof.
  exists (output demo_run1), (output demo_run2), (written demo_run1), (written demo_run2).
  split_and!; [apply demo_runs1 | apply demo_runs2 | vm_compute; reflexivity | vm_compute; reflexivity].
Qed.

(** ** Two images with the same stem *)

Definition dup_listing : list string := ["a.png"; "a.jpg"].

Definition dup_tasks : list (string * string) := [("a.png", demo_uri_a); ("a.jpg", demo_uri_a)].

Lemma dup_prepare : main_prepare demo_read demo_main_args dup_listing = Ok (dup_tasks, 2).
Proof. vm_compute. reflexivity. Qed.

Definition dup_both_running : pool (string * string) pyval (string * image demo_rt) :=
  Pool [] [("a.jpg", demo_uri_a); ("a.png", demo_uri_a)] [] [] [].

Definition dup_run1 := @sched_run _ _ _ demo_work 2 6 (pool_init dup_tasks).
Definition dup_run2 := @sched_run _ _ _ demo_work 2 4 dup_both_running.

(** C29: [a.png] and [a.jpg] both save their face to [faces/a_face.png];
    which crop the directory keeps depends on which thread finishes last. *)
Theorem face_crop_overwrite :
  exists out1 out2 crops1 crops2,
    main_runs demo_rt demo_read demo_main_args dup_listing out1 crops1 /\
    main_runs demo_rt demo_read demo_main_args dup_listing out2 crops2 /\
    dict_get "faces/a_face.png" (face_dir_files demo_rt crops1) = Some ("in/a.jpg", 50%Z, 50%Z) /\
    dict_get "faces/a_face.png" (face_dir_files demo_rt crops2) = Some ("in/a.png", 50%Z, 50%Z).
Proof.
  exists (output dup_run1), (output dup_run2), (written dup_run1), (written dup_run2).
  split_and!; [| | vm_compute; reflexivity | vm_compute; reflexivity].
  - exists dup_tasks, 2, dup_run1. split_and!; [apply dup_prepare | apply sched_run_reach
      | vm_compute; split_and!; reflexivity | done | done].
  - exists dup_tasks, 2, dup_run2. split_and!; [apply dup_prepare | | vm_compute; split_and!; reflexivity | done | done].
    eapply rtc_l; [apply step_start; simpl; lia|].
    eapply rtc_l; [apply step_start; simpl; lia|].
    apply sched_run_reach.
Qed.

(** ** Witnesses *)

Lemma main_output_refines_witness :
  exists tasks, mapM (encode_image demo_read (m_input_dir demo_main_args)) (image_files demo_listing) = Ok tasks /\
    map fst tasks = image_files demo_listing /\
    to_map (output demo_run1) = @spec_batch _ _ _ (fai_work demo_rt demo_main_args) tasks.
Proof.
  apply (main_output_refines demo_rt demo_read demo_main_args demo_listing _ (written demo_run1));
    [apply (bool_decide_unpack _); vm_compute; reflexivity | apply demo_runs1].
Defined.

Lemma main_bad_workers_witness :
  ((forall f, f ∈ image_files demo_listing ->
     exists bs, demo_read (os_path_join (m_input_dir (MkMainArgs "in" 0 None)) f) = Ok bs) ->
   main_prepare demo_read (MkMainArgs "in" 0 None) demo_listing =
     Err (Exn ValueError "max_workers must be greater than 0")) /\
  (forall pre f post e, image_files demo_listing = pre ++ f :: post ->
   (forall g, g ∈ pre -> exists bs, demo_read (os_path_join (m_input_dir (MkMainArgs "in" 0 None)) g) = Ok bs) ->
   demo_read (os_path_join (m_input_dir (MkMainArgs "in" 0 None)) f) = Err e ->
   main_prepare demo_read (MkMainArgs "in" 0 None) demo_listing = Err e).
Proof. apply (main_bad_workers demo_read (MkMainArgs "in" 0 None) demo_listing). vm_compute. discriminate. Defined.

Lemma main_encode_error_witness :
  exists e', main_prepare demo_read demo_main_args ["a.png"; "c.png"] = Err e'.
Proof.
  apply (main_encode_error demo_read demo_main_args ["a.png"; "c.png"] "c.png"
           (Exn OSError ("[Errno 2] No such file or directory: " +:+ repr_str "in/c.png")));
    [vm_compute; right; left | vm_compute; reflexivity].
Defined.

Lemma main_threads_bounded_witness :
  (Z.of_nat (length (running demo_run1)) <= m_max_workers demo_main_args)%Z.
Proof.
  apply (main_threads_bounded demo_rt demo_read demo_main_args demo_listing);
    [apply (bool_decide_unpack _); vm_compute; reflexivity|].
  exists demo_tasks, 2. split; [apply demo_prepare | apply sched_run_reach].
Defined.

Lemma txt_export_total_witness :
  exists text, export "txt" (output demo_run1) = WroteFile text None.
Proof.
  apply (txt_export_total demo_rt demo_read demo_main_args demo_listing _ (written demo_run1));
    [apply (bool_decide_unpack _); vm_compute; reflexivity | | apply demo_runs1].
  intros c v. simpl. destruct (String.eqb c "a"); intros H; [by injection H as <-|discriminate].
Defined.

Lemma crops_from_successes_witness :
  exists f uri fdir r, f ∈ image_files demo_listing /\
    encode_image demo_read (m_input_dir demo_main_args) f = Ok (f, uri) /\
    face_dir_set (worker_args demo_main_args) = Some fdir /\ "faces/a_face.png" = face_crop_path fdir f /\
    dict_get f (output demo_run1) = Some r /\
    exists content raw, llm_create demo_rt (build_request uri) = Ok content /\ json_loads demo_rt content = Ok raw /\
      normalize raw = Ok r.
Proof.
  apply (crops_from_successes demo_rt demo_read demo_main_args demo_listing _ (written demo_run1)
           "faces/a_face.png" ("in/a.png", 50%Z, 50%Z));
    [apply (bool_decide_unpack _); vm_compute; reflexivity | apply demo_runs1 | vm_compute; left].
Defined.
