(* ===== verification/Program.v ===== *)
(** * The script: [parse_args()] then [main(args)] (fai.py lines 90-171)

    [script_runs argv o] holds when running [python fai.py argv] can end
    with the outcome [o]: the exit status of [argparse] (0 after [-h], 2 on
    a usage error), an exception that escaped [main], or the file [main]
    left at [args.output_path].  Every call of [main] that reaches the
    operating system or the inference service is a capability that may
    raise: [LLM(model=args.model)] (line 91) returns the runtime of the
    model or raises, [os.makedirs(args.face_dir, exist_ok=True)] (line 95),
    [os.listdir] (line 98), the file reads of [encode_image], and
    [open(args.output_path, "w")] (lines 126, 131, 145). *)

From stdpp Require Import pretty.
From S2P Require Import Fai PyDict PyValue PathOps Base64 Worker Export Cli Scheduler Pipeline.
From Stdlib Require Import Init.Byte.

(** How the script ends.  [Finished path file] is a run of [main] that
    reached the export: [file] is what the writer of the chosen format
    left at [path] (with the exception the TXT writer raised, if it
    did), or [NotSupported] when line 157 only printed a message. *)
Inductive outcome :=
  | ExitStatus (code : Z)
  | Raised (e : exn)
  | Finished (path : string) (file : output_file).

(** The fields of [args] that [main] reads before the export. *)
Definition main_args_of (ns : Namespace) : MainArgs :=
  MkMainArgs (default "" (ns_input_dir ns)) (ns_max_workers ns) (ns_face_dir ns).

(** The operating system and the inference service as [main] calls them. *)
Record System := MkSystem {
  llm_of : string -> pyres Runtime;
  makedirs : string -> pyres unit;
  listdir : string -> pyres (list string);
  read_file : string -> pyres (list byte);
  open_w : string -> pyres unit
}.

Section Script.
Context (sys : System).

(** Lines 124-157: [open] is called in the three supported branches,
    before anything is written; the last branch only prints. *)
Definition save (path fmt : string) (out : dict pyval) : outcome :=
  match export fmt out with
  | NotSupported => Finished path NotSupported
  | WroteFile t r =>
      match open_w sys path with
      | Err e => Raised e
      | Ok _ => Finished path (WroteFile t r)
      end
  end.

(** Lines 90-157 for the parsed arguments. *)
Definition main_outcome (ns : Namespace) (o : outcome) : Prop :=
  let a := main_args_of ns in
  match llm_of sys (ns_model ns) with
  | Err e => o = Raised e
  | Ok rt =>
      match (if face_dir_set (worker_args a) is Some d then makedirs sys d else Ok tt) with
      | Err e => o = Raised e
      | Ok _ =>
          match listdir sys (m_input_dir a) with
          | Err e => o = Raised e
          | Ok listing =>
              match main_prepare (read_file sys) a listing with
              | Err e => o = Raised e
              | Ok _ => exists out crops, main_runs rt (read_file sys) a listing out crops /\
                          o = save (ns_output_path ns) (ns_output_format ns) out
              end
          end
      end
  end.

(** Lines 160-171. *)
Definition script_runs (argv : list string) (o : outcome) : Prop :=
  match parse_args argv with
  | Parsed ns => main_outcome ns o
  | ShowHelp => o = ExitStatus 0
  | UsageError _ => o = ExitStatus 2
  | OutsideModel => False
  end.
End Script.

(** ** Theorems *)

Section ScriptTheorems.
Context (sys : System).

Lemma main_prepare_ok a listing tasks :
  (1 <= m_max_workers a)%Z ->
  mapM (encode_image (read_file sys) (m_input_dir a)) (image_files listing) = Ok tasks ->
  main_prepare (read_file sys) a listing = Ok (tasks, Z.to_nat (m_max_workers a)).
Proof.
  intros Hm He. unfold main_prepare. rewrite He, bind_Ok. unfold executor_workers.
  destruct (Z.leb_spec (m_max_workers a) 0); [lia|done].
Qed.

(** The calls before the listing succeed. *)
Definition setup_ok (ns : Namespace) (rt : Runtime) : Prop :=
  llm_of sys (ns_model ns) = Ok rt /\
  forall d, face_dir_set (worker_args (main_args_of ns)) = Some d -> makedirs sys d = Ok tt.

Lemma main_outcome_setup ns rt o :
  setup_ok ns rt ->
  main_outcome sys ns o <->
  match listdir sys (default "" (ns_input_dir ns)) with
  | Err e => o = Raised e
  | Ok listing =>
      match main_prepare (read_file sys) (main_args_of ns) listing with
      | Err e => o = Raised e
      | Ok _ => exists out crops, main_runs rt (read_file sys) (main_args_of ns) listing out crops /\
                  o = save sys (ns_output_path ns) (ns_output_format ns) out
      end
  end.
Proof.
  intros [Hl Hd]. unfold main_outcome. rewrite Hl.
  destruct (face_dir_set _) as [d|]; [by rewrite (Hd d eq_refl)|done].
Qed.

(** When every call up to the pool succeeds, the script reaches the
    export, after one of the runs of the pool. *)
Lemma script_reaches_save (argv : list string) (ns : Namespace) (rt : Runtime) (listing : list string) tasks o :
  parse_args argv = Parsed ns -> setup_ok ns rt ->
  listdir sys (default "" (ns_input_dir ns)) = Ok listing -> (1 <= ns_max_workers ns)%Z ->
  mapM (encode_image (read_file sys) (default "" (ns_input_dir ns))) (image_files listing) = Ok tasks ->
  script_runs sys argv o <->
  exists out crops, main_runs rt (read_file sys) (main_args_of ns) listing out crops /\
    o = save sys (ns_output_path ns) (ns_output_format ns) out.
Proof.
  intros Hp Hs Hl Hm He. unfold script_runs. rewrite Hp, (main_outcome_setup ns rt o Hs), Hl.
  by rewrite (main_prepare_ok (main_args_of ns) listing tasks Hm He).
Qed.

(** C1: refinement of the whole script: when the arguments parse, the
    client is created, the face directory (if any) is made, the directory
    lists, every image is readable, [--max_workers] is at least 1 and the
    output file opens, the script always reaches the export, and every
    run writes at [args.output_path] the chosen format (never the "not
    supported" branch) of an [output_data] that maps each image file to
    its [process_image] result. *)
Theorem script_correct (argv : list string) (ns : Namespace) (rt : Runtime) (listing : list string) tasks :
  parse_args argv = Parsed ns -> setup_ok ns rt ->
  listdir sys (default "" (ns_input_dir ns)) = Ok listing -> NoDup listing ->
  (1 <= ns_max_workers ns)%Z ->
  mapM (encode_image (read_file sys) (default "" (ns_input_dir ns))) (image_files listing) = Ok tasks ->
  open_w sys (ns_output_path ns) = Ok tt ->
  (exists o, script_runs sys argv o) /\
  forall o, script_runs sys argv o ->
    exists out, o = Finished (ns_output_path ns) (export (ns_output_format ns) out) /\
      export (ns_output_format ns) out <> NotSupported /\
      to_map out = @spec_batch _ _ _ (fai_work rt (main_args_of ns)) tasks.
Proof.
  intros Hp Hs Hl Hnd Hm He Ho. setoid_rewrite (script_reaches_save argv ns rt listing tasks _ Hp Hs Hl Hm He).
  destruct (parse_args_ns argv ns Hp) as [_ Hf].
  assert (Hsave : forall out, save sys (ns_output_path ns) (ns_output_format ns) out =
                              Finished (ns_output_path ns) (export (ns_output_format ns) out)).
  { intros out. unfold save. pose proof (export_supported _ out Hf).
    destruct (export _ out); [by rewrite Ho | done]. }
  split.
  - destruct (main_runs_exist rt (read_file sys) (main_args_of ns) listing tasks Hm He)
      as (out & crops & Hr). eexists _, out, crops. split; [exact Hr | reflexivity].
  - intros o (out & crops & Hr & ->). exists out. split_and!; [apply Hsave | by apply export_supported|].
    destruct (runs_output_map _ _ _ listing out crops Hnd Hr) as (tasks' & He' & _ & Hmap).
    cbn [m_input_dir main_args_of] in He'. rewrite He in He'. injection He' as <-. exact Hmap.
Qed.


(** C33: a negative [--max_workers] never produces an output file: every
    run of [python fai.py --input_dir d --max_workers z] with [z < 0]
    ends with an exception; when the client, the listing and every image
    read succeed, that exception is the [ValueError] of the executor,
    raised after the encode phase. *)
Theorem script_negative_workers (d : string) (z : Z) :
  (z < 0)%Z -> (forall r, d <> String "-" r) ->
  (forall o, script_runs sys ["--input_dir"; d; "--max_workers"; pretty z] o -> exists e, o = Raised e) /\
  (forall rt listing,
     llm_of sys "qwen2p5-vl-32b-instruct" = Ok rt -> listdir sys d = Ok listing ->
     (forall f, f ∈ image_files listing -> exists bs, read_file sys (os_path_join d f) = Ok bs) ->
     forall o, script_runs sys ["--input_dir"; d; "--max_workers"; pretty z] o <->
               o = Raised (Exn ValueError "max_workers must be greater than 0")).
Proof.
  intros Hz Hd. unfold script_runs. rewrite parse_negative_args by done.
  set (ns := MkNamespace (Some d) "identity_outputs.json" z "json" "qwen2p5-vl-32b-instruct" None).
  assert (Hw : (m_max_workers (main_args_of ns) <= 0)%Z) by (simpl; lia).
  split.
  - intros o. unfold main_outcome.
    change (face_dir_set (worker_args (main_args_of ns))) with (@None string). cbv beta iota.
    destruct (llm_of sys _); [|eauto]. destruct (listdir sys _) as [listing|e]; [|eauto].
    destruct (main_prepare _ _ listing) as [[tasks n]|e] eqn:Ep; [|eauto].
    destruct (prepare_workers _ _ _ _ _ Ep) as (_ & Hm & _). simpl in Hm. lia.
  - intros rt listing Hl Hls Hall o. unfold main_outcome.
    change (ns_model ns) with "qwen2p5-vl-32b-instruct". rewrite Hl.
    change (face_dir_set (worker_args (main_args_of ns))) with (@None string). cbv beta iota.
    change (m_input_dir (main_args_of ns)) with d. rewrite Hls.
    by rewrite (proj1 (main_bad_workers (read_file sys) (main_args_of ns) listing Hw) Hall).
Qed.
End ScriptTheorems.

(** ** The concrete script *)

Definition demo_listdir (d : string) : pyres (list string) :=
  if String.eqb d "in" then Ok demo_listing
  else Err (Exn OSError ("[Errno 2] No such file or directory: " +:+ repr_str d)).

Definition demo_sys : System := {|
  llm_of _ := Ok demo_rt;
  makedirs _ := Ok tt;
  listdir := demo_listdir;
  read_file := demo_read;
  open_w _ := Ok tt
|}.

(** ** Witnesses *)

Definition demo_argv : list string := ["--input_dir"; "in"; "--max_workers"; "2"; "--face_dir"; "faces"].

Definition demo_ns : Namespace :=
  MkNamespace (Some "in") "identity_outputs.json" 2 "json" "qwen2p5-vl-32b-instruct" (Some "faces").

Lemma script_correct_witness :
  (exists o, script_runs demo_sys demo_argv o) /\
  forall o, script_runs demo_sys demo_argv o ->
    exists out, o = Finished (ns_output_path demo_ns) (export (ns_output_format demo_ns) out) /\
      export (ns_output_format demo_ns) out <> NotSupported /\
      to_map out = @spec_batch _ _ _ (fai_work demo_rt (main_args_of demo_ns)) demo_tasks.
Proof.
  apply (script_correct demo_sys demo_argv demo_ns demo_rt demo_listing demo_tasks);
    [vm_compute; reflexivity | split; [reflexivity | intros; reflexivity] | reflexivity
    | apply (bool_decide_unpack _); vm_compute; reflexivity
    | vm_compute; discriminate | apply demo_encode | reflexivity].
Defined.

Lemma script_negative_workers_witness :
  (forall o, script_runs demo_sys ["--input_dir"; "in"; "--max_workers"; pretty (-1)%Z] o -> exists e, o = Raised e) /\
  (forall rt listing,
     llm_of demo_sys "qwen2p5-vl-32b-instruct" = Ok rt -> listdir demo_sys "in" = Ok listing ->
     (forall f, f ∈ image_files listing -> exists bs, read_file demo_sys (os_path_join "in" f) = Ok bs) ->
     forall o, script_runs demo_sys ["--input_dir"; "in"; "--max_workers"; pretty (-1)%Z] o <->
               o = Raised (Exn ValueError "max_workers must be greater than 0")).
Proof. apply (script_negative_workers demo_sys "in" (-1)); [lia | intros r; discriminate]. Defined.


